(** * Energy sources card: from the statistics to the table

    A shallow embedding of the two implementations of the card that the
    repository carries,

    - [V100]: [custom-energy-sources-card.js], [CARD_VERSION = '1.0.0'];
    - [V130]: the second copy of the card, [CARD_VERSION = '1.3.0'];

    with the fragment of the JavaScript runtime they run on ([JS]).

    JavaScript numbers are IEEE 754 binary64 values: they are modelled by
    Rocq's primitive [float]s, so that every arithmetic step of the model
    is the one the engine performs. A string is the UTF-8 text of the
    JavaScript string. The fields of the host's and of the dashboard's
    records have the types the README gives them: a text field is a string
    or absent, a flag a boolean or absent, a numeric field a number, [null]
    or absent; the label, the emoji and the unit of a source may also be a
    member of [Object.prototype], which the normalizer finds in its tables
    for a type of that name. What the card computes before it writes
    markup (rows, net-metering row, total) is the result of [render] in
    [V130] and [V100]. The statistics requests, the life cycle of the
    element and the visual editor follow in [Life130], [Life100] and
    [Editor130], the markup of 1.3.0 in [Markup130]. The instants of a date
    range ([Date], the local time zone) are the host's: the model keeps
    whether a date is valid, not its value. *)

From Stdlib Require Import ZArith List String Ascii Bool Lia Floats DecimalString.
From stdpp Require Import base option list gmap strings.

Set Warnings "-inexact-float".
Set Default Proof Using "Type".

Open Scope Z_scope.

(** * The JavaScript runtime fragment *)

Module JS.

(** ** Numbers *)

Abbreviation number := float.

Definition isNaN (x : number) : bool := PrimFloat.is_nan x.

(** [x === y] on numbers: IEEE equality ([NaN] differs from itself,
    [+0 === -0]). *)
Definition strict_eq (x y : number) : bool := PrimFloat.eqb x y.

(** ToBoolean on a number: [0], [-0] and [NaN] are falsy. *)
Definition truthy (x : number) : bool := negb (strict_eq x 0 || isNaN x).

(** SameValueZero of ECMAScript: the same number, where the two zeros are
    one number. *)
Definition same_number (x y : number) : Prop := x = y \/ strict_eq x y = true.

(** One of the two zeros. *)
Definition zeroish (x : number) : Prop := x = 0%float \/ x = (-0)%float.

(** ** Decimal text to number

    [decimal_to_number neg m e] is the double nearest to [(-1)^neg * m * 10^e]
    (ties to even), the value ECMAScript gives a decimal literal. The
    quotient by a power of ten keeps a sticky bit below 64 significant
    bits, so that rounding to 53 bits is the rounding of the exact value. *)

Definition decimal_to_spec (neg : bool) (m e : Z) : spec_float :=
  if m <=? 0 then S754_zero neg
  else
    let digits := Z.log2 m / 3 + 1 in
    if 400 <? e then S754_infinity neg
    else if e + digits <? -400 then S754_zero neg
    else if 0 <=? e then
      binary_normalize prec emax (cond_Zopp neg (m * 10 ^ e)) 0 neg
    else
      let d := 10 ^ (- e) in
      let s := Z.max 0 (64 + Z.log2 d - Z.log2 m) in
      let q := (m * 2 ^ s) / d in
      let r := (m * 2 ^ s) mod d in
      let sticky := if r =? 0 then 0 else 1 in
      binary_normalize prec emax (cond_Zopp neg (2 * q + sticky)) (- (s + 1)) neg.

Definition decimal_to_number (neg : bool) (m e : Z) : number :=
  SF2Prim (decimal_to_spec neg m e).

(** ** Characters *)

Definition is_digit (c : ascii) : bool :=
  let n := nat_of_ascii c in (48 <=? n)%nat && (n <=? 57)%nat.

Definition digit_val (c : ascii) : Z := Z.of_nat (nat_of_ascii c) - 48.

(** [\w] of a regular expression: [A-Za-z0-9_]. *)
Definition is_word_char (c : ascii) : bool :=
  let n := nat_of_ascii c in
  ((48 <=? n)%nat && (n <=? 57)%nat) ||
  ((65 <=? n)%nat && (n <=? 90)%nat) ||
  ((97 <=? n)%nat && (n <=? 122)%nat) ||
  (n =? 95)%nat.

(** White space and line terminators ([StrWhiteSpaceChar]). A string of
    the model is the UTF-8 text of the JavaScript string, so that a
    character beyond ASCII takes two or three bytes. The ASCII ones: TAB,
    LF, VT, FF, CR and SP. *)
Definition is_space (c : ascii) : bool :=
  let n := nat_of_ascii c in
  ((9 <=? n)%nat && (n <=? 13)%nat) || (n =? 32)%nat.

(** The others, by their bytes: U+00A0; U+1680; U+2000 to U+200A, U+2028,
    U+2029 and U+202F; U+205F; U+3000; U+FEFF. *)
Definition is_space2 (a b : ascii) : bool :=
  ((nat_of_ascii a =? 194) && (nat_of_ascii b =? 160))%nat.

Definition is_space3 (a b c : ascii) : bool :=
  let x := nat_of_ascii a in
  let y := nat_of_ascii b in
  let z := nat_of_ascii c in
  (((x =? 225) && (y =? 154) && (z =? 128)) ||
   ((x =? 226) && (y =? 128) &&
    (((128 <=? z) && (z <=? 138)) || (z =? 168) || (z =? 169) || (z =? 175))) ||
   ((x =? 226) && (y =? 129) && (z =? 159)) ||
   ((x =? 227) && (y =? 128) && (z =? 128)) ||
   ((x =? 239) && (y =? 187) && (z =? 191)))%nat.

Fixpoint skip_spaces (s : list ascii) : list ascii :=
  match s with
  | a :: s1 =>
      if is_space a then skip_spaces s1
      else
        match s1 with
        | b :: s2 =>
            if is_space2 a b then skip_spaces s2
            else
              match s2 with
              | c :: s3 => if is_space3 a b c then skip_spaces s3 else s
              | [] => s
              end
        | [] => s
        end
  | [] => []
  end.

(** The longest run of decimal digits at the head of [s], and the rest. *)
Fixpoint span_digits (s : list ascii) : list ascii * list ascii :=
  match s with
  | c :: s' =>
      if is_digit c then let '(ds, rest) := span_digits s' in (c :: ds, rest)
      else ([], s)
  | [] => ([], [])
  end.

Definition digits_to_Z (ds : list ascii) : Z :=
  fold_left (fun acc c => 10 * acc + digit_val c) ds 0.

Fixpoint starts_with (p s : list ascii) : option (list ascii) :=
  match p, s with
  | [], _ => Some s
  | a :: p', b :: s' => if Ascii.eqb a b then starts_with p' s' else None
  | _ :: _, [] => None
  end.

(** [ExponentPart]: [e] or [E], an optional sign, at least one digit. The
    result is the exponent and the text after it; [None] when the text
    does not start with an exponent part. *)
Definition exponent_part (s : list ascii) : option (Z * list ascii) :=
  match s with
  | c :: s1 =>
      if Ascii.eqb c "e" || Ascii.eqb c "E" then
        let '(neg, s2) :=
          match s1 with
          | sg :: s2 =>
              if Ascii.eqb sg "-" then (true, s2)
              else if Ascii.eqb sg "+" then (false, s2)
              else (false, s1)
          | [] => (false, s1)
          end in
        match span_digits s2 with
        | ([], _) => None
        | (ds, rest) => Some (cond_Zopp neg (digits_to_Z ds), rest)
        end
      else None
  | [] => None
  end.

(** An unsigned decimal literal at the head of [s]: digits, an optional
    fraction, an optional exponent, with a digit before or after the dot.
    The result is the mantissa, the power of ten and the rest. *)
Definition decimal_literal (s : list ascii) : option (Z * Z * list ascii) :=
  let '(int_ds, s1) := span_digits s in
  let '(frac_ds, s2) :=
    match s1 with
    | c :: s1' => if Ascii.eqb c "." then span_digits s1' else ([], s1)
    | [] => ([], s1)
    end in
  match int_ds, frac_ds with
  | [], [] => None
  | _, _ =>
      let m := digits_to_Z (int_ds ++ frac_ds) in
      let scale := - Z.of_nat (length frac_ds) in
      match exponent_part s2 with
      | Some (e, rest) => Some (m, e + scale, rest)
      | None => Some (m, scale, s2)
      end
  end.

(** [parseFloat(string)]: leading white space is dropped, then the longest
    prefix that is a signed decimal literal or [Infinity] is converted;
    [NaN] when there is none. *)
Definition parseFloat (input : string) : number :=
  let s := skip_spaces (list_ascii_of_string input) in
  let '(neg, s1) :=
    match s with
    | c :: s' =>
        if Ascii.eqb c "-" then (true, s')
        else if Ascii.eqb c "+" then (false, s')
        else (false, s)
    | [] => (false, s)
    end in
  match starts_with (list_ascii_of_string "Infinity") s1 with
  | Some _ => if neg then neg_infinity else infinity
  | None =>
      match decimal_literal s1 with
      | Some (m, e, _) => decimal_to_number neg m e
      | None => nan
      end
  end.

(** ** Number to text

    [Number::toString] in radix 10 (ECMAScript 6.1.6.1.20): the digits are
    the shortest decimal [s * 10^(n-k)] that reads back as the same double,
    the closest to it when there are several, laid out plainly for
    [-6 < n <= 21] and in exponent form otherwise. *)

Definition Z_to_string (z : Z) : string :=
  NilZero.string_of_uint (N.to_uint (Z.to_N z)).

Fixpoint zeros (n : nat) : string :=
  match n with
  | O => EmptyString
  | S n' => String "0" (zeros n')
  end.

(** [v = num / den] against [10^n]. *)
Definition below_pow10 (num den n : Z) : bool :=
  if 0 <=? n then num <? den * 10 ^ n else num * 10 ^ (- n) <? den.

Fixpoint find_exp10 (fuel : nat) (num den n : Z) : Z :=
  match fuel with
  | O => n
  | S fuel' => if below_pow10 num den n then n else find_exp10 fuel' num den (n + 1)
  end.

(** The candidate with [k] digits for [x = num / den], [10^(n-1) <= x < 10^n]:
    of the two [k]-digit decimals around [x], the one that reads back as
    [x], the closer one when both do (the even one on a tie). *)
Definition shortest_candidate (x : number) (num den n k : Z) : option Z :=
  let '(a, b) :=
    if 0 <=? k - n then (num * 10 ^ (k - n), den) else (num, den * 10 ^ (n - k)) in
  let lo := a / b in
  let hi := lo + 1 in
  let ok c := (0 <? c) && PrimFloat.Leibniz.eqb (decimal_to_number false c (n - k)) x in
  let dlo := a - lo * b in
  let dhi := hi * b - a in
  match ok lo, ok hi with
  | true, true =>
      if dlo <? dhi then Some lo
      else if dhi <? dlo then Some hi
      else if Z.even lo then Some lo else Some hi
  | true, false => Some lo
  | false, true => Some hi
  | false, false => None
  end.

Fixpoint shortest_digits (fuel : nat) (x : number) (num den n k : Z) : Z * Z :=
  match fuel with
  | O => (num * 10 ^ (17 - n) / den, 17)
  | S fuel' =>
      match shortest_candidate x num den n k with
      | Some c => (c, k)
      | None => shortest_digits fuel' x num den n (k + 1)
      end
  end.

Fixpoint strip_zeros (fuel : nat) (c p : Z) : Z * Z :=
  match fuel with
  | O => (c, p)
  | S fuel' => if (c mod 10 =? 0) && (0 <? c) then strip_zeros fuel' (c / 10) (p + 1) else (c, p)
  end.

Definition layout (digits : string) (n : Z) : string :=
  let k := Z.of_nat (String.length digits) in
  if (k <=? n) && (n <=? 21) then digits +:+ zeros (Z.to_nat (n - k))
  else if (0 <? n) && (n <=? 21) then
    substring 0 (Z.to_nat n) digits +:+ "." +:+
    substring (Z.to_nat n) (Z.to_nat (k - n)) digits
  else if (-6 <? n) && (n <=? 0) then "0." +:+ zeros (Z.to_nat (- n)) +:+ digits
  else
    let e := n - 1 in
    let exp := (if e <? 0 then "e-" else "e+") +:+ Z_to_string (Z.abs e) in
    if k =? 1 then digits +:+ exp
    else substring 0 1 digits +:+ "." +:+
         substring 1 (Z.to_nat (k - 1)) digits +:+ exp.

Definition finite_to_string (x : number) (m : positive) (e : Z) : string :=
  let '(num, den) := if 0 <=? e then (Zpos m * 2 ^ e, 1) else (Zpos m, 2 ^ (- e)) in
  let start := (Z.log2 num - Z.log2 den - 1) * 30103 / 100000 - 1 in
  let n := find_exp10 8 num den start in
  let '(c, k) := shortest_digits 17 x num den n 1 in
  let '(c', p) := strip_zeros 20 c (n - k) in
  let digits := Z_to_string c' in
  layout digits (p + Z.of_nat (String.length digits)).

(** [String(x)] for a number [x]. *)
Definition number_to_string (x : number) : string :=
  match Prim2SF x with
  | S754_nan => "NaN"
  | S754_zero _ => "0"
  | S754_infinity false => "Infinity"
  | S754_infinity true => "-Infinity"
  | S754_finite false m e => finite_to_string x m e
  | S754_finite true m e => "-" +:+ finite_to_string (- x)%float m e
  end.

(** ** Whole-word replacement

    [s.replace(/\bw\b/g, by)] for a word [w] of word characters: every
    occurrence of [w] that has no word character on either side is replaced,
    scanning from the left; matches do not overlap. [by] is numeric text in
    the card, so it holds none of the [$] patterns of a replacement string. *)

Definition word_here (w s : list ascii) : bool :=
  match starts_with w s with
  | Some (c :: _) => negb (is_word_char c)
  | Some [] => true
  | None => false
  end.

(** [skip] counts the characters of a match still to be dropped;
    [prev_word] tells whether the character before the head is a word
    character. *)
Fixpoint replace_word_from (w by_ : list ascii) (skip : nat) (prev_word : bool)
    (s : list ascii) : list ascii :=
  match s with
  | [] => []
  | c :: s' =>
      match skip with
      | S skip' => replace_word_from w by_ skip' (is_word_char c) s'
      | O =>
          if negb prev_word && word_here w s then
            by_ ++ replace_word_from w by_ (length w - 1) (is_word_char c) s'
          else c :: replace_word_from w by_ 0 (is_word_char c) s'
      end
  end.

Definition replace_word (w by_ s : string) : string :=
  string_of_list_ascii
    (replace_word_from (list_ascii_of_string w) (list_ascii_of_string by_) 0 false
       (list_ascii_of_string s)).

(** ** Running a function body

    [new Function(body)()] hands [body] to the engine: it returns a value
    or throws. The formulas of the card are arithmetic: the value is a
    number, [NaN] and the infinities included. *)

Inductive completion :=
  | Normal (v : number)
  | Throw (error : string).

Abbreviation engine := (string -> completion).

(** *** The arithmetic fragment

    What an engine does on [return e] for [e] built from decimal literals,
    [NaN], [Infinity], [+ - * /] (unary and binary) and parentheses, on one
    line. [arith_run] answers [Some] only where the outcome is settled by
    this fragment: a value, or a syntax error that no continuation of the
    grammar repairs. Everything else ([**], [++], [--], comments, regular
    expressions, calls, other identifiers, octal and hexadecimal literals,
    line breaks, an empty expression) is [None]. *)

Inductive token :=
  | TNum (v : number)
  | TPlus | TMinus | TStar | TSlash | TLParen | TRParen.

Definition is_blank (c : ascii) : bool :=
  let n := nat_of_ascii c in (n =? 32)%nat || (n =? 9)%nat.

Fixpoint span_word (s : list ascii) : list ascii * list ascii :=
  match s with
  | c :: s' =>
      if is_word_char c then let '(w, rest) := span_word s' in (c :: w, rest)
      else ([], s)
  | [] => ([], [])
  end.

Definition next_is (c : ascii) (s : list ascii) : bool :=
  match s with
  | d :: _ => Ascii.eqb c d
  | [] => false
  end.

(** A literal such as [010] or [00] is not a decimal literal. *)
Definition leading_zero (s : list ascii) : bool :=
  match s with
  | a :: b :: _ => Ascii.eqb a "0" && is_digit b
  | _ => false
  end.

Fixpoint tokenize (fuel : nat) (s : list ascii) : option (list token) :=
  match fuel with
  | O => None
  | S fuel' =>
      match s with
      | [] => Some []
      | c :: s' =>
          if is_blank c then tokenize fuel' s'
          else if is_digit c || (Ascii.eqb c "." && match s' with d :: _ => is_digit d | [] => false end) then
            if leading_zero s then None
            else
              match decimal_literal s with
              | Some (m, e, rest) =>
                  cons (TNum (decimal_to_number false m e)) <$> tokenize fuel' rest
              | None => None
              end
          else if Ascii.eqb c "+" then
            if next_is "+" s' then None else cons TPlus <$> tokenize fuel' s'
          else if Ascii.eqb c "-" then
            if next_is "-" s' then None else cons TMinus <$> tokenize fuel' s'
          else if Ascii.eqb c "*" then
            if next_is "*" s' then None else cons TStar <$> tokenize fuel' s'
          else if Ascii.eqb c "/" then
            if next_is "/" s' || next_is "*" s' then None
            else cons TSlash <$> tokenize fuel' s'
          else if Ascii.eqb c "(" then cons TLParen <$> tokenize fuel' s'
          else if Ascii.eqb c ")" then cons TRParen <$> tokenize fuel' s'
          else if is_word_char c then
            let '(w, rest) := span_word s in
            if String.eqb (string_of_list_ascii w) "NaN" then
              cons (TNum nan) <$> tokenize fuel' rest
            else if String.eqb (string_of_list_ascii w) "Infinity" then
              cons (TNum infinity) <$> tokenize fuel' rest
            else None
          else None
      end
  end.

Inductive parsed :=
  | POk (v : number) (rest : list token)
  | PSyntax
  | PUnknown.

(** What the parser is after: an operand, or the continuation of a product
    or of a sum whose left operand is [acc]. *)
Inductive goal :=
  | GExpr
  | GExprRest (acc : number)
  | GTerm
  | GTermRest (acc : number)
  | GUnary.

Fixpoint parse (fuel : nat) (g : goal) (ts : list token) : parsed :=
  match fuel with
  | O => PUnknown
  | S fuel' =>
      match g with
      | GExpr =>
          match parse fuel' GTerm ts with
          | POk v rest => parse fuel' (GExprRest v) rest
          | r => r
          end
      | GExprRest acc =>
          match ts with
          | TPlus :: ts' =>
              match parse fuel' GTerm ts' with
              | POk v rest => parse fuel' (GExprRest (acc + v)%float) rest
              | r => r
              end
          | TMinus :: ts' =>
              match parse fuel' GTerm ts' with
              | POk v rest => parse fuel' (GExprRest (acc - v)%float) rest
              | r => r
              end
          | _ => POk acc ts
          end
      | GTerm =>
          match parse fuel' GUnary ts with
          | POk v rest => parse fuel' (GTermRest v) rest
          | r => r
          end
      | GTermRest acc =>
          match ts with
          | TStar :: ts' =>
              match parse fuel' GUnary ts' with
              | POk v rest => parse fuel' (GTermRest (acc * v)%float) rest
              | r => r
              end
          | TSlash :: ts' =>
              match parse fuel' GUnary ts' with
              | POk v rest => parse fuel' (GTermRest (acc / v)%float) rest
              | r => r
              end
          | _ => POk acc ts
          end
      | GUnary =>
          match ts with
          | TNum v :: ts' => POk v ts'
          | TPlus :: ts' => parse fuel' GUnary ts'
          | TMinus :: ts' =>
              match parse fuel' GUnary ts' with
              | POk v rest => POk (- v)%float rest
              | r => r
              end
          | TLParen :: ts' =>
              match parse fuel' GExpr ts' with
              | POk v (TRParen :: rest) => POk v rest
              | POk _ (TLParen :: _) => PUnknown
              | POk _ _ => PSyntax
              | r => r
              end
          | TSlash :: _ => PUnknown
          | TStar :: _ | TRParen :: _ | [] => PSyntax
          end
      end
  end.

Definition arith_run (body : string) : option completion :=
  match starts_with (list_ascii_of_string "return ") (list_ascii_of_string body) with
  | None => None
  | Some src =>
      match tokenize (S (length src)) src with
      | None | Some [] => None
      | Some ts =>
          match parse (8 * S (length ts)) GExpr ts with
          | POk v [] => Some (Normal v)
          | POk _ (TLParen :: _) => None
          | POk _ _ => Some (Throw "SyntaxError")
          | PSyntax => Some (Throw "SyntaxError")
          | PUnknown => None
          end
      end
  end.

(** An engine is sound for arithmetic when it agrees with [arith_run]
    wherever that one answers. *)
Definition evaluates_arithmetic (run : engine) : Prop :=
  forall body c, arith_run body = Some c -> run body = c.

(** The engine that knows arithmetic only. *)
Definition arith_engine : engine :=
  fun body =>
    match arith_run body with
    | Some c => c
    | None => Throw "Unsupported"
    end.

(** ** Values of numeric fields

    A numeric field of a record that comes from the host or from the
    configuration ([sum], [change], [state], [rate_static]) holds a number,
    [null], or is absent. *)

Inductive value :=
  | Undefined
  | Null
  | Num (x : number).

(** [typeof v === 'number'] *)
Definition is_number (v : value) : bool :=
  match v with Num _ => true | _ => false end.

(** ToNumber *)
Definition to_number (v : value) : number :=
  match v with
  | Undefined => nan
  | Null => 0%float
  | Num x => x
  end.

(** ToBoolean *)
Definition to_boolean (v : value) : bool :=
  match v with
  | Num x => truthy x
  | _ => false
  end.

(** ToString *)
Definition to_string (v : value) : string :=
  match v with
  | Undefined => "undefined"
  | Null => "null"
  | Num x => number_to_string x
  end.

(** [v || 0] *)
Definition or_zero (v : value) : number :=
  if to_boolean v then to_number v else 0%float.

(** [v ?? null] *)
Definition or_null (v : value) : value :=
  match v with Undefined => Null | _ => v end.

(** ** Optional strings and flags

    A text field of the configuration is a string or absent, a flag is a
    boolean or absent. *)

Definition nonempty (o : option string) : bool :=
  match o with
  | Some s => negb (String.eqb s "")
  | None => false
  end.

(** [o || d] for a text field. *)
Definition or_text (o : option string) (d : string) : string :=
  match o with
  | Some s => if String.eqb s "" then d else s
  | None => d
  end.

(** [o || false] for a flag, and its truth value in a condition. *)
Definition flag (o : option bool) : bool := default false o.

(** [o !== false] *)
Definition not_false (o : option bool) : bool :=
  match o with Some false => false | _ => true end.

(** ToString of a text field: the property key it stands for in
    [obj[key]], and its text in a template literal. *)
Definition key (o : option string) : string := default "undefined" o.

(** A text between double quotes, as the template literals of the log
    lines write it. *)
Definition quoted (s : string) : string :=
  String (ascii_of_nat 34) s +:+ String (ascii_of_nat 34) EmptyString.

(** ** Texts of a source

    A label, an emoji or a unit of the configuration is a string or
    absent. The normalizer fills an absent one with [TABLE[type]], and on
    an object literal that lookup finds a member of [Object.prototype] when
    [type] names one ([constructor], [toString], ...): a function, or the
    prototype itself for [__proto__]. A text of a source is therefore a
    string or such a member. *)

Inductive text :=
  | Text (s : string)
  | Member (name : string).

(** ToBoolean of a text field: a member is an object. *)
Definition filled_in (o : option text) : bool :=
  match o with
  | Some (Text s) => negb (String.eqb s "")
  | Some (Member _) => true
  | None => false
  end.

(** [o || d] for a text field. *)
Definition or_value (o : option text) (d : text) : text :=
  match o with
  | Some (Text s) => if String.eqb s "" then d else Text s
  | Some (Member name) => Member name
  | None => d
  end.

(** ToString of a text field, as a template literal writes it.
    [memberText name] is the text the engine gives the member [name] of
    [Object.prototype]: for a function the text of a built-in function,
    whose layout is the engine's. *)
Definition show (memberText : string -> string) (o : option text) : string :=
  match o with
  | Some (Text s) => s
  | Some (Member name) => memberText name
  | None => "undefined"
  end.

(** [console.debug] and [console.error] calls; an error call also shows the
    exception caught. *)
Inductive console_event :=
  | Debug (message : string)
  | Error (message : string) (exception : string).

End JS.

Import JS.

(** * Data of the host and of the configuration

    Both versions of the card read the same records. *)

(** One statistics sample of [recorder/statistics_during_period]. *)
Record stat := {
  sum : value;
  change : value;
  state : value;
  unit_of_measurement : option string
}.

(** The response: for each statistic id its samples, [None] where the
    host sent something that is not an array. *)
Abbreviation statistics := (gmap string (option (list stat))).

(** [hass.states]: the current state text of each entity. *)
Abbreviation states := (gmap string string).

(** [calculate_from: { import, export }] *)
Record calculate_from := {
  cf_import : option string;
  cf_export : option string
}.

(** A source of the configuration: every field may be absent. The
    normalizer returns a descriptor of the same shape, in which a label, an
    emoji or a unit may be a member of [Object.prototype]. *)
Record descriptor := {
  s_type : option string;
  s_entity : option string;
  s_label : option text;
  s_emoji : option text;
  s_unit : option text;
  s_rate_entity : option string;
  s_rate_static : value;
  s_cost_formula : option string;
  s_invert_cost : option bool;
  s_show_cost : option bool;
  s_hide_if_zero : option bool;
  s_calculate_from : option calculate_from
}.

Record net_metering := {
  nm_import_entity : option string;
  nm_export_entity : option string;
  nm_rate_entity : option string;
  nm_rate_static : value;
  nm_label : option string;
  nm_emoji : option string;
  nm_unit : option string
}.

(** [config.sources] as [setConfig] receives it. *)
Inductive raw_sources :=
  | NoSources                       (* absent or null *)
  | NotAnArray                      (* some other value that is no array *)
  | Sources (l : list descriptor).

(** The card configuration as the dashboard hands it over. *)
Record raw_config := {
  c_title : option string;
  c_show_header : option bool;
  c_show_total : option bool;
  c_currency : option string;
  c_decimal_places : option number;
  c_cost_decimal_places : option number;
  c_period : option string;
  c_period_entity : option string;
  c_sources : raw_sources;
  c_net_metering : option net_metering
}.

(** An object literal with string values, as the list of its own keys,
    and the entry of one of them. *)
Abbreviation table := (list (string * string)).

Fixpoint table_get (t : table) (k : string) : option string :=
  match t with
  | [] => None
  | (k', v) :: t' => if String.eqb k' k then Some v else table_get t' k
  end.

(** The names [Object.prototype] gives every object literal. *)
Definition inherited : list string :=
  [ "constructor"; "__defineGetter__"; "__defineSetter__"; "hasOwnProperty";
    "__lookupGetter__"; "__lookupSetter__"; "isPrototypeOf";
    "propertyIsEnumerable"; "toString"; "valueOf"; "__proto__";
    "toLocaleString" ]%string.

(** [TABLE[k]] for a key that is computed: the entry of [k], the member of
    [Object.prototype] that [k] names when the table has no such entry,
    [undefined] otherwise. *)
Definition lookup (t : table) (k : string) : option text :=
  match table_get t k with
  | Some v => Some (Text v)
  | None => if bool_decide (k ∈ inherited) then Some (Member k) else None
  end.

(** [TABLE.k] for a key of the literal. *)
Definition own_entry (t : table) (k : string) : text :=
  Text (default "" (table_get t k)).

Definition DEFAULT_EMOJIS : table :=
  [ ("solar", "☀️"); ("battery_in", "🔋"); ("battery_out", "🪫");
    ("grid_import", "🏭"); ("grid_export", "💰"); ("grid_net", "⚡");
    ("gas", "🔥"); ("water", "💧"); ("default", "📊") ]%string.

Definition DEFAULT_LABELS : table :=
  [ ("solar", "Solar Production"); ("battery_in", "Battery Charged");
    ("battery_out", "Battery Used"); ("grid_import", "Grid Import");
    ("grid_export", "Grid Export"); ("grid_net", "Grid Net");
    ("gas", "Gas"); ("water", "Water"); ("default", "Energy") ]%string.

Definition DEFAULT_UNITS : table :=
  [ ("solar", "kWh"); ("battery_in", "kWh"); ("battery_out", "kWh");
    ("grid_import", "kWh"); ("grid_export", "kWh"); ("grid_net", "kWh");
    ("gas", "m³"); ("water", "gal"); ("default", "kWh") ]%string.

(** The outcome of a method that may throw: the card it leaves behind,
    and the message of the error when it threw. *)
Inductive outcome (card : Type) :=
  | Done (after : card)
  | Threw (message : string) (after : card).
Arguments Done {card} after.
Arguments Threw {card} message after.

(** * Version 1.3.0 *)

Module V130.

(** The configuration [setConfig] stores. *)
Record config := {
  title : string;
  show_header : bool;
  show_total : bool;
  currency : string;
  decimal_places : number;
  cost_decimal_places : number;
  period : string;
  period_entity : option string;
  sources : list descriptor;
  net_metering_ : option net_metering
}.

Record row := {
  emoji : text;
  label : text;
  value_ : string;
  unit_ : text;
  cost : option number;
  costFormatted : string;
  rateWarning : option string;
  isNegative : bool;
  isCostCredit : bool
}.

Record net_row := {
  n_emoji : string;
  n_label : string;
  n_value : string;
  n_unit : string;
  n_cost : number;
  n_costFormatted : string;
  n_isNegative : bool;
  n_isCredit : bool
}.

(** What [render] computes before it writes the markup. *)
Record table_view := {
  rows : list row;
  netMeteringRow : option net_row;
  totalCost : number;
  hasAnyCost : bool
}.

Inductive view :=
  | Blank
  | Loading
  | Table (t : table_view).

Record card := {
  _config : option config;
  _hass : option states;
  _energyData : gmap string number;
  shadow : view;
  console : list console_event
}.

Definition _normalizeSource (source : descriptor) : descriptor :=
  let type := or_text source.(s_type) "default" in
  {| s_type := Some type;
     s_entity := Some (or_text source.(s_entity) "");
     s_label := Some (or_value source.(s_label)
                        (or_value (lookup DEFAULT_LABELS type)
                           (own_entry DEFAULT_LABELS "default")));
     s_emoji := Some (or_value source.(s_emoji)
                        (or_value (lookup DEFAULT_EMOJIS type)
                           (own_entry DEFAULT_EMOJIS "default")));
     s_unit := Some (or_value source.(s_unit)
                       (or_value (lookup DEFAULT_UNITS type)
                          (own_entry DEFAULT_UNITS "default")));
     s_rate_entity := Some (or_text source.(s_rate_entity) "");
     s_rate_static := or_null source.(s_rate_static);
     s_cost_formula := Some (or_text source.(s_cost_formula) "");
     s_invert_cost := Some (flag source.(s_invert_cost));
     s_show_cost := Some (not_false source.(s_show_cost));
     s_hide_if_zero := Some (flag source.(s_hide_if_zero));
     s_calculate_from := source.(s_calculate_from) |}.

(** [config.sources.map(source => this._normalizeSource(source))] *)
Definition normalize (l : list descriptor) : list descriptor := map _normalizeSource l.

(** The body of the loop of [_processStatistics] for one entity. *)
Definition aggregate (stats : option (list stat)) : number :=
  match stats with
  | None | Some [] => 0
  | Some (firstStat :: rest) =>
      let lastStat := List.last rest firstStat in
      if is_number firstStat.(sum) && is_number lastStat.(sum) then
        to_number lastStat.(sum) - to_number firstStat.(sum)
      else if is_number firstStat.(change) then
        fold_left (fun acc stat => acc + or_zero stat.(change)) (firstStat :: rest) 0
      else 0
  end%float.

Definition _processStatistics (statistics : statistics) : gmap string number :=
  aggregate <$> statistics.

(** [this._energyData[k]?.value || 0] *)
Definition value_or_zero (data : gmap string number) (k : option string) : number :=
  match data !! key k with
  | Some v => if truthy v then v else 0
  | None => 0
  end%float.

Definition _getValue (data : gmap string number) (source : descriptor) : number :=
  match source.(s_calculate_from) with
  | Some cf =>
      let importVal := value_or_zero data cf.(cf_import) in
      let exportVal := value_or_zero data cf.(cf_export) in
      (importVal - exportVal)%float
  | None => value_or_zero data source.(s_entity)
  end.

(** [this._hass?.states?.[id]] *)
Definition entity_state (hass : option states) (id : string) : option string :=
  hass ≫= (λ st, st !! id).

Section Runtime.

(** The text the engine gives a member of [Object.prototype], the engine
    behind [new Function], and the number formatting of the browser's
    locale, [x.toLocaleString(undefined, {minimumFractionDigits: d,
    maximumFractionDigits: d})], for a number of decimals it accepts. All
    three belong to the host: the card is a function of them. *)
Variable memberText : string -> string.
Variable run : engine.
Variable toLocaleString : number -> number -> string.

(** The rate, lines 335 to 366 of [_calculateCost]: [rate] is [null]
    ([None]) until one of the three steps sets it. *)
Definition resolve_rate (hass : option states) (source : descriptor)
    : list console_event * number :=
  let '(log1, rate) :=
    if nonempty source.(s_rate_entity) then
      match entity_state hass (key source.(s_rate_entity)) with
      | Some entityState =>
          let parsedRate := parseFloat entityState in
          if negb (isNaN parsedRate) then ([], Some parsedRate)
          else ([Debug ("[Energy Card] Rate entity " +:+ quoted (key source.(s_rate_entity))
                        +:+ " has non-numeric state: " +:+ quoted entityState)],
                None)
      | None =>
          ([Debug ("[Energy Card] Rate entity " +:+ quoted (key source.(s_rate_entity))
                   +:+ " not found in Home Assistant states")], None)
      end
    else ([], None) in
  let rate :=
    match rate, source.(s_rate_static) with
    | None, Num r => Some r
    | _, _ => rate
    end in
  match rate with
  | Some r => (log1, r)
  | None =>
      (log1 ++
       (if nonempty source.(s_rate_entity)
           || negb (match source.(s_rate_static) with Null => true | _ => false end)
        then [Debug ("[Energy Card] No valid rate found for "
                     +:+ quoted (show memberText source.(s_label)) +:+ ", using 0")]
        else []),
       0%float)
  end.

(** [formula.replace(/\bvalue\b/g, String(value)).replace(/\brate\b/g, String(rate))] *)
Definition substitute (formula : string) (value rate : number) : string :=
  replace_word "rate" (number_to_string rate)
    (replace_word "value" (number_to_string value) formula).

(** The part of [_calculateCost] after the rate is known, lines 368 to 382. *)
Definition cost_at_rate (source : descriptor) (value rate : number)
    : list console_event * option number :=
  if nonempty source.(s_cost_formula) then
    let formula := substitute (key source.(s_cost_formula)) value rate in
    match run ("return " +:+ formula) with
    | Normal result =>
        ([], Some (if flag source.(s_invert_cost) then - result else result)%float)
    | Throw e =>
        ([Error ("[Energy Card] Cost formula error for "
                 +:+ quoted (show memberText source.(s_label)) +:+ ":") e], None)
    end
  else
    let cost := (value * rate)%float in
    ([], Some (if flag source.(s_invert_cost) then - cost else cost)%float).

Definition _calculateCost (hass : option states) (source : descriptor) (value : number)
    : list console_event * option number :=
  if negb (flag source.(s_show_cost)) then ([], None)
  else
    let '(log1, rate) := resolve_rate hass source in
    let '(log2, cost) := cost_at_rate source value rate in
    (log1 ++ log2, cost).

Definition _formatNumber (value decimals : number) : string :=
  if isNaN value then "0.00" else toLocaleString value decimals.

Definition _formatCost (config : option config) (cost : option number) (decimals : number)
    : list console_event * string :=
  match cost with
  | None => ([], "")
  | Some c =>
      if isNaN c then ([Debug "[Energy Card] Invalid cost value:"], "")
      else
        let currency := or_text (currency <$> config) "$" in
        let formatted := toLocaleString (abs c) decimals in
        ([], if (c <? 0)%float then "-" +:+ currency +:+ formatted
             else currency +:+ formatted)
  end.

(** The running total of [render]: [totalCost], [hasAnyCost], and the
    console. *)
Record totals := {
  t_totalCost : number;
  t_hasAnyCost : bool;
  t_console : list console_event
}.

(** The callback of [sources.map] in [render], lines 418 to 450. *)
Definition row_of (config : config) (hass : option states) (data : gmap string number)
    (acc : totals) (source : descriptor) : option row * totals :=
  let value := _getValue data source in
  if flag source.(s_hide_if_zero) && strict_eq value 0 then (None, acc)
  else
    let '(log1, cost) := _calculateCost hass source value in
    let '(total, any) :=
      match cost with
      | Some c =>
          if negb (isNaN c) then ((acc.(t_totalCost) + c)%float, true)
          else (acc.(t_totalCost), acc.(t_hasAnyCost))
      | None => (acc.(t_totalCost), acc.(t_hasAnyCost))
      end in
    let rateWarning :=
      if flag source.(s_show_cost) && nonempty source.(s_rate_entity) then
        match entity_state hass (key source.(s_rate_entity)) with
        | None => Some "Entity not found"
        | Some entityState =>
            if isNaN (parseFloat entityState) then Some ("Invalid: " +:+ entityState)
            else None
        end
      else None in
    let '(log2, costFormatted) := _formatCost (Some config) cost config.(cost_decimal_places) in
    (Some {| emoji := or_value source.(s_emoji) (Text "📊");
             label := or_value source.(s_label) (Text "Energy");
             value_ := _formatNumber value config.(decimal_places);
             unit_ := or_value source.(s_unit) (Text "kWh");
             cost := cost;
             costFormatted := costFormatted;
             rateWarning := rateWarning;
             isNegative := (value <? 0)%float;
             isCostCredit := match cost with Some c => (c <? 0)%float | None => false end |},
     {| t_totalCost := total;
        t_hasAnyCost := any;
        t_console := acc.(t_console) ++ log1 ++ log2 |}).

(** [sources.map(...)], the callbacks run from left to right on the
    running total. *)
Fixpoint map_rows (config : config) (hass : option states) (data : gmap string number)
    (acc : totals) (l : list descriptor) : list (option row) * totals :=
  match l with
  | [] => ([], acc)
  | source :: l' =>
      let '(r, acc1) := row_of config hass data acc source in
      let '(rs, acc2) := map_rows config hass data acc1 l' in
      (r :: rs, acc2)
  end.

(** The net-metering row, lines 452 to 480. *)
Definition net_metering_row (config : config) (hass : option states)
    (data : gmap string number) (acc : totals) (nm : net_metering) : net_row * totals :=
  let importVal := value_or_zero data nm.(nm_import_entity) in
  let exportVal := value_or_zero data nm.(nm_export_entity) in
  let netValue := (importVal - exportVal)%float in
  let rate :=
    match (if nonempty nm.(nm_rate_entity)
           then entity_state hass (key nm.(nm_rate_entity)) else None) with
    | Some entityState =>
        let r := parseFloat entityState in if truthy r then r else 0%float
    | None =>
        match nm.(nm_rate_static) with Num r => r | _ => 0%float end
    end in
  let cost := (netValue * rate)%float in
  let '(log, costFormatted) := _formatCost (Some config) (Some cost) config.(cost_decimal_places) in
  ({| n_emoji := or_text nm.(nm_emoji) "⚡";
      n_label := or_text nm.(nm_label) "Grid Net (Metered)";
      n_value := _formatNumber netValue config.(decimal_places);
      n_unit := or_text nm.(nm_unit) "kWh";
      n_cost := cost;
      n_costFormatted := costFormatted;
      n_isNegative := (netValue <? 0)%float;
      n_isCredit := (cost <? 0)%float |},
   {| t_totalCost := (acc.(t_totalCost) + cost)%float;
      t_hasAnyCost := true;
      t_console := acc.(t_console) ++ log |}).

(** [rows], [netMeteringRow], [totalCost] and [hasAnyCost] of [render]. *)
Definition buildRows (config : config) (hass : option states) (data : gmap string number)
    : table_view * list console_event :=
  let '(mapped, acc) :=
    map_rows config hass data
      {| t_totalCost := 0; t_hasAnyCost := false; t_console := [] |} config.(sources) in
  let rows := omap id mapped in
  match config.(net_metering_) with
  | Some nm =>
      let '(r, acc') := net_metering_row config hass data acc nm in
      ({| rows := rows; netMeteringRow := Some r;
          totalCost := acc'.(t_totalCost); hasAnyCost := acc'.(t_hasAnyCost) |},
       acc'.(t_console))
  | None =>
      ({| rows := rows; netMeteringRow := None;
          totalCost := acc.(t_totalCost); hasAnyCost := acc.(t_hasAnyCost) |},
       acc.(t_console))
  end.

Definition render (this : card) : card :=
  match this.(_config) with
  | None =>
      {| _config := this.(_config); _hass := this.(_hass);
         _energyData := this.(_energyData); shadow := Loading;
         console := this.(console) |}
  | Some config =>
      let '(t, log) := buildRows config this.(_hass) this.(_energyData) in
      {| _config := this.(_config); _hass := this.(_hass);
         _energyData := this.(_energyData); shadow := Table t;
         console := this.(console) ++ log |}
  end.

Definition setConfig (this : card) (config : raw_config) : outcome card :=
  match config.(c_sources) with
  | NoSources | NotAnArray | Sources [] =>
      Threw "Please add at least one energy source" this
  | Sources l =>
      Done (render
        {| _config := Some
             {| title := or_text config.(c_title) "Energy Sources";
                show_header := not_false config.(c_show_header);
                show_total := not_false config.(c_show_total);
                currency := or_text config.(c_currency) "$";
                decimal_places := default 2%float config.(c_decimal_places);
                cost_decimal_places := default 2%float config.(c_cost_decimal_places);
                period := or_text config.(c_period) "today";
                period_entity :=
                  if nonempty config.(c_period_entity) then config.(c_period_entity) else None;
                sources := normalize l;
                net_metering_ := config.(c_net_metering) |};
           _hass := this.(_hass);
           _energyData := this.(_energyData);
           shadow := this.(shadow);
           console := this.(console) |})
  end.

End Runtime.

End V130.

(** * Version 1.0.0 *)

Module V100.

(** The configuration [setConfig] stores. Its object literal ends with
    [...config], so every key the dashboard supplied overrides the value
    computed for it: [spread computed supplied]. *)
Record config := {
  title : string;
  show_header : bool;
  show_total : bool;
  currency : string;
  decimal_places : number;
  cost_decimal_places : number;
  sources : list descriptor;
  net_metering_ : option net_metering
}.

Definition spread {A} (computed : A) (supplied : option A) : A :=
  default computed supplied.

Record row := {
  emoji : option text;
  label : option text;
  value_ : string;
  unit_ : option text;
  cost : option number;
  costFormatted : string;
  isNegative : bool
}.

Record net_row := {
  n_emoji : string;
  n_label : string;
  n_value : string;
  n_unit : string;
  n_cost : number;
  n_costFormatted : string;
  n_isNegative : bool;
  n_isCredit : bool
}.

Record table_view := {
  rows : list row;
  netMeteringRow : option net_row;
  totalCost : number;
  hasAnyCost : bool
}.

Inductive view :=
  | Blank
  | Table (t : table_view).

(** An entry of [_energyData]. *)
Record entry := {
  e_value : number;
  e_unit : option string
}.

Record card := {
  _config : option config;
  _hass : option states;
  _energyData : gmap string entry;
  shadow : view;
  console : list console_event
}.

Definition _normalizeSource (source : descriptor) : descriptor :=
  let type := or_text source.(s_type) "default" in
  {| s_type := Some type;
     s_entity := source.(s_entity);
     s_label := Some (or_value source.(s_label)
                        (or_value (lookup DEFAULT_LABELS type)
                           (own_entry DEFAULT_LABELS "default")));
     s_emoji := Some (or_value source.(s_emoji)
                        (or_value (lookup DEFAULT_EMOJIS type)
                           (own_entry DEFAULT_EMOJIS "default")));
     s_unit := Some (or_value source.(s_unit)
                       (or_value (lookup DEFAULT_UNITS type)
                          (own_entry DEFAULT_UNITS "default")));
     s_rate_entity := if nonempty source.(s_rate_entity) then source.(s_rate_entity) else None;
     s_rate_static := or_null source.(s_rate_static);
     s_cost_formula := if nonempty source.(s_cost_formula) then source.(s_cost_formula) else None;
     s_invert_cost := Some (flag source.(s_invert_cost));
     s_show_cost := Some (not_false source.(s_show_cost));
     s_hide_if_zero := Some (flag source.(s_hide_if_zero));
     s_calculate_from := source.(s_calculate_from) |}.

(** [config.sources.map(source => this._normalizeSource(source))] *)
Definition normalize (l : list descriptor) : list descriptor := map _normalizeSource l.

(** [v !== undefined] *)
Definition defined (v : value) : bool :=
  match v with Undefined => false | _ => true end.

(** The body of the loop of [_processStatistics] for one entity:
    [totalValue]. *)
Definition aggregate (stats : option (list stat)) : number :=
  match stats with
  | None | Some [] => 0
  | Some (firstStat :: rest) =>
      let lastStat := List.last rest firstStat in
      if defined firstStat.(sum) && defined lastStat.(sum) then
        to_number lastStat.(sum) - to_number firstStat.(sum)
      else if defined firstStat.(change) then
        fold_left (fun acc stat => acc + or_zero stat.(change)) (firstStat :: rest) 0
      else if defined firstStat.(state) then
        or_zero lastStat.(state) - or_zero firstStat.(state)
      else 0
  end%float.

Definition process_entry (stats : option (list stat)) : entry :=
  {| e_value := aggregate stats;
     e_unit :=
       match stats with
       | Some (firstStat :: _) =>
           if nonempty firstStat.(unit_of_measurement)
           then firstStat.(unit_of_measurement) else None
       | _ => None
       end |}.

Definition _processStatistics (statistics : statistics) : gmap string entry :=
  process_entry <$> statistics.

(** [this._energyData[k]?.value || 0] *)
Definition value_or_zero (data : gmap string entry) (k : option string) : number :=
  match data !! key k with
  | Some e => if truthy e.(e_value) then e.(e_value) else 0
  | None => 0
  end%float.

Definition _getValue (data : gmap string entry) (source : descriptor) : number :=
  match source.(s_calculate_from) with
  | Some cf =>
      let importVal := value_or_zero data cf.(cf_import) in
      let exportVal := value_or_zero data cf.(cf_export) in
      (importVal - exportVal)%float
  | None => value_or_zero data source.(s_entity)
  end.

(** [this._hass?.states[id]] *)
Definition entity_state (hass : option states) (id : string) : option string :=
  hass ≫= (λ st, st !! id).

(** The rate, lines 285 to 292 of [_calculateCost]: it starts at [0], an
    entity that is found decides it, otherwise [rate_static] does unless it
    is [null]. *)
Definition resolve_rate (hass : option states) (source : descriptor) : value :=
  match (if nonempty source.(s_rate_entity)
         then entity_state hass (key source.(s_rate_entity)) else None) with
  | Some entityState =>
      let r := parseFloat entityState in Num (if truthy r then r else 0%float)
  | None =>
      match source.(s_rate_static) with
      | Null => Num 0%float
      | v => v
      end
  end.

(** [formula.replace(/\bvalue\b/g, value).replace(/\brate\b/g, rate)]: the
    replacements are turned into text. *)
Definition substitute (formula : string) (value : number) (rate : JS.value) : string :=
  replace_word "rate" (to_string rate)
    (replace_word "value" (number_to_string value) formula).

Section Runtime.

Variable run : engine.
Variable toLocaleString : number -> number -> string.

Definition _calculateCost (hass : option states) (source : descriptor) (value : number)
    : list console_event * option number :=
  if negb (flag source.(s_show_cost)) then ([], None)
  else if strict_eq value 0 && negb (to_boolean source.(s_rate_static))
          && negb (nonempty source.(s_rate_entity)) then ([], Some 0%float)
  else
    let rate := resolve_rate hass source in
    if nonempty source.(s_cost_formula) then
      let formula := substitute (key source.(s_cost_formula)) value rate in
      match run ("return " +:+ formula) with
      | Normal result =>
          ([], Some (if flag source.(s_invert_cost) then - result else result)%float)
      | Throw e => ([Error "Error evaluating cost formula:" e], None)
      end
    else
      let cost := (value * to_number rate)%float in
      ([], Some (if flag source.(s_invert_cost) then - cost else cost)%float).

Definition _formatNumber (value decimals : number) : string :=
  toLocaleString value decimals.

Definition _formatCost (config : config) (cost : option number) (decimals : number) : string :=
  match cost with
  | None => ""
  | Some c =>
      let formatted := toLocaleString (abs c) decimals in
      if (c <? 0)%float then "-" +:+ config.(currency) +:+ formatted
      else config.(currency) +:+ formatted
  end.

Record net_result := {
  r_import : number;
  r_export : number;
  r_net : number;
  r_cost : number;
  r_rate : value
}.

Definition _calculateNetMetering (hass : option states) (data : gmap string entry)
    (nm : net_metering) : net_result :=
  let importVal := value_or_zero data nm.(nm_import_entity) in
  let exportVal := value_or_zero data nm.(nm_export_entity) in
  let netValue := (importVal - exportVal)%float in
  let rate :=
    match (if nonempty nm.(nm_rate_entity)
           then entity_state hass (key nm.(nm_rate_entity)) else None) with
    | Some entityState =>
        let r := parseFloat entityState in Num (if truthy r then r else 0%float)
    | None =>
        match nm.(nm_rate_static) with
        | Null => Num 0%float
        | v => v
        end
    end in
  {| r_import := importVal; r_export := exportVal; r_net := netValue;
     r_cost := (netValue * to_number rate)%float; r_rate := rate |}.

Record totals := {
  t_totalCost : number;
  t_hasAnyCost : bool;
  t_console : list console_event
}.

(** The callback of [sources.map] in [render], lines 386 to 408. *)
Definition row_of (config : config) (hass : option states) (data : gmap string entry)
    (acc : totals) (source : descriptor) : option row * totals :=
  let value := _getValue data source in
  if flag source.(s_hide_if_zero) && strict_eq value 0 then (None, acc)
  else
    let '(log, cost) := _calculateCost hass source value in
    let '(total, any) :=
      match cost with
      | Some c => ((acc.(t_totalCost) + c)%float, true)
      | None => (acc.(t_totalCost), acc.(t_hasAnyCost))
      end in
    (Some {| emoji := source.(s_emoji);
             label := source.(s_label);
             value_ := _formatNumber value config.(decimal_places);
             unit_ := source.(s_unit);
             cost := cost;
             costFormatted := _formatCost config cost config.(cost_decimal_places);
             isNegative :=
               (value <? 0)%float
               || match cost with Some c => (c <? 0)%float | None => false end |},
     {| t_totalCost := total;
        t_hasAnyCost := any;
        t_console := acc.(t_console) ++ log |}).

Fixpoint map_rows (config : config) (hass : option states) (data : gmap string entry)
    (acc : totals) (l : list descriptor) : list (option row) * totals :=
  match l with
  | [] => ([], acc)
  | source :: l' =>
      let '(r, acc1) := row_of config hass data acc source in
      let '(rs, acc2) := map_rows config hass data acc1 l' in
      (r :: rs, acc2)
  end.

Definition buildRows (config : config) (hass : option states) (data : gmap string entry)
    : table_view * list console_event :=
  let '(mapped, acc) :=
    map_rows config hass data
      {| t_totalCost := 0; t_hasAnyCost := false; t_console := [] |} config.(sources) in
  let rows := omap id mapped in
  match config.(net_metering_) with
  | Some nm_config =>
      let nm := _calculateNetMetering hass data nm_config in
      ({| rows := rows;
          netMeteringRow := Some
            {| n_emoji := or_text nm_config.(nm_emoji)
                            (or_text (table_get DEFAULT_EMOJIS "grid_net") "");
               n_label := or_text nm_config.(nm_label) "Grid Net (Metered)";
               n_value := _formatNumber nm.(r_net) config.(decimal_places);
               n_unit := or_text nm_config.(nm_unit) "kWh";
               n_cost := nm.(r_cost);
               n_costFormatted :=
                 _formatCost config (Some nm.(r_cost)) config.(cost_decimal_places);
               n_isNegative := (nm.(r_net) <? 0)%float;
               n_isCredit := (nm.(r_cost) <? 0)%float |};
          totalCost := (acc.(t_totalCost) + nm.(r_cost))%float;
          hasAnyCost := true |},
       acc.(t_console))
  | None =>
      ({| rows := rows; netMeteringRow := None;
          totalCost := acc.(t_totalCost); hasAnyCost := acc.(t_hasAnyCost) |},
       acc.(t_console))
  end.

Definition render (this : card) : card :=
  match this.(_config) with
  | None => this
  | Some config =>
      let '(t, log) := buildRows config this.(_hass) this.(_energyData) in
      {| _config := this.(_config); _hass := this.(_hass);
         _energyData := this.(_energyData); shadow := Table t;
         console := this.(console) ++ log |}
  end.

Definition setConfig (this : card) (config : raw_config) : outcome card :=
  match config.(c_sources) with
  | NoSources | NotAnArray =>
      Threw "You must define at least one energy source" this
  | Sources l =>
      Done (render
        {| _config := Some
             {| title := spread (or_text config.(c_title) "Energy Sources") config.(c_title);
                show_header := spread (not_false config.(c_show_header)) config.(c_show_header);
                show_total := spread (not_false config.(c_show_total)) config.(c_show_total);
                currency := spread (or_text config.(c_currency) "$") config.(c_currency);
                decimal_places :=
                  spread (default 2%float config.(c_decimal_places)) config.(c_decimal_places);
                cost_decimal_places :=
                  spread (default 2%float config.(c_cost_decimal_places))
                    config.(c_cost_decimal_places);
                sources := spread (normalize l) (Some l);
                net_metering_ := config.(c_net_metering) |};
           _hass := this.(_hass);
           _energyData := this.(_energyData);
           shadow := this.(shadow);
           console := this.(console) |})
  end.

End Runtime.

End V100.

(** * The rest of the card: statistics requests, life cycle, editor

    What follows embeds the code of the two files around the cost pipeline:
    the ids a card asks the recorder for, the life cycle of the element
    (the [hass] setter, the subscription to the date selection, the fetch
    and its continuation, [disconnectedCallback], [getCardSize],
    [getStubConfig]), and the visual editor of 1.3.0.

    An [async] method is embedded segment by segment: what it does until it
    awaits, and what it does when the awaited promise settles. The host
    decides when and how a promise settles: that is an [event]. The calls
    the card makes to the host, and its console lines, are its [output].
    The dates of a request are the host's ([Date], the local time zone):
    the model keeps where a date range comes from and whether its dates
    can be written, not its instants. *)

Module Host.

(** [hass]: the states of the entities, and whether the object carries a
    [connection] and a [callWS]. *)
Record host := {
  h_states : states;
  h_connection : bool;
  h_callWS : bool
}.

(** A message of the subscription [energy/subscribe_date_selection]. *)
Record selection := {
  m_type : option string;
  m_start_date : option string;
  m_start : option string;
  m_end_date : option string;
  m_end : option string
}.

(** How the promise of [callWS] settles: with the statistics ([None]: with
    [null] or [undefined]), or with an error. *)
Inductive answer :=
  | Resolved (statistics : option statistics)
  | Rejected (e : string).

(** What the host does to an element. [Fetched None] settles a fetch that
    made no call: that of an element whose [hass] has no [callWS], and that
    of a request whose dates cannot be written. *)
Inductive event :=
  | SetConfig (config : raw_config)
  | SetHass (hass : option host)
  | Subscribed (unsubscribe : nat)
  | SubscribeFailed (message : string)
  | DateSelection (msg : selection)
  | Fetched (a : option answer)
  | Disconnected.

(** What an element does to the host: a console line, a call of
    [connection.subscribeMessage], the call of [callWS] for the statistics
    of the given ids, a call of the function that the subscription resolved
    with. *)
Inductive output :=
  | Console (e : console_event)
  | Warn (message detail : string)
  | SubscribeMessage
  | CallWS (statistic_ids : list string)
  | Unsubscribe (unsubscribe : nat).

(** [if (x) entityIds.push(x)] for a text field. *)
Definition push_if (o : option string) : list string :=
  if nonempty o then [key o] else [].

(** [[...new Set(l)]]: the values in the order of their first insertion. *)
Definition Set_values (l : list string) : list string :=
  fold_left (fun seen x => if bool_decide (x ∈ seen) then seen else seen ++ [x]) l [].

(** [a || b] for two text fields. *)
Definition or_else (a b : option string) : option string :=
  if nonempty a then a else b.

(** [String.prototype.includes] *)
Fixpoint includes_from (needle s : list ascii) : bool :=
  match s with
  | [] => match needle with [] => true | _ => false end
  | _ :: s' =>
      match starts_with needle s with
      | Some _ => true
      | None => includes_from needle s'
      end
  end.

Definition includes (s needle : string) : bool :=
  includes_from (list_ascii_of_string needle) (list_ascii_of_string s).

(** The value of [_getConfiguredPeriod]: reading a name of
    [Object.prototype] from [stateMap] yields a function or an object, not
    a period. *)
Inductive period_value :=
  | Period (name : string)
  | Inherited (property : string).

(** Where [_dateRange] comes from: the start and the end of a message, or
    [_getDateRangeForPeriod(period)] at the time of the call. *)
Inductive date_range :=
  | Range (start end_ : option string)
  | RangeOfPeriod (period : period_value)
  | RangeOfToday.

(** A call that returns a value or throws. *)
Inductive call (A : Type) :=
  | Returned (a : A)
  | Thrown (error : string).
Arguments Returned {A} a.
Arguments Thrown {A} error.

(** Whether the request can be written for a range: [_updateData] makes
    [startTime = new Date(dateRange.start)] and
    [endTime = dateRange.end ? new Date(dateRange.end) : new Date()], and
    [_fetchStatistics] calls [toISOString] on both, which throws a
    [RangeError] on an invalid date. [isDate text] tells whether
    [new Date(text)] is a valid date ([Date.parse], the host's);
    [new Date(undefined)] is not one, [new Date()] is one, and so are the
    dates of [_getDateRangeForPeriod] and of [_getDefaultDateRange], which
    were written by [toISOString]. *)
Definition usable (isDate : string -> bool) (r : date_range) : bool :=
  match r with
  | Range start end_ =>
      match start with Some text => isDate text | None => false end
      && (if nonempty end_ then isDate (key end_) else true)
  | RangeOfPeriod _ | RangeOfToday => true
  end.

Definition PERIOD_OPTIONS : table :=
  [ ("today", "Today"); ("yesterday", "Yesterday"); ("week", "This Week");
    ("month", "This Month"); ("year", "This Year") ]%string.

Definition SOURCE_TYPES : table :=
  [ ("solar", "Solar"); ("battery_in", "Battery Charge");
    ("battery_out", "Battery Discharge"); ("grid_import", "Grid Import");
    ("grid_export", "Grid Export"); ("grid_net", "Grid Net"); ("gas", "Gas");
    ("water", "Water"); ("default", "Custom") ]%string.

End Host.

Import Host.

(** ** The element of 1.3.0 *)

Module Life130.

Record element := {
  _config : option V130.config;
  _hass : option host;
  _energyData : gmap string number;
  _unsubscribe : option nat;
  _dateRange : option date_range;
  _initialized : bool;
  shadow : V130.view;
  out : list output
}.

(** The constructor. *)
Definition new : element :=
  {| _config := None; _hass := None; _energyData := ∅; _unsubscribe := None;
     _dateRange := None; _initialized := false; shadow := V130.Blank; out := [] |}.

Definition set_hass_ (hass : option host) (this : element) : element :=
  {| _config := this.(_config); _hass := hass; _energyData := this.(_energyData);
     _unsubscribe := this.(_unsubscribe); _dateRange := this.(_dateRange);
     _initialized := this.(_initialized); shadow := this.(shadow); out := this.(out) |}.

Definition set_energyData (data : gmap string number) (this : element) : element :=
  {| _config := this.(_config); _hass := this.(_hass); _energyData := data;
     _unsubscribe := this.(_unsubscribe); _dateRange := this.(_dateRange);
     _initialized := this.(_initialized); shadow := this.(shadow); out := this.(out) |}.

Definition set_unsubscribe (u : option nat) (this : element) : element :=
  {| _config := this.(_config); _hass := this.(_hass); _energyData := this.(_energyData);
     _unsubscribe := u; _dateRange := this.(_dateRange);
     _initialized := this.(_initialized); shadow := this.(shadow); out := this.(out) |}.

Definition set_dateRange (r : option date_range) (this : element) : element :=
  {| _config := this.(_config); _hass := this.(_hass); _energyData := this.(_energyData);
     _unsubscribe := this.(_unsubscribe); _dateRange := r;
     _initialized := this.(_initialized); shadow := this.(shadow); out := this.(out) |}.

Definition set_initialized (b : bool) (this : element) : element :=
  {| _config := this.(_config); _hass := this.(_hass); _energyData := this.(_energyData);
     _unsubscribe := this.(_unsubscribe); _dateRange := this.(_dateRange);
     _initialized := b; shadow := this.(shadow); out := this.(out) |}.

Definition emit (l : list output) (this : element) : element :=
  {| _config := this.(_config); _hass := this.(_hass); _energyData := this.(_energyData);
     _unsubscribe := this.(_unsubscribe); _dateRange := this.(_dateRange);
     _initialized := this.(_initialized); shadow := this.(shadow);
     out := this.(out) ++ l |}.

(** The part of the element that the cost pipeline works on. *)
Definition to_card (this : element) : V130.card :=
  {| V130._config := this.(_config);
     V130._hass := h_states <$> this.(_hass);
     V130._energyData := this.(_energyData);
     V130.shadow := this.(shadow);
     V130.console := [] |}.

Definition of_card (c : V130.card) (this : element) : element :=
  {| _config := c.(V130._config); _hass := this.(_hass);
     _energyData := c.(V130._energyData);
     _unsubscribe := this.(_unsubscribe); _dateRange := this.(_dateRange);
     _initialized := this.(_initialized); shadow := c.(V130.shadow);
     out := this.(out) ++ (Console <$> c.(V130.console)) |}.

(** The ids of [_updateData], lines 248 to 261. *)
Definition source_ids (source : descriptor) : list string :=
  push_if source.(s_entity) ++
  push_if (source.(s_calculate_from) ≫= cf_import) ++
  push_if (source.(s_calculate_from) ≫= cf_export).

Definition net_metering_ids (nm : option net_metering) : list string :=
  match nm with
  | Some nm => push_if nm.(nm_import_entity) ++ push_if nm.(nm_export_entity)
  | None => []
  end.

Definition entityIds (config : V130.config) : list string :=
  flat_map source_ids config.(V130.sources) ++
  net_metering_ids config.(V130.net_metering_).

Definition uniqueEntityIds (config : V130.config) : list string :=
  Set_values (List.filter (fun id => negb (String.eqb id "")) (entityIds config)).

(** [stateMap] of [_getConfiguredPeriod], and the truthy values of
    [stateMap[k]]. *)
Definition stateMap : table :=
  [ ("today", "today"); ("yesterday", "yesterday"); ("week", "week");
    ("this_week", "week"); ("month", "month"); ("this_month", "month");
    ("year", "year"); ("this_year", "year") ]%string.

Definition stateMap_get (k : string) : option period_value :=
  match table_get stateMap k with
  | Some v => if String.eqb v "" then None else Some (Period v)
  | None => if bool_decide (k ∈ inherited) then Some (Inherited k) else None
  end.

(** [1 + (this._config?.sources?.length || 1)]: the length of an array is
    an integer below [2^32], on which the arithmetic of doubles is exact. *)
Definition getCardSize (this : element) : Z :=
  let length := match this.(_config) with
                | Some config => Z.of_nat (length config.(V130.sources))
                | None => 0
                end in
  1 + (if length =? 0 then 1 else length).

(** [getStubConfig(hass)], from [Object.keys(hass?.states || {})]. *)
Definition getStubConfig (keys : list string) : raw_config :=
  let solarEntity :=
    List.find (fun e => includes e "solar" && includes e "energy") keys in
  {| c_title := Some "Energy Sources";
     c_show_header := Some true;
     c_show_total := Some true;
     c_currency := Some "$";
     c_decimal_places := None;
     c_cost_decimal_places := None;
     c_period := None;
     c_period_entity := None;
     c_sources := Sources
       [ {| s_type := Some "solar";
            s_entity := Some (or_text solarEntity "");
            s_label := Some (Text "Solar Production");
            s_emoji := Some (Text "☀️");
            s_unit := None; s_rate_entity := None; s_rate_static := Undefined;
            s_cost_formula := None; s_invert_cost := None; s_show_cost := None;
            s_hide_if_zero := None; s_calculate_from := None |} ];
     c_net_metering := None |}%string.

Section Runtime.

Variable memberText : string -> string.
Variable run : engine.
Variable toLocaleString : number -> number -> string.

(** [String.prototype.toLowerCase], the host's. *)
Variable toLowerCase : string -> string.

(** Whether [new Date(text)] is a valid date, the host's. *)
Variable isDate : string -> bool.

Definition render (this : element) : element :=
  of_card (V130.render memberText run toLocaleString (to_card this)) this.

(** [setConfig]: an error leaves the element as it was and goes to the
    caller. *)
Definition setConfig (config : raw_config) (this : element) : outcome element :=
  match V130.setConfig memberText run toLocaleString (to_card this) config with
  | Done c => Done (of_card c this)
  | Threw message _ => Threw message this
  end.

(** [_getConfiguredPeriod], lines 218 to 238. [this._hass.states[id]] is
    the state of the entity when [id] is a key of the states; when it is
    not, but names a member of [Object.prototype], the lookup finds that
    member, which has no [state], and [entityState.toLowerCase()] throws a
    [TypeError]. *)
Definition _getConfiguredPeriod (this : element) : call period_value :=
  let fallback :=
    Returned (Period (or_text (V130.period <$> this.(_config)) "today")) in
  match this.(_config) ≫= V130.period_entity with
  | Some period_entity =>
      if String.eqb period_entity "" then fallback
      else
        match this.(_hass) with
        | Some hass =>
            match hass.(h_states) !! period_entity with
            | Some entityState =>
                match stateMap_get (toLowerCase entityState) with
                | Some p => Returned p
                | None => fallback
                end
            | None =>
                if bool_decide (period_entity ∈ inherited) then Thrown "TypeError"
                else fallback
            end
        | None => fallback
        end
  | None => fallback
  end.

(** [this._dateRange || this._getDateRangeForPeriod(this._getConfiguredPeriod())] *)
Definition dateRange (this : element) : call date_range :=
  match this.(_dateRange) with
  | Some r => Returned r
  | None =>
      match _getConfiguredPeriod this with
      | Returned p => Returned (RangeOfPeriod p)
      | Thrown e => Thrown e
      end
  end.

(** [_updateData] until it awaits [_fetchStatistics], lines 241 to 270, and
    [_fetchStatistics] until it awaits [callWS] or returns. An error of
    [_getConfiguredPeriod] ends the method: nothing in the card catches it.
    Without ids the data are emptied and the card is rendered at once. With
    ids and a [callWS], the request is written: [callWS] is called, unless
    a date of the range is invalid; the [RangeError] is then caught in
    [_fetchStatistics], which writes it to the console and returns [{}]. *)
Definition _updateData (this : element) : element :=
  match this.(_hass), this.(_config) with
  | Some hass, Some config =>
      match dateRange this with
      | Thrown _ => this
      | Returned range =>
          match uniqueEntityIds config with
          | [] => render (set_energyData ∅ this)
          | ids =>
              if hass.(h_callWS) then
                if usable isDate range then emit [CallWS ids] this
                else emit [Console (Error "Statistics fetch failed:" "RangeError")] this
              else this
          end
      end
  | _, _ => this
  end.

(** [_fetchStatistics] once [callWS] has settled, lines 281 to 295. *)
Definition _fetchStatistics (a : option answer) : list console_event * option statistics :=
  match a with
  | None => ([], Some ∅)
  | Some (Resolved statistics) => ([], statistics)
  | Some (Rejected e) => ([Error "Statistics fetch failed:" e], Some ∅)
  end.

(** [_updateData] after the await, lines 270 to 272. *)
Definition fetched (a : option answer) (this : element) : element :=
  let '(log, statistics) := _fetchStatistics a in
  render (set_energyData (V130._processStatistics (default ∅ statistics))
            (emit (Console <$> log) this)).

(** [_subscribeToEnergyDate] until it awaits [subscribeMessage]. *)
Definition _subscribeToEnergyDate (this : element) : element :=
  match this.(_hass) with
  | Some hass => if hass.(h_connection) then emit [SubscribeMessage] this else this
  | None => this
  end.

(** The subscription resolved, lines 160 and 173. *)
Definition subscribed (u : nat) (this : element) : element :=
  emit [Console (Debug "[Energy Card] Successfully subscribed to energy date selection")]
    (set_unsubscribe (Some u) this).

(** The subscription failed, lines 175 to 177: an error of
    [_getConfiguredPeriod] leaves the [catch] block. *)
Definition subscribe_failed (message : string) (this : element) : element :=
  let this :=
    emit [Warn "[Energy Card] Energy date subscription failed, using today:" message] this in
  match _getConfiguredPeriod this with
  | Returned p => _updateData (set_dateRange (Some (RangeOfPeriod p)) this)
  | Thrown _ => this
  end.

(** The callback of the subscription, lines 161 to 170. *)
Definition date_selection (msg : selection) (this : element) : element :=
  let this := emit [Console (Debug "[Energy Card] Date selection message:")] this in
  let this :=
    set_dateRange
      (Some (Range (or_else msg.(m_start_date) msg.(m_start))
                   (or_else msg.(m_end_date) msg.(m_end)))) this in
  let this := emit [Console (Debug "[Energy Card] Using date range:")] this in
  _updateData this.

(** The setter of [hass], lines 145 to 154. *)
Definition set_hass (hass : option host) (this : element) : element :=
  let this := set_hass_ hass this in
  let this :=
    if negb this.(_initialized) && default false (h_connection <$> hass) then
      _subscribeToEnergyDate (set_initialized true this)
    else this in
  _updateData this.

Definition disconnectedCallback (this : element) : element :=
  match this.(_unsubscribe) with
  | Some u => set_unsubscribe None (emit [Unsubscribe u] this)
  | None => this
  end.

Definition step (this : element) (e : event) : element :=
  match e with
  | SetConfig config =>
      match setConfig config this with
      | Done after => after
      | Threw _ after => after
      end
  | SetHass hass => set_hass hass this
  | Subscribed u => subscribed u this
  | SubscribeFailed message => subscribe_failed message this
  | DateSelection msg => date_selection msg this
  | Fetched a => fetched a this
  | Disconnected => disconnectedCallback this
  end.

(** The element after a run of events, from the constructor on. *)
Definition after (events : list event) : element := fold_left step events new.

End Runtime.

End Life130.

(** ** The element of 1.0.0 *)

Module Life100.

Record element := {
  _config : option V100.config;
  _hass : option host;
  _energyData : gmap string V100.entry;
  _unsubscribe : option nat;
  _dateRange : option date_range;
  shadow : V100.view;
  out : list output
}.

Definition new : element :=
  {| _config := None; _hass := None; _energyData := ∅; _unsubscribe := None;
     _dateRange := None; shadow := V100.Blank; out := [] |}.

Definition set_hass_ (hass : option host) (this : element) : element :=
  {| _config := this.(_config); _hass := hass; _energyData := this.(_energyData);
     _unsubscribe := this.(_unsubscribe); _dateRange := this.(_dateRange);
     shadow := this.(shadow); out := this.(out) |}.

Definition set_energyData (data : gmap string V100.entry) (this : element) : element :=
  {| _config := this.(_config); _hass := this.(_hass); _energyData := data;
     _unsubscribe := this.(_unsubscribe); _dateRange := this.(_dateRange);
     shadow := this.(shadow); out := this.(out) |}.

Definition set_unsubscribe (u : option nat) (this : element) : element :=
  {| _config := this.(_config); _hass := this.(_hass); _energyData := this.(_energyData);
     _unsubscribe := u; _dateRange := this.(_dateRange);
     shadow := this.(shadow); out := this.(out) |}.

Definition set_dateRange (r : option date_range) (this : element) : element :=
  {| _config := this.(_config); _hass := this.(_hass); _energyData := this.(_energyData);
     _unsubscribe := this.(_unsubscribe); _dateRange := r;
     shadow := this.(shadow); out := this.(out) |}.

Definition emit (l : list output) (this : element) : element :=
  {| _config := this.(_config); _hass := this.(_hass); _energyData := this.(_energyData);
     _unsubscribe := this.(_unsubscribe); _dateRange := this.(_dateRange);
     shadow := this.(shadow); out := this.(out) ++ l |}.

Definition to_card (this : element) : V100.card :=
  {| V100._config := this.(_config);
     V100._hass := h_states <$> this.(_hass);
     V100._energyData := this.(_energyData);
     V100.shadow := this.(shadow);
     V100.console := [] |}.

Definition of_card (c : V100.card) (this : element) : element :=
  {| _config := c.(V100._config); _hass := this.(_hass);
     _energyData := c.(V100._energyData);
     _unsubscribe := this.(_unsubscribe); _dateRange := this.(_dateRange);
     shadow := c.(V100.shadow);
     out := this.(out) ++ (Console <$> c.(V100.console)) |}.

(** The ids of [_updateData], lines 177 to 199. *)
Definition calculate_from_ids (source : descriptor) : list string :=
  match source.(s_calculate_from) with
  | Some cf => push_if cf.(cf_import) ++ push_if cf.(cf_export)
  | None => []
  end.

Definition net_metering_ids (nm : option net_metering) : list string :=
  match nm with
  | Some nm => push_if nm.(nm_import_entity) ++ push_if nm.(nm_export_entity)
  | None => []
  end.

Definition entityIds (config : V100.config) : list string :=
  map (fun s => key s.(s_entity))
    (List.filter (fun s => nonempty s.(s_entity)) config.(V100.sources)) ++
  flat_map calculate_from_ids config.(V100.sources) ++
  net_metering_ids config.(V100.net_metering_).

Definition uniqueEntityIds (config : V100.config) : list string :=
  Set_values (entityIds config).

(** [1 + Math.ceil((this._config?.sources?.length || 1) / 2)] *)
Definition getCardSize (this : element) : Z :=
  let length := match this.(_config) with
                | Some config => Z.of_nat (length config.(V100.sources))
                | None => 0
                end in
  let rows := if length =? 0 then 1 else length in
  1 + (rows + 1) / 2.

Definition getStubConfig : raw_config :=
  {| c_title := Some "Energy Sources";
     c_show_header := None; c_show_total := None; c_currency := None;
     c_decimal_places := None; c_cost_decimal_places := None;
     c_period := None; c_period_entity := None;
     c_sources := Sources
       [ {| s_type := Some "solar";
            s_entity := Some "sensor.solar_energy_production";
            s_label := Some (Text "Solar Production");
            s_emoji := Some (Text "☀️");
            s_unit := None;
            s_rate_entity := Some "sensor.electricity_rate";
            s_rate_static := Undefined;
            s_cost_formula := None; s_invert_cost := None; s_show_cost := None;
            s_hide_if_zero := None; s_calculate_from := None |} ];
     c_net_metering := None |}%string.

Section Runtime.

Variable run : engine.
Variable toLocaleString : number -> number -> string.

(** Whether [new Date(text)] is a valid date, the host's. *)
Variable isDate : string -> bool.

Definition render (this : element) : element :=
  of_card (V100.render run toLocaleString (to_card this)) this.

Definition setConfig (config : raw_config) (this : element) : outcome element :=
  match V100.setConfig run toLocaleString (to_card this) config with
  | Done c => Done (of_card c this)
  | Threw message _ => Threw message this
  end.

(** [this._dateRange || this._getDefaultDateRange()] *)
Definition dateRange (this : element) : date_range :=
  default RangeOfToday this.(_dateRange).

(** [_updateData] until it awaits, lines 170 to 207, and [_fetchStatistics]
    until it awaits [callWS] or returns. Without ids the card is rendered
    with the data it holds. With ids and a [callWS], the request is
    written: [callWS] is called, unless a date of the range is invalid; the
    [RangeError] is then caught in [_fetchStatistics], which writes it to
    the console and returns [{}]. *)
Definition _updateData (this : element) : element :=
  match this.(_hass), this.(_config) with
  | Some hass, Some config =>
      match uniqueEntityIds config with
      | [] => render this
      | ids =>
          if hass.(h_callWS) then
            if usable isDate (dateRange this) then emit [CallWS ids] this
            else emit [Console (Error "Failed to fetch statistics:" "RangeError")] this
          else this
      end
  | _, _ => this
  end.

Definition _fetchStatistics (a : option answer) : list console_event * option statistics :=
  match a with
  | None => ([], Some ∅)
  | Some (Resolved statistics) => ([], statistics)
  | Some (Rejected e) => ([Error "Failed to fetch statistics:" e], Some ∅)
  end.

(** [_updateData] after the await, lines 208 to 220: [Object.entries] throws
    on [null] and [undefined], the data are then left as they are. *)
Definition fetched (a : option answer) (this : element) : element :=
  let '(log, statistics) := _fetchStatistics a in
  let this := emit (Console <$> log) this in
  match statistics with
  | Some statistics => render (set_energyData (V100._processStatistics statistics) this)
  | None =>
      render (emit [Console (Error "Error fetching energy statistics:" "TypeError")] this)
  end.

Definition _subscribeToEnergyDate (this : element) : element :=
  match this.(_hass) with
  | Some hass => if hass.(h_connection) then emit [SubscribeMessage] this else this
  | None => this
  end.

Definition subscribed (u : nat) (this : element) : element :=
  set_unsubscribe (Some u) this.

(** The subscription failed, lines 153 to 156: the range is that of
    [_getDefaultDateRange], today. *)
Definition subscribe_failed (message : string) (this : element) : element :=
  let this :=
    emit [Warn "Could not subscribe to energy date selection, using default range:"
            message] this in
  _updateData (set_dateRange (Some RangeOfToday) this).

(** The callback of the subscription, lines 145 to 150: the message itself
    becomes the range. *)
Definition date_selection (msg : selection) (this : element) : element :=
  if bool_decide (msg.(m_type) = Some "energy/date_selection"%string) then
    _updateData (set_dateRange (Some (Range msg.(m_start) msg.(m_end))) this)
  else this.

(** The setter of [hass], lines 127 to 136. *)
Definition set_hass (hass : option host) (this : element) : element :=
  let this := set_hass_ hass this in
  let this :=
    match this.(_unsubscribe) with
    | None => _subscribeToEnergyDate this
    | Some _ => this
    end in
  _updateData this.

Definition disconnectedCallback (this : element) : element :=
  match this.(_unsubscribe) with
  | Some u => set_unsubscribe None (emit [Unsubscribe u] this)
  | None => this
  end.

Definition step (this : element) (e : event) : element :=
  match e with
  | SetConfig config =>
      match setConfig config this with
      | Done after => after
      | Threw _ after => after
      end
  | SetHass hass => set_hass hass this
  | Subscribed u => subscribed u this
  | SubscribeFailed message => subscribe_failed message this
  | DateSelection msg => date_selection msg this
  | Fetched a => fetched a this
  | Disconnected => disconnectedCallback this
  end.

Definition after (events : list event) : element := fold_left step events new.

End Runtime.

End Life100.

(** ** The visual editor of 1.3.0

    The editor keeps a configuration of its own, changes it on every input
    of the form, and hands a copy to the dashboard in a [config-changed]
    event. The form itself (the markup, the entity pickers) belongs to the
    browser; an input is an [edit] with the value the form reports. *)

Module Editor130.

(** A source in the editor: the fields of the configuration, and the two
    marks the editor sets when the user types a label or an emoji (a mark
    that is absent counts as unset). *)
Record source := {
  fields : descriptor;
  _labelCustomized : bool;
  _emojiCustomized : bool
}.

(** [this._config] after [setConfig]. *)
Record config := {
  type : option string;
  title : string;
  show_header : bool;
  show_total : bool;
  currency : string;
  decimal_places : number;
  period : string;
  sources : list source
}.

(** A card configuration as the dashboard holds it: the [type] of the
    card, the keys the card reads, and every other key it may carry
    ([view_layout], [visibility], ...), with its value as the YAML of the
    dashboard writes it. *)
Record dashboard := {
  d_type : option string;
  d_config : raw_config;
  d_others : list (string * string)
}.

Definition unmarked (d : descriptor) : source :=
  {| fields := d; _labelCustomized := false; _emojiCustomized := false |}.

(** [setConfig], lines 617 to 629: the configuration of the editor is made
    of eight keys of [config], and of no other. [config.sources] is an
    array or absent; with another value in its place the editor is not
    modelled ([None]). *)
Definition setConfig (config : dashboard) : option Editor130.config :=
  let c := config.(d_config) in
  let made (l : list source) :=
    {| type := config.(d_type);
       title := or_text c.(c_title) "Energy Sources";
       show_header := not_false c.(c_show_header);
       show_total := not_false c.(c_show_total);
       currency := or_text c.(c_currency) "$";
       decimal_places := default 2%float c.(c_decimal_places);
       period := or_text c.(c_period) "today";
       sources := l |} in
  match c.(c_sources) with
  | Sources l => Some (made (unmarked <$> l))
  | NoSources => Some (made [])
  | NotAnArray => None
  end.

(** [_fireConfigChanged], lines 631 to 650: the configuration of the event.
    It has the keys of [this._config] and no other; the marks are deleted
    from the copies of the sources. *)
Definition _fireConfigChanged (this : config) : dashboard :=
  {| d_type := this.(type);
     d_config :=
       {| c_title := Some this.(title);
          c_show_header := Some this.(show_header);
          c_show_total := Some this.(show_total);
          c_currency := Some this.(currency);
          c_decimal_places := Some this.(decimal_places);
          c_cost_decimal_places := None;
          c_period := Some this.(period);
          c_period_entity := None;
          c_sources := Sources (fields <$> this.(sources));
          c_net_metering := None |};
     d_others := [] |}.

(** The inputs of the form, [_attachEventListeners], lines 912 to 1057. *)
Inductive edit :=
  | Title (value : string)
  | Currency (value : string)
  | DecimalPlaces (value : string)
  | PeriodChange (value : string)
  | ShowHeader (checked : bool)
  | ShowTotal (checked : bool)
  | AddSource
  | RemoveSource (index : nat)
  | SourceType (index : nat) (type : string)
  | SourceEmoji (index : nat) (value : string)
  | SourceLabel (index : nat) (value : string)
  | SourceEntity (index : nat) (value : option string)
  | SourceUnit (index : nat) (value : string)
  | SourceRateEntity (index : nat) (value : option string)
  | SourceRateStatic (index : nat) (value : string)
  | SourceShowCost (index : nat) (checked : bool)
  | SourceInvertCost (index : nat) (checked : bool)
  | SourceHideZero (index : nat) (checked : bool).

Definition with_sources (l : list source) (this : config) : config :=
  {| type := this.(type); title := this.(title); show_header := this.(show_header);
     show_total := this.(show_total); currency := this.(currency);
     decimal_places := this.(decimal_places); period := this.(period);
     sources := l |}.

(** The source the button adds, lines 945 to 952. *)
Definition added : source :=
  unmarked
    {| s_type := Some "default"; s_entity := Some "";
       s_label := Some (Text "New Source"); s_emoji := Some (Text "📊");
       s_unit := Some (Text "kWh"); s_rate_entity := None;
       s_rate_static := Undefined; s_cost_formula := None; s_invert_cost := None;
       s_show_cost := Some true; s_hide_if_zero := None;
       s_calculate_from := None |}%string.

(** The change of type, lines 968 to 977. *)
Definition retyped (type : string) (s : source) : source :=
  let d := s.(fields) in
  {| fields :=
       {| s_type := Some type;
          s_entity := d.(s_entity);
          s_label :=
            if s.(_labelCustomized) then d.(s_label)
            else Some (or_value (lookup DEFAULT_LABELS type) (Text "Energy"));
          s_emoji :=
            if s.(_emojiCustomized) then d.(s_emoji)
            else Some (or_value (lookup DEFAULT_EMOJIS type) (Text "📊"));
          s_unit := Some (or_value (lookup DEFAULT_UNITS type) (Text "kWh"));
          s_rate_entity := d.(s_rate_entity);
          s_rate_static := d.(s_rate_static);
          s_cost_formula := d.(s_cost_formula);
          s_invert_cost := d.(s_invert_cost);
          s_show_cost := d.(s_show_cost);
          s_hide_if_zero := d.(s_hide_if_zero);
          s_calculate_from := d.(s_calculate_from) |};
     _labelCustomized := s.(_labelCustomized);
     _emojiCustomized := s.(_emojiCustomized) |}.

(** The assignments of the other inputs of a source, on its fields. *)
Definition assign (e : edit) (d : descriptor) : descriptor :=
  {| s_type := d.(s_type);
     s_entity :=
       match e with SourceEntity _ v => Some (or_text v "") | _ => d.(s_entity) end;
     s_label := match e with SourceLabel _ v => Some (Text v) | _ => d.(s_label) end;
     s_emoji := match e with SourceEmoji _ v => Some (Text v) | _ => d.(s_emoji) end;
     s_unit := match e with SourceUnit _ v => Some (Text v) | _ => d.(s_unit) end;
     s_rate_entity :=
       match e with
       | SourceRateEntity _ v => Some (or_text v "")
       | _ => d.(s_rate_entity)
       end;
     s_rate_static :=
       match e with
       | SourceRateStatic _ val =>
           if String.eqb val "" then Null else Num (parseFloat val)
       | _ => d.(s_rate_static)
       end;
     s_cost_formula := d.(s_cost_formula);
     s_invert_cost :=
       match e with SourceInvertCost _ b => Some b | _ => d.(s_invert_cost) end;
     s_show_cost := match e with SourceShowCost _ b => Some b | _ => d.(s_show_cost) end;
     s_hide_if_zero :=
       match e with SourceHideZero _ b => Some b | _ => d.(s_hide_if_zero) end;
     s_calculate_from := d.(s_calculate_from) |}.

Definition changed (e : edit) (s : source) : source :=
  match e with
  | SourceType _ type => retyped type s
  | _ =>
      {| fields := assign e s.(fields);
         _labelCustomized :=
           match e with SourceLabel _ _ => true | _ => s.(_labelCustomized) end;
         _emojiCustomized :=
           match e with SourceEmoji _ _ => true | _ => s.(_emojiCustomized) end |}
  end.

(** [this._config.sources[index]] is changed in place; without a source at
    [index] the assignment throws ([None]). *)
Definition at_index (index : nat) (f : source -> source) (this : config) : option config :=
  match this.(sources) !! index with
  | Some s => Some (with_sources (<[index := f s]> this.(sources)) this)
  | None => None
  end.

Section Runtime.

(** [parseInt], the host's. *)
Variable parseInt : string -> number.

(** The configuration of the editor after an input. *)
Definition apply (e : edit) (this : config) : option config :=
  match e with
  | Title value =>
      Some {| type := this.(type); title := value; show_header := this.(show_header);
              show_total := this.(show_total); currency := this.(currency);
              decimal_places := this.(decimal_places); period := this.(period);
              sources := this.(sources) |}
  | Currency value =>
      Some {| type := this.(type); title := this.(title);
              show_header := this.(show_header); show_total := this.(show_total);
              currency := value; decimal_places := this.(decimal_places);
              period := this.(period); sources := this.(sources) |}
  | DecimalPlaces value =>
      let n := parseInt value in
      Some {| type := this.(type); title := this.(title);
              show_header := this.(show_header); show_total := this.(show_total);
              currency := this.(currency);
              decimal_places := if truthy n then n else 2%float;
              period := this.(period); sources := this.(sources) |}
  | PeriodChange value =>
      Some {| type := this.(type); title := this.(title);
              show_header := this.(show_header); show_total := this.(show_total);
              currency := this.(currency); decimal_places := this.(decimal_places);
              period := value; sources := this.(sources) |}
  | ShowHeader checked =>
      Some {| type := this.(type); title := this.(title); show_header := checked;
              show_total := this.(show_total); currency := this.(currency);
              decimal_places := this.(decimal_places); period := this.(period);
              sources := this.(sources) |}
  | ShowTotal checked =>
      Some {| type := this.(type); title := this.(title);
              show_header := this.(show_header); show_total := checked;
              currency := this.(currency); decimal_places := this.(decimal_places);
              period := this.(period); sources := this.(sources) |}
  | AddSource => Some (with_sources (this.(sources) ++ [added]) this)
  | RemoveSource index => Some (with_sources (delete index this.(sources)) this)
  | SourceType index _ | SourceEmoji index _ | SourceLabel index _
  | SourceEntity index _ | SourceUnit index _ | SourceRateEntity index _
  | SourceRateStatic index _ | SourceShowCost index _ | SourceInvertCost index _
  | SourceHideZero index _ => at_index index (changed e) this
  end.

(** A run of inputs; [None] once one of them throws. *)
Definition apply_all (l : list edit) (this : config) : option config :=
  foldl (fun acc e => acc ≫= apply e) (Some this) l.

End Runtime.

End Editor130.

(** ** The markup of 1.3.0

    [render] writes the table as markup, in one template literal (lines
    482 to 583). The texts between its substitutions are copied from the
    file as they are, line breaks and indentation included; a backquote in
    a text below stands for a double quote of the file ([lit]). *)

Module Markup130.

Definition lit (s : string) : string :=
  string_of_list_ascii
    (map (fun c => if Ascii.eqb c "`" then ascii_of_nat 34 else c)
       (list_ascii_of_string s)).

(** [l.join('')] *)
Definition join (l : list string) : string := fold_right append "" l.

Section Runtime.

Variable memberText : string -> string.
Variable run : engine.
Variable toLocaleString : number -> number -> string.

(** The callback of [rows.map] in the template, lines 543 to 555. *)
Definition row_html (row : V130.row) : string :=
  lit "
              <div class=`energy-row`>
                <div class=`source-info`>
                  <span class=`emoji`>" +:+ show memberText (Some row.(V130.emoji)) +:+
  lit "</span>
                  <span class=`label`>" +:+ show memberText (Some row.(V130.label)) +:+
  lit "</span>
                </div>
                <div class=`values`>
                  <span class=`value " +:+ (if row.(V130.isNegative) then "negative" else "") +:+
  lit "`>" +:+ row.(V130.value_) +:+
  lit "<span class=`unit`>" +:+ show memberText (Some row.(V130.unit_)) +:+
  "</span></span>
                  " +:+
  (if nonempty row.(V130.rateWarning) then
     lit "<span class=`cost warning` title=`" +:+ key row.(V130.rateWarning) +:+
     lit "`>⚠️ " +:+ key row.(V130.rateWarning) +:+
     "</span>"
   else if negb (String.eqb row.(V130.costFormatted) "") then
     lit "<span class=`cost " +:+ (if row.(V130.isCostCredit) then "credit" else "") +:+
     lit "`>" +:+ row.(V130.costFormatted) +:+
     "</span>"
   else "") +:+
  "
                </div>
              </div>
            ".

(** The net-metering row, lines 556 to 567. *)
Definition net_row_html (r : V130.net_row) : string :=
  lit "
              <div class=`energy-row net-metering-row " +:+ (if r.(V130.n_isCredit) then "credit" else "debit") +:+
  lit "`>
                <div class=`source-info`>
                  <span class=`emoji`>" +:+ r.(V130.n_emoji) +:+
  lit "</span>
                  <span class=`label`>" +:+ r.(V130.n_label) +:+
  lit "</span>
                </div>
                <div class=`values`>
                  <span class=`value " +:+ (if r.(V130.n_isNegative) then "credit" else "") +:+
  lit "`>" +:+ r.(V130.n_value) +:+
  lit "<span class=`unit`>" +:+ r.(V130.n_unit) +:+
  "</span></span>
                  " +:+
  (if negb (String.eqb r.(V130.n_costFormatted) "") then
     lit "<span class=`cost " +:+ (if r.(V130.n_isCredit) then "credit" else "") +:+
     lit "`>" +:+ r.(V130.n_costFormatted) +:+
     "</span>"
   else "") +:+
  "
                </div>
              </div>
            ".

(** The total row, lines 568 to 579: it formats the total once more. *)
Definition total_html (config : V130.config) (totalCost : number)
    : list console_event * string :=
  let '(log, text) :=
    V130._formatCost toLocaleString (Some config) (Some totalCost)
      config.(V130.cost_decimal_places) in
  (log,
   lit "
              <div class=`energy-row total`>
                <div class=`source-info`>
                  <span class=`emoji`>💵</span>
                  <span class=`label`>Total Cost</span>
                </div>
                <div class=`values`>
                  <span class=`value " +:+ (if (totalCost <? 0)%float then "credit" else "") +:+
   lit "`>" +:+ text +:+
   "</span>
                  " +:+
   (if (totalCost <? 0)%float then lit "<span class=`cost credit`>Credit</span>" else "") +:+
   "
                </div>
              </div>
            ").

(** The header, line 538. *)
Definition header_html (config : V130.config) : string :=
  if config.(V130.show_header) then
    lit "<div class=`card-header`>" +:+ or_text (Some config.(V130.title)) "Energy Sources" +:+ "</div>"
  else "".

(** What stands for the rows when there are none, lines 540 to 542. *)
Definition no_data : string :=
  lit "
            <div class=`no-data`>No energy data available</div>
          ".

(** The text before the header (the style sheet), between the header and
    the content, and after the content. *)
Definition before_header : string :=
  "
      <style>
        :host { display: block; }
        ha-card { padding: 16px; }
        .card-header {
          font-size: 1.2em;
          font-weight: 500;
          padding-bottom: 12px;
          border-bottom: 1px solid var(--divider-color, rgba(0,0,0,0.12));
          margin-bottom: 12px;
        }
        .energy-row {
          display: flex;
          justify-content: space-between;
          align-items: center;
          padding: 8px 0;
          border-bottom: 1px solid var(--divider-color, rgba(0,0,0,0.12));
        }
        .energy-row:last-child { border-bottom: none; }
        .energy-row.total {
          font-weight: bold;
          border-top: 2px solid var(--divider-color, rgba(0,0,0,0.12));
          margin-top: 8px;
          padding-top: 12px;
        }
        .source-info {
          display: flex;
          align-items: center;
          gap: 8px;
        }
        .emoji { font-size: 1.4em; width: 28px; text-align: center; }
        .label { color: var(--primary-text-color); }
        .values {
          display: flex;
          flex-direction: column;
          align-items: flex-end;
          text-align: right;
        }
        .value { font-weight: 500; color: var(--primary-text-color); }
        .value.negative { color: var(--error-color, #db4437); }
        .value.credit { color: var(--success-color, #43a047); }
        .cost { font-size: 0.85em; color: var(--secondary-text-color); }
        .cost.credit { color: var(--success-color, #43a047); }
        .cost.warning { color: var(--warning-color, #ff9800); font-size: 0.75em; }
        .unit { font-size: 0.85em; color: var(--secondary-text-color); margin-left: 4px; }
        .no-data { text-align: center; color: var(--secondary-text-color); padding: 20px; }
        .net-metering-row {
          background: var(--secondary-background-color, rgba(0,0,0,0.05));
          border-radius: 8px;
          margin: 8px 0;
          padding: 8px 12px !important;
        }
        .net-metering-row.credit { background: rgba(67, 160, 71, 0.1); }
        .net-metering-row.debit { background: rgba(219, 68, 55, 0.1); }
      </style>
      <ha-card>
        ".

Definition before_content : string :=
  lit "
        <div class=`energy-content`>
          ".

Definition after_content : string :=
  "
        </div>
      </ha-card>
    ".

(** The template literal, from the values [render] computed. *)
Definition innerHTML (config : V130.config) (t : V130.table_view)
    : list console_event * string :=
  let '(log, content) :=
    match t.(V130.rows), t.(V130.netMeteringRow) with
    | [], None => ([], no_data)
    | _, _ =>
        let '(log, total) :=
          if config.(V130.show_total) && t.(V130.hasAnyCost)
          then total_html config t.(V130.totalCost)
          else ([], "") in
        (log,
         "
            " +:+ join (row_html <$> t.(V130.rows)) +:+
         "
            " +:+
         (match t.(V130.netMeteringRow) with
          | Some r => net_row_html r
          | None => ""
          end) +:+
         "
            " +:+ total +:+
         "
          ")
    end in
  (log, before_header +:+ header_html config +:+ before_content +:+ content +:+
        after_content).

(** [render]: the console lines of the call, and the markup it writes. *)
Definition render (this : V130.card) : list console_event * string :=
  match this.(V130._config) with
  | None => ([], lit "<ha-card><div style=`padding:16px`>Loading...</div></ha-card>")
  | Some config =>
      let '(t, log) :=
        V130.buildRows memberText run toLocaleString config this.(V130._hass)
          this.(V130._energyData) in
      let '(log', html) := innerHTML config t in
      (log ++ log', html)
  end.

End Runtime.

End Markup130.

(** * Words for the properties of the rest *)

Module Property.

(** [c] without the three keys of the card that the editor does not keep. *)
Definition forget (c : raw_config) : raw_config :=
  {| c_title := c.(c_title); c_show_header := c.(c_show_header);
     c_show_total := c.(c_show_total); c_currency := c.(c_currency);
     c_decimal_places := c.(c_decimal_places);
     c_cost_decimal_places := None;
     c_period := c.(c_period);
     c_period_entity := None;
     c_sources := c.(c_sources);
     c_net_metering := None |}.

(** The ids a configuration names for quantities: the entity of a source,
    the two of its [calculate_from], the two of the net metering. *)
Definition named_by (sources : list descriptor) (nm : option net_metering)
    (id : string) : Prop :=
  (exists source, source ∈ sources /\
     (source.(s_entity) = Some id \/
      exists cf, source.(s_calculate_from) = Some cf /\
        (cf.(cf_import) = Some id \/ cf.(cf_export) = Some id))) \/
  (exists n, nm = Some n /\
     (n.(nm_import_entity) = Some id \/ n.(nm_export_entity) = Some id)).

(** The keys of the data a row reads for its quantity. *)
Definition read_keys (source : descriptor) : list string :=
  match source.(s_calculate_from) with
  | Some cf => [key cf.(cf_import); key cf.(cf_export)]
  | None => [key source.(s_entity)]
  end.

Definition net_metering_keys (nm : option net_metering) : list string :=
  match nm with
  | Some nm => [key nm.(nm_import_entity); key nm.(nm_export_entity)]
  | None => []
  end.

(** The entities whose state a table reads for a rate. *)
Definition rate_entities (sources : list descriptor) (nm : option net_metering)
    : list string :=
  flat_map (fun source =>
              if flag source.(s_show_cost) then push_if source.(s_rate_entity) else [])
    sources ++
  match nm with
  | Some nm => push_if nm.(nm_rate_entity)
  | None => []
  end.

(** The calls of [subscribeMessage] and of unsubscribe functions among the
    outputs. *)
Definition subscriptions (out : list output) : nat :=
  length (List.filter (fun o => match o with SubscribeMessage => true | _ => false end) out).

Definition requests (out : list output) : list (list string) :=
  omap (fun o => match o with CallWS ids => Some ids | _ => None end) out.

Definition unsubscribed (out : list output) : list nat :=
  omap (fun o => match o with Unsubscribe u => Some u | _ => None end) out.

Definition handed (events : list event) : list nat :=
  omap (fun e => match e with Subscribed u => Some u | _ => None end) events.

(** Outputs that are console lines. *)
Definition quiet (l : list output) : Prop :=
  Forall (fun o => match o with Console _ | Warn _ _ => True | _ => False end) l.

(** The assignments of a [hass] that has a connection, among the events. *)
Definition connects (e : event) : bool :=
  match e with
  | SetHass (Some hass) => hass.(h_connection)
  | _ => false
  end.

Definition connections (events : list event) : nat :=
  length (List.filter connects events).



(** A key [e] of [hass.states] that [getStubConfig] takes for the solar
    entity. *)
Definition solar_energy (e : string) : bool :=
  includes e "solar" && includes e "energy".

(** The period a state text stands for: the names of the five periods,
    and [this_week], [this_month] and [this_year]. *)
Definition stands_for (state : string) : option string :=
  if String.eqb state "today" then Some "today"%string
  else if String.eqb state "yesterday" then Some "yesterday"%string
  else if String.eqb state "week" then Some "week"%string
  else if String.eqb state "this_week" then Some "week"%string
  else if String.eqb state "month" then Some "month"%string
  else if String.eqb state "this_month" then Some "month"%string
  else if String.eqb state "year" then Some "year"%string
  else if String.eqb state "this_year" then Some "year"%string
  else None.

(** The names of the periods the editor offers. *)
Definition period_names : list string := fst <$> PERIOD_OPTIONS.

(** A source of which only the type is given. *)
Definition only_type (type : string) : descriptor :=
  {| s_type := Some type; s_entity := None; s_label := None; s_emoji := None;
     s_unit := None; s_rate_entity := None; s_rate_static := Undefined;
     s_cost_formula := None; s_invert_cost := None; s_show_cost := None;
     s_hide_if_zero := None; s_calculate_from := None |}.

(** [config] without net metering. *)
Definition without_net_metering130 (config : V130.config) : V130.config :=
  {| V130.title := config.(V130.title);
     V130.show_header := config.(V130.show_header);
     V130.show_total := config.(V130.show_total);
     V130.currency := config.(V130.currency);
     V130.decimal_places := config.(V130.decimal_places);
     V130.cost_decimal_places := config.(V130.cost_decimal_places);
     V130.period := config.(V130.period);
     V130.period_entity := config.(V130.period_entity);
     V130.sources := config.(V130.sources);
     V130.net_metering_ := None |}.

Definition without_net_metering100 (config : V100.config) : V100.config :=
  {| V100.title := config.(V100.title);
     V100.show_header := config.(V100.show_header);
     V100.show_total := config.(V100.show_total);
     V100.currency := config.(V100.currency);
     V100.decimal_places := config.(V100.decimal_places);
     V100.cost_decimal_places := config.(V100.cost_decimal_places);
     V100.sources := config.(V100.sources);
     V100.net_metering_ := None |}.

(** The source that computes what the net metering computes: import minus
    export of the same two entities. *)
Definition as_source (nm : net_metering) : descriptor :=
  {| s_type := Some "grid_net"%string; s_entity := None; s_label := None;
     s_emoji := None; s_unit := None; s_rate_entity := None;
     s_rate_static := Undefined; s_cost_formula := None; s_invert_cost := None;
     s_show_cost := None; s_hide_if_zero := None;
     s_calculate_from :=
       Some {| cf_import := nm.(nm_import_entity); cf_export := nm.(nm_export_entity) |} |}.

(** A row as it is, without its cost. *)
Definition uncosted (row : V130.row) : V130.row :=
  {| V130.emoji := row.(V130.emoji); V130.label := row.(V130.label);
     V130.value_ := row.(V130.value_); V130.unit_ := row.(V130.unit_);
     V130.cost := None; V130.costFormatted := ""; V130.rateWarning := row.(V130.rateWarning);
     V130.isNegative := row.(V130.isNegative); V130.isCostCredit := false |}.

(** The card that [render] writes when it has no row to show. *)
Definition no_data_card (config : V130.config) : string :=
  Markup130.before_header +:+ Markup130.header_html config +:+
  Markup130.before_content +:+ Markup130.no_data +:+ Markup130.after_content.

End Property.

(** * The claims, in the words of the specification *)

Module Claim.

(** §4.4 (a): the state of the rate entity, when there is one and its text
    parses as a number. *)
Definition parsed_state (hass : option states) (source : descriptor) : option number :=
  if nonempty source.(s_rate_entity) then
    match hass ≫= (λ st, st !! key source.(s_rate_entity)) with
    | Some text => if isNaN (parseFloat text) then None else Some (parseFloat text)
    | None => None
    end
  else None.

(** §4.4, the rate resolution order: (a) the parsed state, (b) else
    [rateStatic] when it is a number, (c) else [0]. *)
Definition rate_by_order (hass : option states) (source : descriptor) : number :=
  match parsed_state hass source with
  | Some r => r
  | None =>
      match source.(s_rate_static) with
      | Num r => r
      | _ => 0%float
      end
  end.

(** A sign flip for [invertCost]. *)
Definition signed (source : descriptor) (x : number) : number :=
  if flag source.(s_invert_cost) then (- x)%float else x.

(** §4.2, policy 2: the sum of all [periodChange] values of the sequence. *)
Definition sum_of_changes (stats : list stat) : number :=
  fold_left
    (fun acc s => match s.(change) with Num c => (acc + c)%float | _ => acc end)
    stats 0%float.

(** No sample carries [NaN] as its change. *)
Definition changes_are_numbers (stats : list stat) : Prop :=
  Forall (fun s => forall c, s.(change) = Num c -> isNaN c = false) stats.

(** §4.1: the default of a kind in a table; a kind the table does not list
    (and the absent kind) has the default of [custom]. *)
Definition default_for (t : table) (kind : option string) : string :=
  match table_get t (or_text kind "default") with
  | Some v => v
  | None => default "" (table_get t "default")
  end.

(** §4.1: a field that is kept when it is supplied and not empty, and
    filled from the table otherwise. *)
Definition filled (t : table) (kind : option string) (supplied : option text) : text :=
  match supplied with
  | Some v => if filled_in supplied then v else Text (default_for t kind)
  | None => Text (default_for t kind)
  end.

(** A descriptor [d] made from the partial descriptor [raw] as §4.1 asks:
    label, emoji and unit are the supplied text when there is some, the
    default of the kind otherwise. *)
Definition normalized (raw d : descriptor) : Prop :=
  d.(s_label) = Some (filled DEFAULT_LABELS raw.(s_type) raw.(s_label)) /\
  d.(s_emoji) = Some (filled DEFAULT_EMOJIS raw.(s_type) raw.(s_emoji)) /\
  d.(s_unit) = Some (filled DEFAULT_UNITS raw.(s_type) raw.(s_unit)).

(** §3, the invariant: label, emoji and unit are there and not empty. *)
Definition never_blank (d : descriptor) : Prop :=
  filled_in d.(s_label) = true /\ filled_in d.(s_emoji) = true /\
  filled_in d.(s_unit) = true.

(** §4.1: explicit values take precedence. *)
Definition kept (raw d : descriptor) : Prop :=
  (filled_in raw.(s_label) = true -> d.(s_label) = raw.(s_label)) /\
  (filled_in raw.(s_emoji) = true -> d.(s_emoji) = raw.(s_emoji)) /\
  (filled_in raw.(s_unit) = true -> d.(s_unit) = raw.(s_unit)).

(** A kind that names no member of [Object.prototype]; the nine kinds of §3
    are such kinds, and so is the absent kind, which is [custom]. *)
Definition plain_kind (raw : descriptor) : Prop :=
  or_text raw.(s_type) "default" ∉ inherited.

(** A table of defaults has no empty entry and lists [default]. *)
Definition complete (t : table) : Prop :=
  Forall (fun p => snd p <> ""%string) t /\
  exists d, table_get t "default" = Some d.

(** §4.3: [entityValues[id]], [0] when the key is absent. *)
Definition entity_value {A} (delta : A -> number) (data : gmap string A)
    (id : option string) : number :=
  match data !! key id with
  | Some e => delta e
  | None => 0%float
  end.

(** §4.3: import minus export for a derived source, the entity's value
    otherwise. *)
Definition quantity {A} (delta : A -> number) (data : gmap string A)
    (source : descriptor) : number :=
  match source.(s_calculate_from) with
  | Some cf =>
      (entity_value delta data cf.(cf_import) - entity_value delta data cf.(cf_export))%float
  | None => entity_value delta data source.(s_entity)
  end.

(** A static rate as the normalizer leaves it, other than [NaN]: [null] or
    a number. *)
Definition static_rate_is_plain (v : value) : Prop :=
  match v with
  | Undefined => False
  | Null => True
  | Num r => isNaN r = false
  end.

(** Two running totals with the same sum and the same applicability; the
    console is left out. *)
Definition same_totals130 (a b : V130.totals) : Prop :=
  a.(V130.t_totalCost) = b.(V130.t_totalCost) /\
  a.(V130.t_hasAnyCost) = b.(V130.t_hasAnyCost).

Definition same_totals100 (a b : V100.totals) : Prop :=
  a.(V100.t_totalCost) = b.(V100.t_totalCost) /\
  a.(V100.t_hasAnyCost) = b.(V100.t_hasAnyCost).

(** [config] with another list of sources. *)
Definition with_sources130 (config : V130.config) (l : list descriptor) : V130.config :=
  {| V130.title := config.(V130.title);
     V130.show_header := config.(V130.show_header);
     V130.show_total := config.(V130.show_total);
     V130.currency := config.(V130.currency);
     V130.decimal_places := config.(V130.decimal_places);
     V130.cost_decimal_places := config.(V130.cost_decimal_places);
     V130.period := config.(V130.period);
     V130.period_entity := config.(V130.period_entity);
     V130.sources := l;
     V130.net_metering_ := config.(V130.net_metering_) |}.

Definition with_sources100 (config : V100.config) (l : list descriptor) : V100.config :=
  {| V100.title := config.(V100.title);
     V100.show_header := config.(V100.show_header);
     V100.show_total := config.(V100.show_total);
     V100.currency := config.(V100.currency);
     V100.decimal_places := config.(V100.decimal_places);
     V100.cost_decimal_places := config.(V100.cost_decimal_places);
     V100.sources := l;
     V100.net_metering_ := config.(V100.net_metering_) |}.

Definition is_debug (e : console_event) : Prop :=
  match e with Debug _ => True | Error _ _ => False end.

(** Every value of the map is a number other than [NaN]. *)
Definition values_are_numbers {A} (delta : A -> number) (data : gmap string A) : Prop :=
  map_Forall (fun _ e => isNaN (delta e) = false) data.

End Claim.

(** * Inputs of the examples *)

Module Example.

(** A source with no field set. *)
Definition blank : descriptor :=
  {| s_type := None; s_entity := None; s_label := None; s_emoji := None;
     s_unit := None; s_rate_entity := None; s_rate_static := Undefined;
     s_cost_formula := None; s_invert_cost := None; s_show_cost := None;
     s_hide_if_zero := None; s_calculate_from := None |}.

Definition with_sum (x : number) : stat :=
  {| sum := Num x; change := Undefined; state := Undefined;
     unit_of_measurement := None |}.

Definition with_change (x : number) : stat :=
  {| sum := Undefined; change := Num x; state := Undefined;
     unit_of_measurement := None |}.

Definition with_state (x : number) : stat :=
  {| sum := Undefined; change := Undefined; state := Num x;
     unit_of_measurement := None |}.

(** A host for which a text is a date when it starts with a digit. *)
Definition dated (text : string) : bool :=
  match text with
  | String c _ => is_digit c
  | EmptyString => false
  end.

(** The text one engine gives the members of [Object.prototype]. *)
Definition native (name : string) : string :=
  if String.eqb name "__proto__" then "[object Object]"
  else "function " +:+ name +:+ "() { [native code] }".

(** A formatter that ignores the number of decimals. *)
Definition plain_format : number -> number -> string :=
  fun x _ => number_to_string x.

Definition no_config : raw_config :=
  {| c_title := None; c_show_header := None; c_show_total := None;
     c_currency := None; c_decimal_places := None; c_cost_decimal_places := None;
     c_period := None; c_period_entity := None; c_sources := NoSources;
     c_net_metering := None |}.

(** [sources: []] *)
Definition empty_sources : raw_config :=
  {| c_title := None; c_show_header := None; c_show_total := None;
     c_currency := None; c_decimal_places := None; c_cost_decimal_places := None;
     c_period := None; c_period_entity := None; c_sources := Sources [];
     c_net_metering := None |}.

(** Import [100] and export [30], and the same with export [130]. *)
Definition deltas (export : number) : gmap string number :=
  <["sensor.grid_import" := 100%float]> (<["sensor.grid_export" := export]> ∅).

Definition entries (export : number) : gmap string V100.entry :=
  (fun v => {| V100.e_value := v; V100.e_unit := None |}) <$> deltas export.

(** A source derived from the two. *)
Definition grid_net : descriptor :=
  {| s_type := Some "grid_net"; s_entity := None; s_label := None; s_emoji := None;
     s_unit := None; s_rate_entity := None; s_rate_static := Undefined;
     s_cost_formula := None; s_invert_cost := None; s_show_cost := None;
     s_hide_if_zero := None;
     s_calculate_from :=
       Some {| cf_import := Some "sensor.grid_import";
               cf_export := Some "sensor.grid_export" |} |}.

(** The host states of the examples: a rate entity that reports a number
    and one that is unavailable. *)
Definition home : option states :=
  Some (<["sensor.rate" := "0.2"%string]>
          (<["sensor.tariff" := "unavailable"%string]> ∅)).

(** A solar source as 1.3.0 normalizes it, with the given rate entity,
    static rate, formula and sign. *)
Definition solar (rate_entity : string) (rate_static : value) (formula : string)
    (invert : bool) : descriptor :=
  {| s_type := Some "solar"; s_entity := Some "sensor.solar";
     s_label := Some (Text "Solar Production"); s_emoji := Some (Text "☀️"); s_unit := Some (Text "kWh");
     s_rate_entity := Some rate_entity; s_rate_static := rate_static;
     s_cost_formula := Some formula; s_invert_cost := Some invert;
     s_show_cost := Some true; s_hide_if_zero := Some false;
     s_calculate_from := None |}%string.

(** The same source as 1.0.0 normalizes it: an absent text is [null]. *)
Definition solar100 (rate_entity : option string) (rate_static : value)
    (formula : option string) (invert : bool) : descriptor :=
  {| s_type := Some "solar"; s_entity := Some "sensor.solar";
     s_label := Some (Text "Solar Production"); s_emoji := Some (Text "☀️"); s_unit := Some (Text "kWh");
     s_rate_entity := rate_entity; s_rate_static := rate_static;
     s_cost_formula := formula; s_invert_cost := Some invert;
     s_show_cost := Some true; s_hide_if_zero := Some false;
     s_calculate_from := None |}%string.

(** A configuration of 1.3.0 and one of 1.0.0 with the given sources and
    no net metering. *)
Definition config130 (l : list descriptor) : V130.config :=
  {| V130.title := "Energy Sources"; V130.show_header := true;
     V130.show_total := true; V130.currency := "$";
     V130.decimal_places := 2; V130.cost_decimal_places := 2;
     V130.period := "today"; V130.period_entity := None;
     V130.sources := l; V130.net_metering_ := None |}.

Definition config100 (l : list descriptor) : V100.config :=
  {| V100.title := "Energy Sources"; V100.show_header := true;
     V100.show_total := true; V100.currency := "$";
     V100.decimal_places := 2; V100.cost_decimal_places := 2;
     V100.sources := l; V100.net_metering_ := None |}.

(** A source that hides itself at zero. *)
Definition shy : descriptor :=
  {| s_type := Some "water"; s_entity := Some "sensor.water"; s_label := None;
     s_emoji := None; s_unit := None; s_rate_entity := None;
     s_rate_static := Null; s_cost_formula := None; s_invert_cost := None;
     s_show_cost := Some true; s_hide_if_zero := Some true;
     s_calculate_from := None |}.

(** A gas source that names itself and gives an empty emoji. *)
Definition heating : descriptor :=
  {| s_type := Some "gas"; s_entity := Some "sensor.gas";
     s_label := Some (Text "Heating"); s_emoji := Some (Text ""); s_unit := None;
     s_rate_entity := None; s_rate_static := Undefined; s_cost_formula := None;
     s_invert_cost := None; s_show_cost := None; s_hide_if_zero := None;
     s_calculate_from := None |}.

(** A source whose cost is not shown. *)
Definition unpriced : descriptor :=
  {| s_type := Some "gas"; s_entity := Some "sensor.gas"; s_label := None;
     s_emoji := None; s_unit := None; s_rate_entity := None;
     s_rate_static := Num 0.2; s_cost_formula := None; s_invert_cost := None;
     s_show_cost := Some false; s_hide_if_zero := None;
     s_calculate_from := None |}.

(** A source with a fixed fee in its formula and no rate, as each version
    normalizes it. *)
Definition fee130 : descriptor := solar "" Null "value * rate + 5" false.
Definition fee100 : descriptor := solar100 None Null (Some "value * rate + 5"%string) false.

(** A source whose formula divides the quantity by itself. *)
Definition ratio : descriptor := solar "" Null "value / value" false.

(** The running total [render] starts from. *)
Definition start130 : V130.totals :=
  {| V130.t_totalCost := 0; V130.t_hasAnyCost := false; V130.t_console := [] |}.

(** The solar source and the statistics of the scenario of §8. *)
Definition solar_raw : descriptor :=
  {| s_type := Some "solar"; s_entity := Some "solar"; s_label := None;
     s_emoji := None; s_unit := None; s_rate_entity := None;
     s_rate_static := Num 0.15; s_cost_formula := None; s_invert_cost := None;
     s_show_cost := Some true; s_hide_if_zero := None; s_calculate_from := None |}%string.

Definition solar_statistics : statistics :=
  {[ "solar"%string := Some [with_sum 0; with_sum 40] ]}.

Definition fresh130 : V130.card :=
  {| V130._config := None; V130._hass := None; V130._energyData := ∅;
     V130.shadow := V130.Blank; V130.console := [] |}.

Definition fresh100 : V100.card :=
  {| V100._config := None; V100._hass := None; V100._energyData := ∅;
     V100.shadow := V100.Blank; V100.console := [] |}.

End Example.

Import Claim Example.

(** Inputs of the examples on the rest of the card. *)

Module Scenario.

(** One solar source on [sensor.solar], with a rate entity, as each
    version stores it. *)
Definition metered130 : V130.config :=
  config130 [solar "sensor.rate" Null "" false].

Definition metered100 : V100.config :=
  config100 [solar100 (Some "sensor.rate"%string) Null None false].

(** Data of the solar source, and the same with an entity more. *)
Definition produced : gmap string number := {[ "sensor.solar"%string := 40%float ]}.

Definition produced_and_more : gmap string number :=
  <["sensor.wind"%string := 7%float]> produced.

(** The same for 1.0.0, where the two differ in the unit as well. *)
Definition produced100 : gmap string V100.entry :=
  {[ "sensor.solar"%string := {| V100.e_value := 40; V100.e_unit := Some "kWh"%string |} ]}.

Definition produced_and_more100 : gmap string V100.entry :=
  <["sensor.wind"%string := {| V100.e_value := 7; V100.e_unit := None |}]>
    {[ "sensor.solar"%string := {| V100.e_value := 40; V100.e_unit := Some "Wh"%string |} ]}.

(** The states of [home] with one entity more. *)
Definition home_and_more : option states :=
  (fun st => <["sensor.door" := "open"%string]> st) <$> home.

(** A host with a connection and [callWS], and three assignments of it. *)
Definition connected : host :=
  {| h_states := ∅; h_connection := true; h_callWS := true |}.

Definition three_updates : list event :=
  [SetHass (Some connected); SetHass (Some connected); SetHass (Some connected)].





(** Lower case of the letters of ASCII. *)
Definition lower (s : string) : string :=
  string_of_list_ascii
    (map (fun c =>
            let n := nat_of_ascii c in
            if (65 <=? n)%nat && (n <=? 90)%nat then ascii_of_nat (n + 32) else c)
       (list_ascii_of_string s)).

(** An element of 1.3.0 whose configuration has the period [month] and the
    given period entity, on a host where [input_select.period] is in the
    state [This_Week]. *)
Definition periodic_config (entity : string) : V130.config :=
  {| V130.title := "Energy Sources"; V130.show_header := true;
     V130.show_total := true; V130.currency := "$";
     V130.decimal_places := 2; V130.cost_decimal_places := 2;
     V130.period := "month"; V130.period_entity := Some entity;
     V130.sources := [solar "sensor.rate" Null "" false];
     V130.net_metering_ := None |}.

Definition periodic (entity : string) : Life130.element :=
  {| Life130._config := Some (periodic_config entity);
     Life130._hass :=
       Some {| h_states := {[ "input_select.period"%string := "This_Week"%string ]};
               h_connection := true; h_callWS := true |};
     Life130._energyData := ∅; Life130._unsubscribe := None;
     Life130._dateRange := None; Life130._initialized := true;
     Life130.shadow := V130.Blank; Life130.out := [] |}.

(** A configuration of two sources as the dashboard gives it, with net
    metering, a period entity and three decimals for costs. *)
Definition metering (rate_entity : option string) (rate_static : value) : net_metering :=
  {| nm_import_entity := Some "sensor.grid_import"%string;
     nm_export_entity := Some "sensor.grid_export"%string;
     nm_rate_entity := rate_entity; nm_rate_static := rate_static;
     nm_label := None; nm_emoji := None; nm_unit := None |}.

Definition two_sources : raw_config :=
  {| c_title := Some "Home"%string; c_show_header := None; c_show_total := Some false;
     c_currency := None; c_decimal_places := Some 0%float;
     c_cost_decimal_places := Some 3%float; c_period := None;
     c_period_entity := Some "input_select.period"%string;
     c_sources := Sources [solar_raw; grid_net];
     c_net_metering := Some (metering None (Num 0.3)) |}.

Definition in_editor : Editor130.dashboard :=
  {| Editor130.d_type := Some "custom:custom-energy-sources-card"%string;
     Editor130.d_config := two_sources;
     Editor130.d_others := [("view_layout", "position: sidebar")]%string |}.

(** Tables with the net metering at the given rates, without sources. *)
Definition metered_net130 (rate_entity : option string) (rate_static : value)
    : V130.config :=
  {| V130.title := "Energy Sources"; V130.show_header := true;
     V130.show_total := true; V130.currency := "$";
     V130.decimal_places := 2; V130.cost_decimal_places := 2;
     V130.period := "today"; V130.period_entity := None;
     V130.sources := []; V130.net_metering_ := Some (metering rate_entity rate_static) |}.

Definition metered_net100 (rate_entity : option string) (rate_static : value)
    : V100.config :=
  {| V100.title := "Energy Sources"; V100.show_header := true;
     V100.show_total := true; V100.currency := "$";
     V100.decimal_places := 2; V100.cost_decimal_places := 2;
     V100.sources := []; V100.net_metering_ := Some (metering rate_entity rate_static) |}.

End Scenario.

Import Scenario.

(** * Facts about numbers

    The two zeros and [NaN] are the values on which [===], truthiness and
    Leibniz equality part ways; the lemmas below are what the card's proofs
    need about them. They rest on the specification of the primitive
    operations ([FloatAxioms]). *)

Section NumberFacts.

Lemma isNaN_spec (x : number) :
  isNaN x = match Prim2SF x with S754_nan => true | _ => false end.
Proof.
  unfold isNaN, is_nan. rewrite FloatAxioms.eqb_spec.
  destruct (Prim2SF x) as [s|s| |s m e]; try (destruct s; reflexivity); try reflexivity.
  unfold SFeqb, SFcompare.
  destruct s; rewrite Z.compare_refl, Pos.compare_cont_refl; reflexivity.
Qed.

Lemma isNaN_nan_eq (x : number) : isNaN x = true -> x = nan.
Proof.
  rewrite isNaN_spec. intros H. apply Prim2SF_inj.
  destruct (Prim2SF x); try discriminate. reflexivity.
Qed.

Lemma isNaN_opp (x : number) : isNaN (- x)%float = isNaN x.
Proof.
  rewrite !isNaN_spec, opp_spec. destruct (Prim2SF x); reflexivity.
Qed.

Lemma Prim2SF_zero_inv (x : number) (s : bool) :
  Prim2SF x = S754_zero s -> zeroish x.
Proof.
  intros E. destruct s; [right | left]; apply Prim2SF_inj; rewrite E; reflexivity.
Qed.

Lemma SFeqb_true (X Y : spec_float) :
  SFeqb X Y = true ->
  X = Y \/ (exists s t, X = S754_zero s /\ Y = S754_zero t).
Proof.
  unfold SFeqb, SFcompare.
  destruct X as [s1|s1| |s1 m1 e1], Y as [s2|s2| |s2 m2 e2];
    try discriminate; try (destruct s1; discriminate); try (destruct s2; discriminate).
  - intros _. right. eauto.
  - destruct s1, s2; try discriminate; auto.
  - destruct s1, s2; try discriminate;
      destruct (Z.compare e1 e2) eqn:Ee; try discriminate;
      apply Z.compare_eq in Ee; subst e2;
      destruct (Pos.compare_cont Eq m1 m2) eqn:Em; try discriminate;
      apply Pos.compare_eq in Em; subst m2; auto.
Qed.

Lemma strict_eq_cases (x y : number) :
  strict_eq x y = true -> x = y \/ (zeroish x /\ zeroish y).
Proof.
  unfold strict_eq. rewrite FloatAxioms.eqb_spec. intros H.
  apply SFeqb_true in H as [H | (s & t & Hx & Hy)].
  - left. now apply Prim2SF_inj.
  - right. split; eapply Prim2SF_zero_inv; eauto.
Qed.

Lemma strict_eq_zero (x : number) : strict_eq x 0 = true -> zeroish x.
Proof.
  intros H. apply strict_eq_cases in H as [-> | [H _]]; [now left | exact H].
Qed.

Lemma truthy_false_cases (x : number) :
  truthy x = false -> zeroish x \/ isNaN x = true.
Proof.
  unfold truthy. intros H. apply negb_false_iff, orb_true_iff in H as [H | H].
  - left. now apply strict_eq_zero.
  - now right.
Qed.

Lemma same_number_refl (x : number) : same_number x x.
Proof. now left. Qed.

Lemma zeroish_same (x y : number) : zeroish x -> zeroish y -> same_number x y.
Proof.
  intros [-> | ->] [-> | ->]; (now left) || (right; reflexivity).
Qed.

Lemma zeroish_opp (x : number) : zeroish x -> zeroish (- x)%float.
Proof. intros [-> | ->]; [now right | now left]. Qed.

Lemma same_number_cases (x y : number) :
  same_number x y -> x = y \/ (zeroish x /\ zeroish y).
Proof.
  intros [H | H]; [now left | now apply strict_eq_cases].
Qed.

(** Adding or subtracting a zero leaves a number that is not a zero as it
    is, and makes a zero of a zero. *)
Lemma add_zeroish_r (x z : number) :
  zeroish z -> (x + z)%float = x \/ (zeroish x /\ zeroish (x + z)%float).
Proof.
  intros Hz. destruct (Prim2SF x) as [s|s| |s m e] eqn:E.
  - right. apply Prim2SF_zero_inv in E as Hx. split; [exact Hx|].
    destruct Hx as [-> | ->], Hz as [-> | ->]; (now left) || (now right).
  - left. apply Prim2SF_inj. rewrite add_spec, E.
    destruct Hz as [-> | ->]; reflexivity.
  - left. apply Prim2SF_inj. rewrite add_spec, E.
    destruct Hz as [-> | ->]; reflexivity.
  - left. apply Prim2SF_inj. rewrite add_spec, E.
    destruct Hz as [-> | ->]; reflexivity.
Qed.

Lemma add_zeroish_l (z x : number) :
  zeroish z ->
  (z + x)%float = x \/ (zeroish x /\ zeroish (z + x)%float).
Proof.
  intros Hz. destruct (Prim2SF x) as [s|s| |s m e] eqn:E.
  - right. apply Prim2SF_zero_inv in E as Hx. split; [exact Hx|].
    destruct Hx as [-> | ->], Hz as [-> | ->]; (now left) || (now right).
  - left. apply Prim2SF_inj. rewrite add_spec, E.
    destruct Hz as [-> | ->]; reflexivity.
  - left. apply Prim2SF_inj. rewrite add_spec, E.
    destruct Hz as [-> | ->]; reflexivity.
  - left. apply Prim2SF_inj. rewrite add_spec, E.
    destruct Hz as [-> | ->]; reflexivity.
Qed.

Lemma sub_zeroish_r (x z : number) :
  zeroish z -> (x - z)%float = x \/ (zeroish x /\ zeroish (x - z)%float).
Proof.
  intros Hz. destruct (Prim2SF x) as [s|s| |s m e] eqn:E.
  - right. apply Prim2SF_zero_inv in E as Hx. split; [exact Hx|].
    destruct Hx as [-> | ->], Hz as [-> | ->]; (now left) || (now right).
  - left. apply Prim2SF_inj. rewrite sub_spec, E.
    destruct Hz as [-> | ->]; reflexivity.
  - left. apply Prim2SF_inj. rewrite sub_spec, E.
    destruct Hz as [-> | ->]; reflexivity.
  - left. apply Prim2SF_inj. rewrite sub_spec, E.
    destruct Hz as [-> | ->]; reflexivity.
Qed.

Lemma sub_zeroish_l (z x : number) :
  zeroish z ->
  (z - x)%float = (- x)%float \/ (zeroish x /\ zeroish (z - x)%float).
Proof.
  intros Hz. destruct (Prim2SF x) as [s|s| |s m e] eqn:E.
  - right. apply Prim2SF_zero_inv in E as Hx. split; [exact Hx|].
    destruct Hx as [-> | ->], Hz as [-> | ->]; (now left) || (now right).
  - left. apply Prim2SF_inj. rewrite sub_spec, opp_spec, E.
    destruct Hz as [-> | ->]; reflexivity.
  - left. apply Prim2SF_inj. rewrite sub_spec, opp_spec, E.
    destruct Hz as [-> | ->]; reflexivity.
  - left. apply Prim2SF_inj. rewrite sub_spec, opp_spec, E.
    destruct Hz as [-> | ->]; reflexivity.
Qed.

(** [same_number] is a congruence for sums and differences. *)
Lemma add_same (x y c d : number) :
  same_number x y -> same_number c d -> same_number (x + c)%float (y + d)%float.
Proof.
  intros Hxy Hcd.
  apply same_number_cases in Hxy as [-> | [Hx Hy]];
    apply same_number_cases in Hcd as [-> | [Hc Hd]].
  - apply same_number_refl.
  - destruct (add_zeroish_r y c Hc) as [-> | [Hy1 H1]],
             (add_zeroish_r y d Hd) as [-> | [Hy H2]].
    + apply same_number_refl.
    + now apply zeroish_same.
    + now apply zeroish_same.
    + now apply zeroish_same.
  - destruct (add_zeroish_l x d Hx) as [-> | [Hy1 H1]],
             (add_zeroish_l y d Hy) as [-> | [Hd H2]].
    + apply same_number_refl.
    + now apply zeroish_same.
    + now apply zeroish_same.
    + now apply zeroish_same.
  - apply zeroish_same.
    + destruct Hx as [-> | ->], Hc as [-> | ->]; (now left) || (now right).
    + destruct Hy as [-> | ->], Hd as [-> | ->]; (now left) || (now right).
Qed.

Lemma sub_same (x y c d : number) :
  same_number x y -> same_number c d -> same_number (x - c)%float (y - d)%float.
Proof.
  intros Hxy Hcd.
  apply same_number_cases in Hxy as [-> | [Hx Hy]];
    apply same_number_cases in Hcd as [-> | [Hc Hd]].
  - apply same_number_refl.
  - destruct (sub_zeroish_r y c Hc) as [-> | [Hy1 H1]],
             (sub_zeroish_r y d Hd) as [-> | [Hy H2]].
    + apply same_number_refl.
    + now apply zeroish_same.
    + now apply zeroish_same.
    + now apply zeroish_same.
  - destruct (sub_zeroish_l x d Hx) as [-> | [Hd1 H1]],
             (sub_zeroish_l y d Hy) as [-> | [Hd H2]].
    + apply same_number_refl.
    + apply zeroish_same; [now apply zeroish_opp | exact H2].
    + apply zeroish_same; [exact H1 | now apply zeroish_opp].
    + now apply zeroish_same.
  - apply zeroish_same.
    + destruct Hx as [-> | ->], Hc as [-> | ->]; (now left) || (now right).
    + destruct Hy as [-> | ->], Hd as [-> | ->]; (now left) || (now right).
Qed.

Lemma add_zero_same (x : number) : same_number (x + 0)%float x.
Proof.
  destruct (add_zeroish_r x 0%float) as [-> | [H1 H2]]; [now left | |].
  - apply same_number_refl.
  - now apply zeroish_same.
Qed.

(** What [v || 0] does to a number that is not [NaN]. *)
Lemma or_zero_same (x : number) :
  isNaN x = false -> same_number (if truthy x then x else 0%float) x.
Proof.
  intros Hn. destruct (truthy x) eqn:T; [apply same_number_refl|].
  apply truthy_false_cases in T as [T | T]; [|congruence].
  apply zeroish_same; [now left | exact T].
Qed.

End NumberFacts.

(** A product with a zero is a zero, or [NaN] when the other factor is
    [NaN] or infinite: which of the two does not depend on the sign of the
    zero. *)
Lemma mul_zeroish_cases (x a b : number) :
  zeroish a -> zeroish b ->
  ((x * a)%float = nan /\ (x * b)%float = nan) \/
  (zeroish (x * a)%float /\ zeroish (x * b)%float).
Proof.
  intros Ha Hb.
  assert (Hz : forall z, zeroish z -> exists s, Prim2SF z = S754_zero s)
    by (intros z [-> | ->]; eexists; reflexivity).
  destruct (Hz a Ha) as [sa Ea], (Hz b Hb) as [sb Eb].
  destruct (Prim2SF x) as [s|s| |s m e] eqn:Ex.
  - right. split; eapply Prim2SF_zero_inv; rewrite mul_spec, Ex, ?Ea, ?Eb; reflexivity.
  - left. split; apply Prim2SF_inj; rewrite mul_spec, Ex, ?Ea, ?Eb; reflexivity.
  - left. split; apply Prim2SF_inj; rewrite mul_spec, Ex, ?Ea, ?Eb; reflexivity.
  - right. split; eapply Prim2SF_zero_inv; rewrite mul_spec, Ex, ?Ea, ?Eb; reflexivity.
Qed.

(** [parseFloat] drops the white space before the number, a no-break space
    (U+00A0) or a byte order mark (U+FEFF) included, and stops at the first
    character that does not continue the number. *)
Lemma parseFloat_examples :
  parseFloat " 0.25" = 0.25%float /\
  parseFloat (String (ascii_of_nat 194) (String (ascii_of_nat 160) "12.5 kWh"))
    = 12.5%float /\
  parseFloat (String (ascii_of_nat 239) (String (ascii_of_nat 187)
                (String (ascii_of_nat 191) "-.5e1"))) = (-5)%float /\
  isNaN (parseFloat "unavailable") = true /\
  isNaN (parseFloat "") = true.
Proof. repeat split; vm_compute; reflexivity. Qed.

(** * The statistics aggregator *)

Section Aggregate.

Lemma float_neq (x y : number) : PrimFloat.Leibniz.eqb x y = false -> x <> y.
Proof.
  intros H E. apply FloatAxioms.Leibniz.eqb_spec in E. congruence.
Qed.

Lemma some_float_neq (x y : number) :
  PrimFloat.Leibniz.eqb x y = false -> Some x <> Some y.
Proof.
  intros H E. apply (float_neq x y H).
  change x with (default x (Some x)). rewrite E. reflexivity.
Qed.

Lemma same_number_add_zero_l (a b : number) :
  same_number a b -> same_number (a + 0)%float b.
Proof.
  intros H. apply same_number_cases in H as [-> | [Ha Hb]].
  - apply add_zero_same.
  - apply zeroish_same; [|exact Hb].
    destruct Ha as [-> | ->]; now left.
Qed.

Lemma or_zero_absent (v : value) : is_number v = false -> or_zero v = 0%float.
Proof. destruct v; [reflexivity | reflexivity | discriminate]. Qed.

(** The reduction of 1.3.0 and of 1.0.0 against the sum of the claim, from
    any two accumulators that are the same number. *)
Lemma reduce_changes (stats : list stat) (a b : number) :
  changes_are_numbers stats ->
  same_number a b ->
  same_number
    (fold_left (fun acc stat => acc + or_zero stat.(change))%float stats a)
    (fold_left
       (fun acc s => match s.(change) with Num c => (acc + c)%float | _ => acc end)
       stats b).
Proof.
  intros Hn. revert a b.
  induction Hn as [|s stats Hs _ IH]; intros a b Hab; [exact Hab|].
  cbn [fold_left]. apply IH.
  destruct (change s) as [| |c] eqn:Ec.
  - now apply same_number_add_zero_l.
  - now apply same_number_add_zero_l.
  - apply add_same; [exact Hab|].
    unfold or_zero, to_boolean, to_number. apply or_zero_same. now apply Hs.
Qed.

(** What 1.3.0 does with a sequence that starts with a sample whose
    change is a number, when it does not take the difference of sums. *)
Lemma aggregate_changes_v130 (firstStat : stat) (rest : list stat) :
  is_number firstStat.(sum) && is_number (List.last rest firstStat).(sum) = false ->
  is_number firstStat.(change) = true ->
  V130.aggregate (Some (firstStat :: rest)) =
  fold_left (fun acc stat => acc + or_zero stat.(change))%float (firstStat :: rest) 0%float.
Proof.
  intros Hs Hc. unfold V130.aggregate. now rewrite Hs, Hc.
Qed.

(** C4. A sequence whose first and last samples both carry a cumulative sum
    (a number) aggregates to the last sum minus the first one, whatever the
    samples in between hold; both versions agree on it. A sequence of one
    sample is its own first and last. *)
Theorem C4_aggregate_cumulative_sum (firstStat : stat) (rest : list stat) (x y : number) :
  firstStat.(sum) = Num x ->
  (List.last rest firstStat).(sum) = Num y ->
  V130.aggregate (Some (firstStat :: rest)) = (y - x)%float /\
  V100.aggregate (Some (firstStat :: rest)) = (y - x)%float.
Proof.
  intros Hx Hy. unfold V130.aggregate, V100.aggregate.
  rewrite Hx, Hy. split; reflexivity.
Qed.

(** The samples [[{sum:10},{sum:10},{sum:25}]] aggregate to [15]. *)
Lemma C4_aggregate_example :
  V130.aggregate (Some [with_sum 10; with_sum 10; with_sum 25]) = 15%float /\
  V100.aggregate (Some [with_sum 10; with_sum 10; with_sum 25]) = 15%float.
Proof.
  exact (C4_aggregate_cumulative_sum (with_sum 10) [with_sum 10; with_sum 25] 10 25
           eq_refl eq_refl).
Defined.

(** The intermediate samples do not matter: the result is the same for
    every middle part. *)
Lemma aggregate_ignores_middle (firstStat lastStat : stat) (middle middle' : list stat)
    (x y : number) :
  firstStat.(sum) = Num x ->
  lastStat.(sum) = Num y ->
  V130.aggregate (Some (firstStat :: middle ++ [lastStat])) =
  V130.aggregate (Some (firstStat :: middle' ++ [lastStat])) /\
  V100.aggregate (Some (firstStat :: middle ++ [lastStat])) =
  V100.aggregate (Some (firstStat :: middle' ++ [lastStat])).
Proof.
  intros Hx Hy.
  assert (L : forall m, List.last (m ++ [lastStat]) firstStat = lastStat)
    by (intros m; apply last_last).
  split.
  - unfold V130.aggregate. rewrite !L, Hx, Hy. reflexivity.
  - unfold V100.aggregate. rewrite !L, Hx, Hy. reflexivity.
Qed.

(** C3, in the 1.3.0 file. For a sequence whose first and last samples do
    not both carry a sum that is a number:
    - when the first sample carries a change that is a number and no change
      is [NaN], the result is, as a number, the sum of all the change values
      the samples carry;
    - when the first sample carries no such change, and so when no sample
      carries a sum or a change (a state field does not count), the result
      is exactly [0].
    The empty sequence, and a response that is no array, give [0]. *)
Theorem C3_aggregate_changes_v130 (firstStat : stat) (rest : list stat) :
  is_number firstStat.(sum) && is_number (List.last rest firstStat).(sum) = false ->
  (is_number firstStat.(change) = true ->
   changes_are_numbers (firstStat :: rest) ->
   same_number (V130.aggregate (Some (firstStat :: rest)))
               (sum_of_changes (firstStat :: rest))) /\
  (is_number firstStat.(change) = false ->
   V130.aggregate (Some (firstStat :: rest)) = 0%float) /\
  V130.aggregate (Some []) = 0%float /\
  V130.aggregate None = 0%float.
Proof.
  intros Hs. repeat split.
  - intros Hc Hn. rewrite aggregate_changes_v130 by assumption.
    apply reduce_changes; [exact Hn | apply same_number_refl].
  - intros Hc. unfold V130.aggregate. now rewrite Hs, Hc.
Qed.

(** [[{change:2},{change:3},{change:-1}]] aggregates to [4], and samples
    that carry a state only to [0]. *)
Lemma C3_aggregate_changes_example :
  same_number
    (V130.aggregate (Some [with_change 2; with_change 3; with_change (-1)])) 4%float /\
  V130.aggregate (Some [with_state 3; with_state 8]) = 0%float.
Proof.
  split.
  - apply (proj1 (C3_aggregate_changes_v130 (with_change 2)
                    [with_change 3; with_change (-1)] eq_refl)).
    + reflexivity.
    + repeat constructor; intros c [= <-]; reflexivity.
  - apply (proj1 (proj2 (C3_aggregate_changes_v130 (with_state 3) [with_state 8] eq_refl))).
    reflexivity.
Defined.

(** The two readings the statement of C3 fixes, on 1.3.0: the first sample
    alone decides whether changes are summed, and a change that is [NaN]
    adds [0]. *)
Lemma aggregate_edge_cases_v130 :
  V130.aggregate (Some [with_state 1; with_change 5]) = 0%float /\
  sum_of_changes [with_state 1; with_change 5] = 5%float /\
  V130.aggregate (Some [with_change 2; with_change nan]) = 2%float /\
  isNaN (sum_of_changes [with_change 2; with_change nan]) = true.
Proof. repeat split. Qed.

(** C3 fails on the 1.0.0 file: samples that carry neither a sum nor a
    change, only a state, aggregate to the difference of the states. *)
Lemma C3_state_difference_v100 :
  Forall (fun s => is_number s.(sum) = false /\ is_number s.(change) = false)
    [with_state 3; with_state 8] /\
  V100.aggregate (Some [with_state 3; with_state 8]) = 5%float /\
  V100.aggregate (Some [with_state 3; with_state 8]) <> 0%float.
Proof.
  split; [repeat constructor|]. split; [reflexivity|].
  apply float_neq. reflexivity.
Qed.

End Aggregate.

(** * The configuration normalizer *)

Section Normalizer.

Lemma table_get_nonempty (t : table) (k v : string) :
  Forall (fun p => snd p <> ""%string) t -> table_get t k = Some v -> v <> ""%string.
Proof.
  induction 1 as [|[k' v'] t Hv _ IH]; cbn [table_get]; [discriminate|].
  destruct (String.eqb k' k); [intros [= <-]; exact Hv | exact IH].
Qed.

Lemma tables_complete :
  complete DEFAULT_LABELS /\ complete DEFAULT_EMOJIS /\ complete DEFAULT_UNITS.
Proof.
  repeat split; try (repeat constructor; discriminate); eexists; reflexivity.
Qed.

Lemma default_for_nonempty (t : table) (kind : option string) :
  complete t -> default_for t kind <> ""%string.
Proof.
  intros [Hv [d Hd]]. unfold default_for.
  destruct (table_get t (or_text kind "default")) as [v|] eqn:E.
  - eapply table_get_nonempty; eauto.
  - rewrite Hd. cbn. eapply table_get_nonempty; eauto.
Qed.

Lemma filled_in_text (s : string) : s <> ""%string -> filled_in (Some (Text s)) = true.
Proof. intros H. cbn. apply String.eqb_neq in H. now rewrite H. Qed.

(** [o || d] is [o] when [o] is truthy, and truthy when [d] is. *)
Lemma or_value_kept (o : option text) (d : text) :
  filled_in o = true -> Some (or_value o d) = o.
Proof.
  destruct o as [[s|name]|]; cbn; try discriminate; [|reflexivity].
  destruct (String.eqb s ""); [discriminate|reflexivity].
Qed.

Lemma or_value_filled_in (o : option text) (d : text) :
  filled_in (Some d) = true -> filled_in (Some (or_value o d)) = true.
Proof.
  intros Hd. destruct o as [[s|name]|]; cbn; [|reflexivity|exact Hd].
  destruct (String.eqb s "") eqn:E; [exact Hd|]. cbn. now rewrite E.
Qed.

(** [TABLE[type] || TABLE.default] is never empty: it is an entry of the
    table or a member of [Object.prototype]. *)
Lemma lookup_filled_in (t : table) (k : string) :
  complete t -> filled_in (Some (or_value (lookup t k) (own_entry t "default"))) = true.
Proof.
  intros [Hv [d Hd]]. apply or_value_filled_in. unfold own_entry. rewrite Hd.
  apply filled_in_text. eapply table_get_nonempty; eauto.
Qed.

(** For a kind that names no member of [Object.prototype] it is the
    default of the kind. *)
Lemma lookup_default_for (t : table) (kind : option string) :
  complete t ->
  or_text kind "default" ∉ inherited ->
  or_value (lookup t (or_text kind "default")) (own_entry t "default") =
  Text (default_for t kind).
Proof.
  intros [Hv [d Hd]] Hk. unfold lookup, default_for, own_entry.
  destruct (table_get t (or_text kind "default")) as [v|] eqn:Ev.
  - cbn. destruct (String.eqb_spec v "") as [->|_]; [|reflexivity].
    now apply table_get_nonempty in Ev.
  - rewrite bool_decide_eq_false_2 by exact Hk. reflexivity.
Qed.

Lemma or_value_filled (t : table) (kind : option string) (supplied : option text) :
  or_value supplied (Text (default_for t kind)) = filled t kind supplied.
Proof.
  unfold filled. destruct supplied as [[s|name]|]; cbn; try reflexivity.
  destruct (String.eqb s ""); reflexivity.
Qed.

Lemma normalizeSource_never_blank_v130 (raw : descriptor) :
  never_blank (V130._normalizeSource raw) /\ kept raw (V130._normalizeSource raw).
Proof.
  destruct tables_complete as (HL & HE & HU).
  unfold never_blank, kept, V130._normalizeSource; cbn [s_label s_emoji s_unit].
  split; split_and!;
    try (apply or_value_filled_in, lookup_filled_in; assumption);
    apply or_value_kept.
Qed.

Lemma normalizeSource_never_blank_v100 (raw : descriptor) :
  never_blank (V100._normalizeSource raw) /\ kept raw (V100._normalizeSource raw).
Proof.
  destruct tables_complete as (HL & HE & HU).
  unfold never_blank, kept, V100._normalizeSource; cbn [s_label s_emoji s_unit].
  split; split_and!;
    try (apply or_value_filled_in, lookup_filled_in; assumption);
    apply or_value_kept.
Qed.

Lemma normalizeSource_normalized_v130 (raw : descriptor) :
  plain_kind raw -> normalized raw (V130._normalizeSource raw).
Proof.
  destruct tables_complete as (HL & HE & HU). intros Hk.
  unfold normalized, V130._normalizeSource; cbn [s_label s_emoji s_unit].
  rewrite !lookup_default_for, !or_value_filled by assumption. auto.
Qed.

Lemma normalizeSource_normalized_v100 (raw : descriptor) :
  plain_kind raw -> normalized raw (V100._normalizeSource raw).
Proof.
  destruct tables_complete as (HL & HE & HU). intros Hk.
  unfold normalized, V100._normalizeSource; cbn [s_label s_emoji s_unit].
  rewrite !lookup_default_for, !or_value_filled by assumption. auto.
Qed.

(** C5. In both versions the normalizer yields one descriptor per element
    of the list, in the order of the list, and the descriptor at each
    position is the normalization of the element at that position: its
    label, emoji and unit are never empty, a supplied text that is not
    empty is kept, and an absent or empty one is filled from the table of
    defaults at the kind of the source, with the default of [custom] for a
    kind that the table does not list. The kinds are those that name no
    member of [Object.prototype], as the nine kinds of the specification
    do: for a kind such as [constructor] the lookup in the table finds that
    member, which then is the label, the emoji and the unit of the source
    ([normalize_member_example]). *)
Theorem C5_normalize_fills_defaults (l : list descriptor) :
  (length (V130.normalize l) = length l /\
   forall i raw, nth_error l i = Some raw ->
     exists d, nth_error (V130.normalize l) i = Some d /\
       never_blank d /\ kept raw d /\ (plain_kind raw -> normalized raw d)) /\
  (length (V100.normalize l) = length l /\
   forall i raw, nth_error l i = Some raw ->
     exists d, nth_error (V100.normalize l) i = Some d /\
       never_blank d /\ kept raw d /\ (plain_kind raw -> normalized raw d)).
Proof.
  unfold V130.normalize, V100.normalize. split; (split; [apply length_map|]).
  - intros i raw Hi. eexists. split; [rewrite nth_error_map, Hi; reflexivity|].
    split; [apply normalizeSource_never_blank_v130|].
    split; [apply normalizeSource_never_blank_v130|].
    apply normalizeSource_normalized_v130.
  - intros i raw Hi. eexists. split; [rewrite nth_error_map, Hi; reflexivity|].
    split; [apply normalizeSource_never_blank_v100|].
    split; [apply normalizeSource_never_blank_v100|].
    apply normalizeSource_normalized_v100.
Qed.

(** A source with no text of its own, and one that names itself. *)
Lemma normalize_example :
  map (fun d => (d.(s_label), d.(s_emoji), d.(s_unit))) (V130.normalize [blank; heating]) =
  [ (Some (Text "Energy"), Some (Text "📊"), Some (Text "kWh"));
    (Some (Text "Heating"), Some (Text "🔥"), Some (Text "m³")) ]%string.
Proof. reflexivity. Qed.

(** The second of the two, in both versions: its label is kept, its empty
    emoji and its absent unit are filled from the tables at [gas]. *)
Lemma C5_normalize_example :
  (exists d, nth_error (V130.normalize [blank; heating]) 1 = Some d /\
     never_blank d /\ kept heating d /\ normalized heating d /\
     (d.(s_label), d.(s_emoji), d.(s_unit)) =
       (Some (Text "Heating"), Some (Text "🔥"), Some (Text "m³"))) /\
  (exists d, nth_error (V100.normalize [blank; heating]) 1 = Some d /\
     never_blank d /\ kept heating d /\ normalized heating d).
Proof.
  assert (Hk : plain_kind heating).
  { intros H. apply list_elem_of_In in H. vm_compute in H. intuition discriminate. }
  destruct (C5_normalize_fills_defaults [blank; heating]) as [[_ H130] [_ H100]].
  destruct (H130 1%nat heating eq_refl) as (d & Hd & Hb & Hkept & Hn).
  destruct (H100 1%nat heating eq_refl) as (d' & Hd' & Hb' & Hkept' & Hn').
  split.
  - exists d. split_and!; auto. injection Hd as <-. reflexivity.
  - exists d'. split_and!; auto.
Defined.

(** A source whose type names a member of [Object.prototype]: both
    versions take that member for the label, the emoji and the unit. A
    type that no table lists and that names no member has the defaults of
    [custom]. *)
Lemma normalize_member_example :
  map (fun d => (d.(s_label), d.(s_emoji), d.(s_unit)))
    (V130.normalize [Property.only_type "constructor"; Property.only_type "wind"]) =
  [ (Some (Member "constructor"), Some (Member "constructor"),
     Some (Member "constructor"));
    (Some (Text "Energy"), Some (Text "📊"), Some (Text "kWh")) ]%string /\
  map (fun d => (d.(s_label), d.(s_emoji), d.(s_unit)))
    (V100.normalize [Property.only_type "toString"]) =
  [ (Some (Member "toString"), Some (Member "toString"), Some (Member "toString")) ]%string.
Proof. split; reflexivity. Qed.

Section SetConfig.

Variable memberText : string -> string.
Variable run : engine.
Variable toLocaleString : number -> number -> string.

(** 1.3.0 refuses a configuration without sources, and leaves the card as
    it was. *)
Lemma setConfig_rejects_v130 (this : V130.card) (config : raw_config) :
  config.(c_sources) = NoSources \/ config.(c_sources) = NotAnArray \/
  config.(c_sources) = Sources [] ->
  V130.setConfig memberText run toLocaleString this config =
  Threw "Please add at least one energy source" this.
Proof.
  unfold V130.setConfig. intros [-> | [-> | ->]]; reflexivity.
Qed.

(** 1.0.0 refuses a configuration whose sources are absent or no array. *)
Lemma setConfig_rejects_absent_v100 (this : V100.card) (config : raw_config) :
  config.(c_sources) = NoSources \/ config.(c_sources) = NotAnArray ->
  V100.setConfig run toLocaleString this config =
  Threw "You must define at least one energy source" this.
Proof.
  unfold V100.setConfig. intros [-> | ->]; reflexivity.
Qed.

(** 1.3.0 stores the normalized descriptors of a list that is not empty. *)
Lemma setConfig_stores_normalized_v130 (this : V130.card) (config : raw_config)
    (source : descriptor) (l : list descriptor) :
  config.(c_sources) = Sources (source :: l) ->
  exists after stored,
    V130.setConfig memberText run toLocaleString this config = Done after /\
    after.(V130._config) = Some stored /\
    stored.(V130.sources) = V130.normalize (source :: l).
Proof.
  intros H. unfold V130.setConfig. rewrite H.
  unfold V130.render. cbn [V130._config].
  destruct (V130.buildRows _ _ _ _ _ _) as [t log].
  eexists _, _. split; [reflexivity|]. split; reflexivity.
Qed.

(** 1.0.0 stores the list as it was supplied: the spread at the end of the
    object literal puts [config.sources] over the normalized list. *)
Lemma setConfig_keeps_supplied_sources_v100 (this : V100.card) (config : raw_config)
    (l : list descriptor) :
  config.(c_sources) = Sources l ->
  exists after stored,
    V100.setConfig run toLocaleString this config = Done after /\
    after.(V100._config) = Some stored /\
    stored.(V100.sources) = l.
Proof.
  intros H. unfold V100.setConfig. rewrite H.
  unfold V100.render. cbn [V100._config].
  destruct (V100.buildRows _ _ _ _ _) as [t log].
  eexists _, _. split; [reflexivity|]. split; reflexivity.
Qed.

(** C1, the 1.0.0 file at [setConfig({sources: []})]: no error is raised.
    The empty list passes the guard, is stored, and the card renders a
    table without rows. *)
Theorem C1_empty_sources_accepted_v100 :
  V100.setConfig run toLocaleString fresh100 empty_sources =
  Done
    {| V100._config := Some
         {| V100.title := "Energy Sources"; V100.show_header := true;
            V100.show_total := true; V100.currency := "$";
            V100.decimal_places := 2; V100.cost_decimal_places := 2;
            V100.sources := []; V100.net_metering_ := None |};
       V100._hass := None;
       V100._energyData := ∅;
       V100.shadow := V100.Table
         {| V100.rows := []; V100.netMeteringRow := None;
            V100.totalCost := 0; V100.hasAnyCost := false |};
       V100.console := [] |}.
Proof. reflexivity. Qed.

End SetConfig.

End Normalizer.

(** * The value resolver *)

Section Resolver.

Lemma value_or_zero_v130 (data : gmap string number) (id : option string) :
  values_are_numbers (fun v => v) data ->
  same_number (V130.value_or_zero data id) (entity_value (fun v => v) data id).
Proof.
  intros Hn. unfold V130.value_or_zero, entity_value.
  destruct (data !! key id) as [v|] eqn:E; [|apply same_number_refl].
  apply or_zero_same. exact (Hn _ _ E).
Qed.

Lemma value_or_zero_v100 (data : gmap string V100.entry) (id : option string) :
  values_are_numbers V100.e_value data ->
  same_number (V100.value_or_zero data id) (entity_value V100.e_value data id).
Proof.
  intros Hn. unfold V100.value_or_zero, entity_value.
  destruct (data !! key id) as [e|] eqn:E; [|apply same_number_refl].
  apply or_zero_same. exact (Hn _ _ E).
Qed.

(** C6. On a map of entity values that holds no [NaN], [_getValue] returns,
    as a number, the value at the import entity minus the value at the
    export entity when the source is derived, and the value at the entity of
    the source otherwise; a key that the map does not hold counts as [0].
    It is the same function in both versions, and it is total. *)
Theorem C6_getValue_resolves_quantity (data130 : gmap string number)
    (data100 : gmap string V100.entry) (source : descriptor) :
  values_are_numbers (fun v => v) data130 ->
  values_are_numbers V100.e_value data100 ->
  same_number (V130._getValue data130 source) (quantity (fun v => v) data130 source) /\
  same_number (V100._getValue data100 source) (quantity V100.e_value data100 source).
Proof.
  intros H130 H100. unfold V130._getValue, V100._getValue, quantity.
  destruct (s_calculate_from source) as [cf|]; split;
    try apply sub_same;
    (now apply value_or_zero_v130) || (now apply value_or_zero_v100).
Qed.

Lemma deltas_are_numbers (export : number) :
  isNaN export = false -> values_are_numbers (fun v => v) (deltas export).
Proof.
  intros H. unfold values_are_numbers, deltas.
  apply map_Forall_insert_2; [reflexivity|].
  apply map_Forall_insert_2; [exact H|]. apply map_Forall_empty.
Defined.

Lemma entries_are_numbers (export : number) :
  isNaN export = false -> values_are_numbers V100.e_value (entries export).
Proof.
  intros H. unfold values_are_numbers, entries, deltas.
  rewrite !fmap_insert, fmap_empty.
  apply map_Forall_insert_2; [reflexivity|].
  apply map_Forall_insert_2; [exact H|]. apply map_Forall_empty.
Defined.

(** Import [100] and export [30] resolve to [70]. *)
Lemma C6_getValue_example :
  same_number (V130._getValue (deltas 30) grid_net)
              (quantity (fun v => v) (deltas 30) grid_net) /\
  same_number (V100._getValue (entries 30) grid_net)
              (quantity V100.e_value (entries 30) grid_net).
Proof.
  exact (C6_getValue_resolves_quantity (deltas 30) (entries 30) grid_net
           (deltas_are_numbers 30 eq_refl) (entries_are_numbers 30 eq_refl)).
Defined.

(** The derived source of §8: [70] for export [30], [-30] for export [130];
    a source whose entity the map does not hold resolves to [0]. *)
Lemma getValue_examples :
  V130._getValue (deltas 30) grid_net = 70%float /\
  V130._getValue (deltas 130) grid_net = (-30)%float /\
  V100._getValue (entries 30) grid_net = 70%float /\
  V100._getValue (entries 130) grid_net = (-30)%float /\
  V130._getValue (deltas 30) blank = 0%float /\
  V100._getValue (entries 30) blank = 0%float.
Proof. repeat split; vm_compute; reflexivity. Qed.

(** What the hypothesis of C6 keeps out: a [NaN] in the map is read as [0]. *)
Lemma getValue_nan_is_zero :
  V130._getValue (<["sensor.grid_import" := nan]> ∅) grid_net = 0%float.
Proof. vm_compute. reflexivity. Qed.

End Resolver.

(** * The cost evaluator *)

Section CostEvaluator.

Variable memberText : string -> string.
Variable run : engine.

(** ** Version 1.3.0 *)

Lemma calculateCost_suppressed_v130 (hass : option states) (source : descriptor)
    (value : number) :
  flag source.(s_show_cost) = false ->
  V130._calculateCost memberText run hass source value = ([], None).
Proof. intros H. unfold V130._calculateCost. now rewrite H. Qed.

(** The three steps of 1.3.0 are the order of §4.4. *)
Lemma resolve_rate_by_order_v130 (hass : option states) (source : descriptor) :
  snd (V130.resolve_rate memberText hass source) = rate_by_order hass source.
Proof.
  unfold V130.resolve_rate, rate_by_order, parsed_state, V130.entity_state.
  destruct (nonempty (s_rate_entity source)).
  - destruct (hass ≫= _) as [text|].
    + destruct (isNaN (parseFloat text)); cbn; [|reflexivity].
      destruct (s_rate_static source); reflexivity.
    + destruct (s_rate_static source); reflexivity.
  - destruct (s_rate_static source); reflexivity.
Qed.

(** Resolving the rate writes debug lines only. *)
Lemma resolve_rate_log_v130 (hass : option states) (source : descriptor) :
  Forall is_debug (fst (V130.resolve_rate memberText hass source)).
Proof.
  unfold V130.resolve_rate, V130.entity_state.
  destruct (nonempty (s_rate_entity source)); cbn.
  - destruct (hass ≫= _) as [text|].
    + destruct (isNaN (parseFloat text)); cbn.
      * destruct (s_rate_static source); cbn; repeat constructor.
      * constructor.
    + destruct (s_rate_static source); cbn; repeat constructor.
  - destruct (s_rate_static source); cbn; repeat constructor.
Qed.

Lemma calculateCost_at_rate_v130 (hass : option states) (source : descriptor)
    (value : number) :
  flag source.(s_show_cost) = true ->
  snd (V130._calculateCost memberText run hass source value) =
  snd (V130.cost_at_rate memberText run source value (rate_by_order hass source)).
Proof.
  intros H. unfold V130._calculateCost. rewrite H. cbn [negb].
  rewrite <- resolve_rate_by_order_v130.
  destruct (V130.resolve_rate memberText hass source) as [log1 rate]. cbn [snd].
  destruct (V130.cost_at_rate memberText run source value rate). reflexivity.
Qed.

Lemma calculateCost_product_v130 (hass : option states) (source : descriptor)
    (value : number) :
  flag source.(s_show_cost) = true ->
  nonempty source.(s_cost_formula) = false ->
  snd (V130._calculateCost memberText run hass source value) =
  Some (signed source (value * rate_by_order hass source)%float).
Proof.
  intros Hs Hf. rewrite calculateCost_at_rate_v130 by assumption.
  unfold V130.cost_at_rate, signed. rewrite Hf. reflexivity.
Qed.

(** With a formula, the cost is what the engine makes of the formula after
    [value] and [rate] are replaced by their text. *)
Lemma calculateCost_formula_v130 (hass : option states) (source : descriptor)
    (value : number) (formula : string) :
  flag source.(s_show_cost) = true ->
  source.(s_cost_formula) = Some formula ->
  formula <> ""%string ->
  snd (V130._calculateCost memberText run hass source value) =
  match run ("return " +:+ V130.substitute formula value (rate_by_order hass source)) with
  | Normal result => Some (signed source result)
  | Throw _ => None
  end.
Proof.
  intros Hs Hf Hne. rewrite calculateCost_at_rate_v130 by assumption.
  unfold V130.cost_at_rate, signed, nonempty. rewrite Hf. cbn [key default from_option id].
  apply String.eqb_neq in Hne. rewrite Hne. cbn [negb].
  destruct (run _); reflexivity.
Qed.

(** When the engine throws, the cost is not applicable and the error is
    written to the console, after the debug lines of the rate. *)
Lemma calculateCost_formula_error_v130 (hass : option states) (source : descriptor)
    (value : number) (formula error : string) :
  flag source.(s_show_cost) = true ->
  source.(s_cost_formula) = Some formula ->
  formula <> ""%string ->
  run ("return " +:+ V130.substitute formula value (rate_by_order hass source)) = Throw error ->
  V130._calculateCost memberText run hass source value =
  (fst (V130.resolve_rate memberText hass source) ++
   [Error ("[Energy Card] Cost formula error for " +:+ quoted (show memberText source.(s_label)) +:+ ":")
          error],
   None).
Proof.
  intros Hs Hf Hne Hr. unfold V130._calculateCost. rewrite Hs. cbn [negb].
  rewrite <- resolve_rate_by_order_v130 in Hr.
  destruct (V130.resolve_rate memberText hass source) as [log1 rate]. cbn [fst snd] in *.
  unfold V130.cost_at_rate, nonempty. rewrite Hf. cbn [key default from_option id].
  apply String.eqb_neq in Hne. rewrite Hne. cbn [negb]. rewrite Hr. reflexivity.
Qed.

End CostEvaluator.

(** * The row builder: how a source enters the table *)

Section RowBuilder.

Variable memberText : string -> string.
Variable run : engine.
Variable toLocaleString : number -> number -> string.

(** ** Version 1.3.0 *)

Section V130Rows.

Variable config : V130.config.
Variable hass : option states.
Variable data : gmap string number.

Local Abbreviation row_of := (V130.row_of memberText run toLocaleString config hass data).
Local Abbreviation map_rows := (V130.map_rows memberText run toLocaleString config hass data).

(** A hidden source leaves no row and does not touch the running total. *)
Lemma row_hidden_v130 (acc : V130.totals) (source : descriptor) :
  flag source.(s_hide_if_zero) = true ->
  strict_eq (V130._getValue data source) 0 = true ->
  row_of acc source = (None, acc).
Proof.
  intros Hh Hz. unfold V130.row_of. now rewrite Hh, Hz.
Qed.

(** The row of a source does not depend on the running total. *)
Lemma row_independent_v130 (a b : V130.totals) (source : descriptor) :
  fst (row_of a source) = fst (row_of b source).
Proof.
  unfold V130.row_of.
  destruct (flag _ && strict_eq _ 0); [reflexivity|].
  destruct (V130._calculateCost _ _ _ _ _) as [log1 [c|]].
  - destruct (negb (isNaN c)); destruct (V130._formatCost _ _ _ _); reflexivity.
  - destruct (V130._formatCost _ _ _ _); reflexivity.
Qed.

(** The sum and the applicability after a source depend on those before it
    only. *)
Lemma row_totals_v130 (a b : V130.totals) (source : descriptor) :
  same_totals130 a b ->
  same_totals130 (snd (row_of a source)) (snd (row_of b source)).
Proof.
  intros [Ht Ha]. unfold V130.row_of.
  destruct (flag _ && strict_eq _ 0); [now split|].
  destruct (V130._calculateCost _ _ _ _ _) as [log1 [c|]].
  - destruct (negb (isNaN c)); destruct (V130._formatCost _ _ _ _);
      split; cbn; congruence.
  - destruct (V130._formatCost _ _ _ _); split; cbn; congruence.
Qed.

Lemma map_rows_app_v130 (acc : V130.totals) (l1 l2 : list descriptor) :
  map_rows acc (l1 ++ l2) =
  (fst (map_rows acc l1) ++ fst (map_rows (snd (map_rows acc l1)) l2),
   snd (map_rows (snd (map_rows acc l1)) l2)).
Proof.
  revert acc.
  induction l1 as [|s l1 IH]; intros acc; cbn [app V130.map_rows].
  - cbn. now destruct (V130.map_rows _ _ _ _ _ _ acc l2).
  - destruct (V130.row_of _ _ _ _ _ _ acc s) as [r acc1]. rewrite IH.
    destruct (V130.map_rows _ _ _ _ _ _ acc1 l1) as [rs acc2]. reflexivity.
Qed.

Lemma map_rows_independent_v130 (a b : V130.totals) (l : list descriptor) :
  same_totals130 a b ->
  fst (map_rows a l) = fst (map_rows b l) /\
  same_totals130 (snd (map_rows a l)) (snd (map_rows b l)).
Proof.
  revert a b.
  induction l as [|s l IH]; intros a b Hab; cbn [V130.map_rows]; [now split|].
  pose proof (row_independent_v130 a b s) as Hr.
  pose proof (row_totals_v130 a b s Hab) as Ht.
  destruct (V130.row_of _ _ _ _ _ _ a s) as [r1 a1].
  destruct (V130.row_of _ _ _ _ _ _ b s) as [r2 b1]. cbn [fst snd] in *.
  specialize (IH a1 b1 Ht) as [IH1 IH2].
  destruct (V130.map_rows _ _ _ _ _ _ a1 l) as [rs1 a2].
  destruct (V130.map_rows _ _ _ _ _ _ b1 l) as [rs2 b2]. cbn [fst snd] in *.
  split; [congruence | exact IH2].
Qed.

(** The rows of the sources around one source are what they are without
    it: every row is made from its own source alone. *)
Lemma rows_around_v130 (acc : V130.totals) (pre post : list descriptor)
    (source : descriptor) :
  fst (map_rows acc (pre ++ source :: post)) =
  fst (map_rows acc pre) ++ fst (row_of acc source) :: fst (map_rows acc post).
Proof.
  rewrite map_rows_app_v130. cbn [fst]. f_equal.
  cbn [V130.map_rows].
  pose proof (row_independent_v130
                (snd (V130.map_rows memberText run toLocaleString config hass data acc pre))
                acc source) as Hr.
  destruct (V130.row_of _ _ _ _ _ _ (snd _) source) as [r a1]. cbn [fst] in Hr.
  assert (Hrs : fst (map_rows a1 post) = fst (map_rows acc post)).
  { clear. revert a1 acc.
    induction post as [|s l IH]; intros a b; cbn [V130.map_rows]; [reflexivity|].
    pose proof (row_independent_v130 a b s) as Hr.
    destruct (V130.row_of _ _ _ _ _ _ a s) as [r1 a1].
    destruct (V130.row_of _ _ _ _ _ _ b s) as [r2 b1]. cbn [fst] in Hr.
    specialize (IH a1 b1).
    destruct (V130.map_rows _ _ _ _ _ _ a1 l) as [rs1 a2].
    destruct (V130.map_rows _ _ _ _ _ _ b1 l) as [rs2 b2]. cbn [fst] in *.
    congruence. }
  destruct (V130.map_rows _ _ _ _ _ _ a1 post) as [rs a2]. cbn [fst] in *.
  congruence.
Qed.

(** A source that leaves the sum and the applicability as they were does
    not show in the totals of the table. *)
Lemma totals_skip_v130 (acc : V130.totals) (pre post : list descriptor)
    (source : descriptor) :
  (forall a, same_totals130 (snd (row_of a source)) a) ->
  same_totals130 (snd (map_rows acc (pre ++ source :: post)))
                 (snd (map_rows acc (pre ++ post))).
Proof.
  intros Hskip. rewrite !map_rows_app_v130. cbn [snd].
  set (a := snd (map_rows acc pre)).
  cbn [V130.map_rows].
  pose proof (Hskip a) as Ha.
  destruct (V130.row_of _ _ _ _ _ _ a source) as [r a1]. cbn [snd] in Ha.
  pose proof (map_rows_independent_v130 a1 a post Ha) as [_ Ht].
  destruct (V130.map_rows _ _ _ _ _ _ a1 post) as [rs a2]. exact Ht.
Qed.

(** Dropping a hidden source from the list changes nothing in what
    [render] computes. *)
Lemma map_rows_hidden_v130 (acc : V130.totals) (pre post : list descriptor)
    (source : descriptor) :
  flag source.(s_hide_if_zero) = true ->
  strict_eq (V130._getValue data source) 0 = true ->
  omap id (fst (map_rows acc (pre ++ source :: post))) =
  omap id (fst (map_rows acc (pre ++ post))) /\
  snd (map_rows acc (pre ++ source :: post)) = snd (map_rows acc (pre ++ post)).
Proof.
  intros Hh Hz. rewrite !map_rows_app_v130. cbn [fst snd V130.map_rows].
  rewrite row_hidden_v130 by assumption.
  destruct (V130.map_rows _ _ _ _ _ _ (snd _) post) as [rs a2]. cbn [fst snd].
  split; [|reflexivity]. rewrite !omap_app. reflexivity.
Qed.

End V130Rows.

(** The table depends on the configuration through its sources, its
    net-metering block and its formats. *)
Lemma buildRows_hidden_v130 (config : V130.config) (hass : option states)
    (data : gmap string number) (pre post : list descriptor) (source : descriptor) :
  flag source.(s_hide_if_zero) = true ->
  strict_eq (V130._getValue data source) 0 = true ->
  V130.buildRows memberText run toLocaleString (with_sources130 config (pre ++ source :: post)) hass data =
  V130.buildRows memberText run toLocaleString (with_sources130 config (pre ++ post)) hass data.
Proof.
  intros Hh Hz. unfold V130.buildRows. cbn [V130.sources V130.net_metering_ with_sources130].
  pose proof (map_rows_hidden_v130 (with_sources130 config (pre ++ source :: post)) hass data
                {| V130.t_totalCost := 0; V130.t_hasAnyCost := false; V130.t_console := [] |}
                pre post source Hh Hz) as [Hr Ht].
  assert (Hc : forall l l' acc ss,
             V130.map_rows memberText run toLocaleString (with_sources130 config l) hass data acc ss =
             V130.map_rows memberText run toLocaleString (with_sources130 config l') hass data acc ss).
  { intros l l' acc ss. revert acc. induction ss as [|s ss IH]; intros acc; [reflexivity|].
    cbn [V130.map_rows].
    change (V130.row_of memberText run toLocaleString (with_sources130 config l) hass data acc s)
      with (V130.row_of memberText run toLocaleString (with_sources130 config l') hass data acc s).
    destruct (V130.row_of _ _ _ _ _ _ acc s) as [r acc1]. rewrite IH. reflexivity. }
  rewrite (Hc (pre ++ post) (pre ++ source :: post)).
  destruct (V130.map_rows _ _ _ (with_sources130 config (pre ++ source :: post)) _ _ _
              (pre ++ source :: post)) as [m1 a1].
  destruct (V130.map_rows _ _ _ (with_sources130 config (pre ++ source :: post)) _ _ _
              (pre ++ post)) as [m2 a2].
  cbn [fst snd] in Hr, Ht. subst a2. rewrite Hr.
  destruct (V130.net_metering_ config); reflexivity.
Qed.

(** The rows and the running total do not depend on the list of sources
    that the configuration holds, only on the list that is mapped. *)
Lemma map_rows_with_sources_v130 (config : V130.config) (hass : option states)
    (data : gmap string number) (l : list descriptor) (acc : V130.totals)
    (ss : list descriptor) :
  V130.map_rows memberText run toLocaleString (with_sources130 config l) hass data acc ss =
  V130.map_rows memberText run toLocaleString config hass data acc ss.
Proof.
  revert acc. induction ss as [|s ss IH]; intros acc; [reflexivity|].
  cbn [V130.map_rows].
  change (V130.row_of memberText run toLocaleString (with_sources130 config l) hass data acc s)
    with (V130.row_of memberText run toLocaleString config hass data acc s).
  destruct (V130.row_of _ _ _ _ _ _ acc s) as [r acc1]. rewrite IH. reflexivity.
Qed.

(** The total and the applicability of the table are those of the running
    total after the last source, with the net-metering cost on top. *)
Lemma buildRows_totals_v130 (config : V130.config) (hass : option states)
    (data : gmap string number) (l1 l2 : list descriptor) :
  same_totals130
    (snd (V130.map_rows memberText run toLocaleString config hass data
            {| V130.t_totalCost := 0; V130.t_hasAnyCost := false; V130.t_console := [] |} l1))
    (snd (V130.map_rows memberText run toLocaleString config hass data
            {| V130.t_totalCost := 0; V130.t_hasAnyCost := false; V130.t_console := [] |} l2)) ->
  V130.totalCost
    (fst (V130.buildRows memberText run toLocaleString (with_sources130 config l1) hass data)) =
  V130.totalCost
    (fst (V130.buildRows memberText run toLocaleString (with_sources130 config l2) hass data)) /\
  V130.hasAnyCost
    (fst (V130.buildRows memberText run toLocaleString (with_sources130 config l1) hass data)) =
  V130.hasAnyCost
    (fst (V130.buildRows memberText run toLocaleString (with_sources130 config l2) hass data)).
Proof.
  unfold V130.buildRows. cbn [V130.sources V130.net_metering_ with_sources130].
  rewrite !map_rows_with_sources_v130.
  destruct (V130.map_rows _ _ _ config _ _ _ l1) as [m1 a1].
  destruct (V130.map_rows _ _ _ config _ _ _ l2) as [m2 a2].
  cbn [snd]. intros [Ht Ha].
  destruct (V130.net_metering_ config) as [nm|]; [|now split].
  unfold V130.net_metering_row.
  destruct (V130._formatCost _ _ _ _) as [log text]. cbn. rewrite Ht. now split.
Qed.

(** ** Version 1.0.0 *)

Section V100Rows.

Variable config : V100.config.
Variable hass : option states.
Variable data : gmap string V100.entry.

Local Abbreviation row_of := (V100.row_of run toLocaleString config hass data).
Local Abbreviation map_rows := (V100.map_rows run toLocaleString config hass data).

Lemma row_hidden_v100 (acc : V100.totals) (source : descriptor) :
  flag source.(s_hide_if_zero) = true ->
  strict_eq (V100._getValue data source) 0 = true ->
  row_of acc source = (None, acc).
Proof.
  intros Hh Hz. unfold V100.row_of. now rewrite Hh, Hz.
Qed.

Lemma map_rows_app_v100 (acc : V100.totals) (l1 l2 : list descriptor) :
  map_rows acc (l1 ++ l2) =
  (fst (map_rows acc l1) ++ fst (map_rows (snd (map_rows acc l1)) l2),
   snd (map_rows (snd (map_rows acc l1)) l2)).
Proof.
  revert acc.
  induction l1 as [|s l1 IH]; intros acc; cbn [app V100.map_rows].
  - cbn. now destruct (V100.map_rows _ _ _ _ _ acc l2).
  - destruct (V100.row_of _ _ _ _ _ acc s) as [r acc1]. rewrite IH.
    destruct (V100.map_rows _ _ _ _ _ acc1 l1) as [rs acc2]. reflexivity.
Qed.

Lemma map_rows_hidden_v100 (acc : V100.totals) (pre post : list descriptor)
    (source : descriptor) :
  flag source.(s_hide_if_zero) = true ->
  strict_eq (V100._getValue data source) 0 = true ->
  omap id (fst (map_rows acc (pre ++ source :: post))) =
  omap id (fst (map_rows acc (pre ++ post))) /\
  snd (map_rows acc (pre ++ source :: post)) = snd (map_rows acc (pre ++ post)).
Proof.
  intros Hh Hz. rewrite !map_rows_app_v100. cbn [fst snd V100.map_rows].
  rewrite row_hidden_v100 by assumption.
  destruct (V100.map_rows _ _ _ _ _ (snd _) post) as [rs a2]. cbn [fst snd].
  split; [|reflexivity]. rewrite !omap_app. reflexivity.
Qed.

End V100Rows.

Lemma buildRows_hidden_v100 (config : V100.config) (hass : option states)
    (data : gmap string V100.entry) (pre post : list descriptor) (source : descriptor) :
  flag source.(s_hide_if_zero) = true ->
  strict_eq (V100._getValue data source) 0 = true ->
  V100.buildRows run toLocaleString (with_sources100 config (pre ++ source :: post)) hass data =
  V100.buildRows run toLocaleString (with_sources100 config (pre ++ post)) hass data.
Proof.
  intros Hh Hz. unfold V100.buildRows. cbn [V100.sources V100.net_metering_ with_sources100].
  pose proof (map_rows_hidden_v100 (with_sources100 config (pre ++ source :: post)) hass data
                {| V100.t_totalCost := 0; V100.t_hasAnyCost := false; V100.t_console := [] |}
                pre post source Hh Hz) as [Hr Ht].
  assert (Hc : forall l l' acc ss,
             V100.map_rows run toLocaleString (with_sources100 config l) hass data acc ss =
             V100.map_rows run toLocaleString (with_sources100 config l') hass data acc ss).
  { intros l l' acc ss. revert acc. induction ss as [|s ss IH]; intros acc; [reflexivity|].
    cbn [V100.map_rows].
    change (V100.row_of run toLocaleString (with_sources100 config l) hass data acc s)
      with (V100.row_of run toLocaleString (with_sources100 config l') hass data acc s).
    destruct (V100.row_of _ _ _ _ _ acc s) as [r acc1]. rewrite IH. reflexivity. }
  rewrite (Hc (pre ++ post) (pre ++ source :: post)).
  destruct (V100.map_rows _ _ (with_sources100 config (pre ++ source :: post)) _ _ _
              (pre ++ source :: post)) as [m1 a1].
  destruct (V100.map_rows _ _ (with_sources100 config (pre ++ source :: post)) _ _ _
              (pre ++ post)) as [m2 a2].
  cbn [fst snd] in Hr, Ht. subst a2. rewrite Hr.
  destruct (V100.net_metering_ config); reflexivity.
Qed.

(** C9. A source whose [hide_if_zero] flag is set and whose resolved
    quantity is [=== 0] produces no row: what [render] computes (rows,
    net-metering row, total, applicability, console) is what it computes
    for the list without that source. When it is the only source and no net
    metering is configured, the table has no row, the total is [0] and it is
    not applicable. Both versions. *)
Theorem C9_hidden_zero_rows (config130 : V130.config) (config100 : V100.config)
    (hass : option states) (data130 : gmap string number)
    (data100 : gmap string V100.entry) (pre post : list descriptor)
    (source : descriptor) :
  flag source.(s_hide_if_zero) = true ->
  strict_eq (V130._getValue data130 source) 0 = true ->
  strict_eq (V100._getValue data100 source) 0 = true ->
  (V130.buildRows memberText run toLocaleString
     (with_sources130 config130 (pre ++ source :: post)) hass data130 =
   V130.buildRows memberText run toLocaleString
     (with_sources130 config130 (pre ++ post)) hass data130) /\
  (config130.(V130.net_metering_) = None ->
   V130.buildRows memberText run toLocaleString (with_sources130 config130 [source]) hass data130 =
   ({| V130.rows := []; V130.netMeteringRow := None;
       V130.totalCost := 0; V130.hasAnyCost := false |}, [])) /\
  (V100.buildRows run toLocaleString
     (with_sources100 config100 (pre ++ source :: post)) hass data100 =
   V100.buildRows run toLocaleString
     (with_sources100 config100 (pre ++ post)) hass data100) /\
  (config100.(V100.net_metering_) = None ->
   V100.buildRows run toLocaleString (with_sources100 config100 [source]) hass data100 =
   ({| V100.rows := []; V100.netMeteringRow := None;
       V100.totalCost := 0; V100.hasAnyCost := false |}, [])).
Proof.
  intros Hh H130 H100. repeat split.
  - now apply buildRows_hidden_v130.
  - intros Hn.
    etransitivity; [exact (buildRows_hidden_v130 config130 hass data130 [] [] source Hh H130)|].
    unfold V130.buildRows. cbn. now rewrite Hn.
  - now apply buildRows_hidden_v100.
  - intros Hn.
    etransitivity; [exact (buildRows_hidden_v100 config100 hass data100 [] [] source Hh H100)|].
    unfold V100.buildRows. cbn. now rewrite Hn.
Qed.

End RowBuilder.

(** * The claims on the cost of a source *)

Section CostClaims.

Variable memberText : string -> string.
Variable run : engine.
Variable toLocaleString : number -> number -> string.

(** C2, in the 1.3.0 file. For a descriptor whose cost is shown, the rate
    [_calculateCost] works with is the one of the order of §4.4: the state of
    the rate entity when it parses as a number, else [rate_static] when it is
    a number, else [0]; the cost is computed from that rate, and is the
    signed product when there is no formula. When the rate entity is there
    and its state does not parse, the rate is [rate_static] if that is a
    number and [0] if not, the console gets debug lines only, and the row of
    the source carries the warning [Invalid: <state>]. *)
Theorem C2_rate_order_v130 (hass : option states) (source : descriptor) (value : number) :
  flag source.(s_show_cost) = true ->
  snd (V130.resolve_rate memberText hass source) = rate_by_order hass source /\
  snd (V130._calculateCost memberText run hass source value) =
    snd (V130.cost_at_rate memberText run source value (rate_by_order hass source)) /\
  (nonempty source.(s_cost_formula) = false ->
   snd (V130._calculateCost memberText run hass source value) =
     Some (signed source (value * rate_by_order hass source)%float)) /\
  (forall text,
     nonempty source.(s_rate_entity) = true ->
     V130.entity_state hass (key source.(s_rate_entity)) = Some text ->
     isNaN (parseFloat text) = true ->
     rate_by_order hass source =
       match source.(s_rate_static) with Num r => r | _ => 0%float end /\
     Forall is_debug (fst (V130.resolve_rate memberText hass source)) /\
     forall config data acc row acc',
       V130.row_of memberText run toLocaleString config hass data acc source = (Some row, acc') ->
       row.(V130.rateWarning) = Some ("Invalid: " +:+ text)%string).
Proof.
  intros Hs. split; [apply resolve_rate_by_order_v130|].
  split; [now apply calculateCost_at_rate_v130|].
  split; [now apply calculateCost_product_v130|].
  intros text He Ht Hn. split; [|split].
  - unfold rate_by_order, parsed_state. unfold V130.entity_state in Ht.
    now rewrite He, Ht, Hn.
  - apply resolve_rate_log_v130.
  - intros config data acc row acc'. unfold V130.row_of.
    destruct (flag _ && strict_eq _ 0); [discriminate|].
    destruct (V130._calculateCost _ _ _ _ _) as [log1 cost].
    destruct (match cost with Some _ => _ | None => _ end) as [total any].
    destruct (V130._formatCost _ _ _ _) as [log2 text'].
    intros [= <- _]. cbn [V130.rateWarning]. now rewrite Hs, He, Ht, Hn.
Qed.

(** 1.0.0 agrees with the order of §4.4 where its own resolution does: for
    a descriptor whose [rate_static] is [null] or a number other than [NaN],
    and whose rate entity, when it is named and found, has a state that
    parses as a number. The cost is then the same number as the signed
    product (its early return at quantity [0] gives [0] where the product
    is one of the two zeros). *)
Lemma calculateCost_product_v100 (hass : option states) (source : descriptor)
    (value : number) :
  flag source.(s_show_cost) = true ->
  nonempty source.(s_cost_formula) = false ->
  static_rate_is_plain source.(s_rate_static) ->
  (forall text,
     nonempty source.(s_rate_entity) = true ->
     V100.entity_state hass (key source.(s_rate_entity)) = Some text ->
     isNaN (parseFloat text) = false) ->
  exists c,
    snd (V100._calculateCost run hass source value) = Some c /\
    same_number c (signed source (value * rate_by_order hass source)%float).
Proof.
  intros Hs Hf Hp Hparse. unfold V100._calculateCost. rewrite Hs, Hf. cbn [negb].
  assert (Hsigned : forall a b,
            zeroish a -> zeroish b ->
            same_number (signed source (value * a)%float)
                        (signed source (value * b)%float)).
  { intros a b Ha Hb. unfold signed.
    destruct (mul_zeroish_cases value a b Ha Hb) as [[-> ->] | [Hza Hzb]].
    - apply same_number_refl.
    - destruct (flag (s_invert_cost source));
        [apply zeroish_same; now apply zeroish_opp | now apply zeroish_same]. }
  destruct (strict_eq value 0 && negb (to_boolean (s_rate_static source))
            && negb (nonempty (s_rate_entity source))) eqn:Hearly.
  - eexists. split; [reflexivity|].
    apply andb_true_iff in Hearly as [Hearly He].
    apply andb_true_iff in Hearly as [Hz Hr].
    apply strict_eq_zero in Hz. apply negb_true_iff in Hr, He.
    unfold rate_by_order, parsed_state, signed. rewrite He.
    assert (Hrate : zeroish (match s_rate_static source with Num r => r | _ => 0%float end)).
    { destruct (s_rate_static source) as [| |r]; cbn in *; [contradiction|now left|].
      apply truthy_false_cases in Hr as [Hr|Hr]; [exact Hr|congruence]. }
    apply zeroish_same; [now left|].
    destruct Hz as [-> | ->], Hrate as [-> | ->], (flag (s_invert_cost source));
      (now left) || (now right).
  - eexists. split; [reflexivity|]. cbn [snd].
    unfold V100.resolve_rate, rate_by_order, parsed_state. unfold signed in Hsigned |- *.
    destruct (nonempty (s_rate_entity source)) eqn:He.
    + unfold V100.entity_state in Hparse |- *.
      destruct (hass ≫= _) as [text|] eqn:Ht.
      * specialize (Hparse text eq_refl eq_refl). rewrite Hparse. cbn [to_number].
        destruct (truthy (parseFloat text)) eqn:Htr; [apply same_number_refl|].
        apply truthy_false_cases in Htr as [Hz|Hn]; [|congruence].
        apply Hsigned; [now left | exact Hz].
      * destruct (s_rate_static source) as [| |r]; cbn in *;
          [contradiction | apply same_number_refl | apply same_number_refl].
    + destruct (s_rate_static source) as [| |r]; cbn in *;
        [contradiction | apply same_number_refl | apply same_number_refl].
Qed.

(** C8. When [show_cost] is off, the cost is not applicable and nothing is
    written to the console, in both versions. When it is on and there is
    no formula, the cost of 1.3.0 is the quantity times the rate of the
    order of §4.4, negated under [invert_cost]. *)
Theorem C8_cost_is_quantity_times_rate (hass : option states) (source : descriptor)
    (value : number) :
  (flag source.(s_show_cost) = false ->
   V130._calculateCost memberText run hass source value = ([], None) /\
   V100._calculateCost run hass source value = ([], None)) /\
  (flag source.(s_show_cost) = true ->
   nonempty source.(s_cost_formula) = false ->
   snd (V130._calculateCost memberText run hass source value) =
     Some (signed source (value * rate_by_order hass source)%float)).
Proof.
  split.
  - intros Hs. split; [now apply calculateCost_suppressed_v130|].
    unfold V100._calculateCost. now rewrite Hs.
  - apply calculateCost_product_v130.
Qed.

End CostClaims.

(** Quantity [10] at the static rate [0.20] costs [2], and [-2] with
    [invert_cost]; with [show_cost] off there is no cost. *)
Lemma C8_cost_example :
  snd (V130._calculateCost native arith_engine None (solar "" (Num 0.2) "" false) 10)
    = Some 2%float /\
  snd (V130._calculateCost native arith_engine None (solar "" (Num 0.2) "" true) 10)
    = Some (-2)%float /\
  (V130._calculateCost native arith_engine None unpriced 10 = ([], None) /\
   V100._calculateCost arith_engine None unpriced 10 = ([], None)).
Proof.
  split; [|split].
  - exact (proj2 (C8_cost_is_quantity_times_rate native arith_engine None
             (solar "" (Num 0.2) "" false) 10) eq_refl eq_refl).
  - exact (proj2 (C8_cost_is_quantity_times_rate native arith_engine None
             (solar "" (Num 0.2) "" true) 10) eq_refl eq_refl).
  - exact (proj1 (C8_cost_is_quantity_times_rate native arith_engine None unpriced 10)
             eq_refl).
Defined.

(** The rate entity of the example is unavailable and the static rate is
    [0.15]: in 1.3.0 quantity [10] costs [1.5]. *)
Lemma C2_rate_order_example :
  snd (V130._calculateCost native arith_engine home
         (solar "sensor.tariff" (Num 0.15) "" false) 10) = Some 1.5%float.
Proof.
  exact (proj1 (proj2 (proj2
           (C2_rate_order_v130 native arith_engine plain_format home
              (solar "sensor.tariff" (Num 0.15) "" false) 10 eq_refl))) eq_refl).
Defined.

(** The three steps of the order, on the example host. *)
Lemma rate_order_examples :
  rate_by_order home (solar "sensor.rate" (Num 0.15) "" false) = 0.2%float /\
  rate_by_order home (solar "sensor.tariff" (Num 0.15) "" false) = 0.15%float /\
  rate_by_order home (solar "sensor.missing" (Num 0.15) "" false) = 0.15%float /\
  rate_by_order home (solar "sensor.tariff" Null "" false) = 0%float /\
  rate_by_order home (solar "" Null "" false) = 0%float.
Proof. repeat split; vm_compute; reflexivity. Qed.

(** C2 fails on the 1.0.0 file: there a rate entity that is found decides
    the rate alone. With the state [unavailable] and [rate_static = 0.15] the
    order of the claim gives [0.15]; 1.0.0 works with [0], and quantity [10]
    costs [0], not [1.5]. *)
Lemma C2_no_static_fallback_v100 :
  rate_by_order home (solar100 (Some "sensor.tariff") (Num 0.15) None false) = 0.15%float /\
  V100.resolve_rate home (solar100 (Some "sensor.tariff") (Num 0.15) None false)
    = Num 0%float /\
  snd (V100._calculateCost arith_engine home
         (solar100 (Some "sensor.tariff") (Num 0.15) None false) 10) = Some 0%float /\
  snd (V100._calculateCost arith_engine home
         (solar100 (Some "sensor.tariff") (Num 0.15) None false) 10)
    <> Some (signed (solar100 (Some "sensor.tariff") (Num 0.15) None false)
               (10 * rate_by_order home
                       (solar100 (Some "sensor.tariff") (Num 0.15) None false))%float).
Proof.
  split; [vm_compute; reflexivity|]. split; [vm_compute; reflexivity|].
  split; [vm_compute; reflexivity|].
  apply some_float_neq. vm_compute. reflexivity.
Qed.

(** C8 fails on the 1.0.0 file, for the reason C2 does: the rate of 1.0.0
    is not the rate of §4.4 when a rate entity is found whose state does
    not parse. With the state [unavailable], [rate_static = 0.15] and
    [invert_cost], the cost of quantity [10] is the negated product with
    the rate [0], a zero, where the claim has [-1.5]. Where the rate entity
    parses or is not found, 1.0.0 returns the product of the claim
    ([calculateCost_product_v100]): [10] at the rate [0.2] of [sensor.rate]
    costs [-2]. *)
Lemma C8_product_fails_v100 :
  flag (solar100 (Some "sensor.tariff") (Num 0.15) None true).(s_show_cost) = true /\
  nonempty (solar100 (Some "sensor.tariff") (Num 0.15) None true).(s_cost_formula) = false /\
  signed (solar100 (Some "sensor.tariff") (Num 0.15) None true)
    (10 * rate_by_order home (solar100 (Some "sensor.tariff") (Num 0.15) None true))%float
    = (-1.5)%float /\
  snd (V100._calculateCost arith_engine home
         (solar100 (Some "sensor.tariff") (Num 0.15) None true) 10) = Some (-0)%float /\
  snd (V100._calculateCost arith_engine home
         (solar100 (Some "sensor.tariff") (Num 0.15) None true) 10)
    <> Some (signed (solar100 (Some "sensor.tariff") (Num 0.15) None true)
               (10 * rate_by_order home
                       (solar100 (Some "sensor.tariff") (Num 0.15) None true))%float) /\
  snd (V100._calculateCost arith_engine home
         (solar100 (Some "sensor.rate") (Num 0.15) None true) 10) = Some (-2)%float.
Proof.
  split; [reflexivity|]. split; [reflexivity|].
  split; [vm_compute; reflexivity|]. split; [vm_compute; reflexivity|].
  split; [apply some_float_neq; vm_compute; reflexivity | vm_compute; reflexivity].
Qed.

(** * Formulas *)

Section Formulas.

Variable memberText : string -> string.
Variable run : engine.
Variable toLocaleString : number -> number -> string.

(** The formula of §8 under an engine that evaluates arithmetic:
    [value * rate + 5] at quantity [10] and rate [0.2] is [7]. *)
Lemma formula_example_v130 :
  evaluates_arithmetic run ->
  V130.substitute "value * rate + 5" 10 0.2 = "10 * 0.2 + 5"%string /\
  snd (V130._calculateCost memberText run None (solar "" (Num 0.2) "value * rate + 5" false) 10) =
  Some 7%float.
Proof.
  intros Hrun. split; [vm_compute; reflexivity|].
  rewrite (calculateCost_formula_v130 memberText run None _ 10 "value * rate + 5")
    by (reflexivity || discriminate).
  erewrite Hrun by (vm_compute; reflexivity). reflexivity.
Qed.

(** A malformed formula: [value *] becomes [10 *], a syntax error. The cost
    is not applicable and the error is on the console. *)
Lemma formula_malformed_v130 :
  evaluates_arithmetic run ->
  V130._calculateCost memberText run None (solar "" (Num 0.2) "value *" false) 10 =
  ([Error ("[Energy Card] Cost formula error for " +:+ quoted "Solar Production" +:+ ":")
          "SyntaxError"],
   None).
Proof.
  intros Hrun.
  rewrite (calculateCost_formula_error_v130 memberText run None
             (solar "" (Num 0.2) "value *" false) 10 "value *" "SyntaxError");
    try reflexivity; [discriminate|].
  apply Hrun. vm_compute. reflexivity.
Qed.

(** A source whose formula throws has a row without a cost, and leaves the
    sum and the applicability of the total as they were. *)
Lemma row_formula_error_v130 (config : V130.config) (hass : option states)
    (data : gmap string number) (acc : V130.totals) (source : descriptor)
    (formula error : string) :
  flag source.(s_hide_if_zero) && strict_eq (V130._getValue data source) 0 = false ->
  flag source.(s_show_cost) = true ->
  source.(s_cost_formula) = Some formula ->
  formula <> ""%string ->
  run ("return " +:+ V130.substitute formula (V130._getValue data source)
                       (rate_by_order hass source)) = Throw error ->
  exists row acc',
    V130.row_of memberText run toLocaleString config hass data acc source = (Some row, acc') /\
    row.(V130.cost) = None /\
    row.(V130.costFormatted) = ""%string /\
    same_totals130 acc' acc /\
    In (Error ("[Energy Card] Cost formula error for " +:+ quoted (show memberText source.(s_label))
               +:+ ":") error) acc'.(V130.t_console).
Proof.
  intros Hh Hs Hf Hne Hr. unfold V130.row_of. rewrite Hh.
  rewrite (calculateCost_formula_error_v130 memberText run hass source _ formula error)
    by assumption.
  cbn [V130._formatCost]. eexists _, _. split; [reflexivity|].
  cbn. repeat split. rewrite !in_app_iff. right. left. now right; left.
Qed.

(** The pipeline goes on after a formula error: the rows of the other
    sources are what they are without the failing one, and so are the sum
    and the applicability of the total. *)
Lemma formula_error_isolated_v130 (config : V130.config) (hass : option states)
    (data : gmap string number) (acc : V130.totals) (pre post : list descriptor)
    (source : descriptor) (formula error : string) :
  flag source.(s_show_cost) = true ->
  source.(s_cost_formula) = Some formula ->
  formula <> ""%string ->
  run ("return " +:+ V130.substitute formula (V130._getValue data source)
                       (rate_by_order hass source)) = Throw error ->
  fst (V130.map_rows memberText run toLocaleString config hass data acc (pre ++ source :: post)) =
    fst (V130.map_rows memberText run toLocaleString config hass data acc pre)
    ++ fst (V130.row_of memberText run toLocaleString config hass data acc source)
    :: fst (V130.map_rows memberText run toLocaleString config hass data acc post) /\
  same_totals130
    (snd (V130.map_rows memberText run toLocaleString config hass data acc (pre ++ source :: post)))
    (snd (V130.map_rows memberText run toLocaleString config hass data acc (pre ++ post))).
Proof.
  intros Hs Hf Hne Hr. split; [apply rows_around_v130|].
  apply totals_skip_v130. intros a.
  destruct (flag (s_hide_if_zero source) && strict_eq (V130._getValue data source) 0) eqn:Hh.
  - unfold V130.row_of. rewrite Hh. now split.
  - destruct (row_formula_error_v130 config hass data a source formula error
                Hh Hs Hf Hne Hr) as (row & acc' & -> & _ & _ & Ht & _).
    exact Ht.
Qed.

(** C10, the 1.3.0 file. When the formula of a shown source evaluates to
    [NaN], its row carries the [NaN] cost with an empty formatted cost, and
    the sum and the applicability of the running total stay what they were
    before the source; so the running total after the last source, and the
    total and the applicability of the table, are those of the list without
    that source. *)
Theorem C10_nan_cost_excluded_v130 (config : V130.config) (hass : option states)
    (data : gmap string number) (source : descriptor) (formula : string)
    (result : number) :
  flag source.(s_hide_if_zero) && strict_eq (V130._getValue data source) 0 = false ->
  flag source.(s_show_cost) = true ->
  source.(s_cost_formula) = Some formula ->
  formula <> ""%string ->
  run ("return " +:+ V130.substitute formula (V130._getValue data source)
                       (rate_by_order hass source)) = Normal result ->
  isNaN result = true ->
  (forall acc, exists row acc',
     V130.row_of memberText run toLocaleString config hass data acc source = (Some row, acc') /\
     row.(V130.cost) = Some (signed source result) /\
     isNaN (signed source result) = true /\
     row.(V130.costFormatted) = ""%string /\
     same_totals130 acc' acc) /\
  (forall acc pre post,
     same_totals130
       (snd (V130.map_rows memberText run toLocaleString config hass data acc (pre ++ source :: post)))
       (snd (V130.map_rows memberText run toLocaleString config hass data acc (pre ++ post)))) /\
  (forall pre post,
     V130.totalCost (fst (V130.buildRows memberText run toLocaleString
                            (with_sources130 config (pre ++ source :: post)) hass data)) =
     V130.totalCost (fst (V130.buildRows memberText run toLocaleString
                            (with_sources130 config (pre ++ post)) hass data)) /\
     V130.hasAnyCost (fst (V130.buildRows memberText run toLocaleString
                             (with_sources130 config (pre ++ source :: post)) hass data)) =
     V130.hasAnyCost (fst (V130.buildRows memberText run toLocaleString
                             (with_sources130 config (pre ++ post)) hass data))).
Proof.
  intros Hh Hs Hf Hne Hr Hn.
  assert (Hsigned : isNaN (signed source result) = true).
  { unfold signed. destruct (flag (s_invert_cost source)); [|exact Hn].
    now rewrite isNaN_opp. }
  assert (Hrow : forall acc, exists row acc',
             V130.row_of memberText run toLocaleString config hass data acc source = (Some row, acc') /\
             row.(V130.cost) = Some (signed source result) /\
             isNaN (signed source result) = true /\
             row.(V130.costFormatted) = ""%string /\
             same_totals130 acc' acc).
  { intros acc. unfold V130.row_of. rewrite Hh.
    pose proof (calculateCost_formula_v130 memberText run hass source
                  (V130._getValue data source) formula Hs Hf Hne) as Hc.
    rewrite Hr in Hc.
    destruct (V130._calculateCost memberText run hass source (V130._getValue data source))
      as [log1 cost]. cbn [snd] in Hc. subst cost.
    rewrite Hsigned. cbn [negb V130._formatCost]. rewrite Hsigned.
    eexists _, _. split; [reflexivity|]. cbn. repeat split. }
  assert (Hskip : forall acc pre post,
             same_totals130
               (snd (V130.map_rows memberText run toLocaleString config hass data acc
                       (pre ++ source :: post)))
               (snd (V130.map_rows memberText run toLocaleString config hass data acc (pre ++ post)))).
  { intros acc pre post. apply totals_skip_v130. intros a.
    destruct (Hrow a) as (row & acc' & -> & _ & _ & _ & Ht). exact Ht. }
  split; [exact Hrow|]. split; [exact Hskip|].
  intros pre post. apply buildRows_totals_v130, Hskip.
Qed.

End Formulas.

(** C7, the 1.0.0 file at a source with the formula [value * rate + 5], no
    rate, and quantity [0]: [_calculateCost] returns [0] on its second line,
    before it looks at the formula, whatever the engine is. The formula with
    [value] and [rate] replaced is [0 * 0 + 5], which is [5]; 1.3.0 returns
    [5] on the same source. *)
Theorem C7_formula_skipped_at_zero_v100 (run : engine) :
  V100._calculateCost run None fee100 0 = ([], Some 0%float) /\
  V100.substitute "value * rate + 5" 0 (V100.resolve_rate None fee100)
    = "0 * 0 + 5"%string /\
  arith_run "return 0 * 0 + 5" = Some (Normal 5) /\
  snd (V130._calculateCost native arith_engine None fee130 0) = Some 5%float.
Proof. repeat split; vm_compute; reflexivity. Qed.

(** With a quantity other than zero 1.0.0 evaluates the formula as 1.3.0
    does. *)
Lemma formula_example_v100 :
  snd (V100._calculateCost arith_engine None
         (solar100 None (Num 0.2) (Some "value * rate + 5"%string) false) 10)
    = Some 7%float.
Proof. vm_compute. reflexivity. Qed.

(** The engine of arithmetic is sound for arithmetic. *)
Lemma arith_engine_evaluates : evaluates_arithmetic arith_engine.
Proof. intros body c H. unfold arith_engine. now rewrite H. Defined.

(** A source hidden at zero on a host without data: no row, no total. *)
Lemma C9_hidden_zero_example :
  V130.buildRows native arith_engine plain_format (with_sources130 (config130 []) [shy]) None ∅ =
  ({| V130.rows := []; V130.netMeteringRow := None;
      V130.totalCost := 0; V130.hasAnyCost := false |}, []) /\
  V100.buildRows arith_engine plain_format (with_sources100 (config100 []) [shy]) None ∅ =
  ({| V100.rows := []; V100.netMeteringRow := None;
      V100.totalCost := 0; V100.hasAnyCost := false |}, []).
Proof.
  pose proof (C9_hidden_zero_rows native arith_engine plain_format (config130 []) (config100 [])
                None ∅ ∅ [] [] shy eq_refl eq_refl eq_refl) as (_ & H130 & _ & H100).
  split; [exact (H130 eq_refl) | exact (H100 eq_refl)].
Defined.

(** [value / value] at quantity [0] is [0 / 0], that is [NaN]: the row has
    no formatted cost and the total stays at [0], not applicable. *)
Lemma C10_nan_cost_example :
  arith_engine ("return " +:+ V130.substitute "value / value" 0 0) = Normal nan /\
  exists row acc',
    V130.row_of native arith_engine plain_format (config130 [ratio]) None ∅ start130 ratio
      = (Some row, acc') /\
    row.(V130.costFormatted) = ""%string /\
    acc'.(V130.t_totalCost) = 0%float /\
    acc'.(V130.t_hasAnyCost) = false.
Proof.
  assert (Hrun : arith_engine ("return " +:+ V130.substitute "value / value"
                                 (V130._getValue ∅ ratio) (rate_by_order None ratio))
                 = Normal nan) by (vm_compute; reflexivity).
  assert (Hshown : flag (s_hide_if_zero ratio) && strict_eq (V130._getValue ∅ ratio) 0
                   = false) by reflexivity.
  assert (Hformula : "value / value"%string <> ""%string) by discriminate.
  split; [vm_compute; reflexivity|].
  destruct (proj1 (C10_nan_cost_excluded_v130 native arith_engine plain_format
                     (config130 [ratio]) None ∅ ratio "value / value" nan
                     Hshown eq_refl eq_refl Hformula Hrun eq_refl) start130)
    as (row & acc' & Hrow & _ & _ & Hfmt & Ht & Ha).
  exists row, acc'. repeat split; assumption.
Defined.

(** * What 1.0.0 does where it departs from 1.3.0 *)

Section Departures.

(** A rate entity that the host knows decides the rate alone: its state
    when that is a number other than zero, [0] otherwise. *)
Lemma resolve_rate_found_v100 (hass : option states) (source : descriptor)
    (text : string) :
  nonempty source.(s_rate_entity) = true ->
  V100.entity_state hass (key source.(s_rate_entity)) = Some text ->
  V100.resolve_rate hass source =
  Num (if truthy (parseFloat text) then parseFloat text else 0%float).
Proof.
  intros He Ht. unfold V100.resolve_rate. now rewrite He, Ht.
Qed.

(** Without such an entity the rate is [rate_static], whatever it is,
    unless it is [null]. *)
Lemma resolve_rate_static_v100 (hass : option states) (source : descriptor) :
  nonempty source.(s_rate_entity) = false \/
  V100.entity_state hass (key source.(s_rate_entity)) = None ->
  V100.resolve_rate hass source =
  match source.(s_rate_static) with Null => Num 0%float | v => v end.
Proof.
  unfold V100.resolve_rate. intros [-> | H]; [reflexivity|].
  destruct (nonempty (s_rate_entity source)); [now rewrite H | reflexivity].
Qed.

(** Samples that carry neither a sum at both ends nor a change at the
    start, but a state at the start, aggregate to the difference of the
    states. *)
Lemma aggregate_state_v100 (firstStat : stat) (rest : list stat) :
  V100.defined firstStat.(sum) && V100.defined (List.last rest firstStat).(sum) = false ->
  V100.defined firstStat.(change) = false ->
  V100.defined firstStat.(state) = true ->
  V100.aggregate (Some (firstStat :: rest)) =
  (or_zero (List.last rest firstStat).(state) - or_zero firstStat.(state))%float.
Proof.
  intros Hs Hc Hst. unfold V100.aggregate. now rewrite Hs, Hc, Hst.
Qed.

(** The early return of [_calculateCost]: at quantity zero, without a
    static rate and without a rate entity, the cost is [0] and neither the
    rate nor the formula is looked at. *)
Lemma calculateCost_early_return_v100 (run : engine) (hass : option states)
    (source : descriptor) (value : number) :
  flag source.(s_show_cost) = true ->
  strict_eq value 0 = true ->
  to_boolean source.(s_rate_static) = false ->
  nonempty source.(s_rate_entity) = false ->
  V100._calculateCost run hass source value = ([], Some 0%float).
Proof.
  intros Hs Hz Hr He. unfold V100._calculateCost. now rewrite Hs, Hz, Hr, He.
Qed.

End Departures.

(** * Examples on the whole card *)

(** [setConfig] without sources, on both versions; with an empty list, on
    1.3.0. The card is left as it was. *)
Lemma setConfig_examples :
  V130.setConfig native arith_engine plain_format fresh130 no_config =
    Threw "Please add at least one energy source" fresh130 /\
  V130.setConfig native arith_engine plain_format fresh130 empty_sources =
    Threw "Please add at least one energy source" fresh130 /\
  V100.setConfig arith_engine plain_format fresh100 no_config =
    Threw "You must define at least one energy source" fresh100.
Proof. repeat split. Qed.

(** The examples of the formulas under the engine of arithmetic. *)
Lemma formula_examples :
  snd (V130._calculateCost native arith_engine None
         (solar "" (Num 0.2) "value * rate + 5" false) 10) = Some 7%float /\
  V130._calculateCost native arith_engine None (solar "" (Num 0.2) "value *" false) 10 =
    ([Error ("[Energy Card] Cost formula error for " +:+ quoted "Solar Production" +:+ ":")
            "SyntaxError"], None).
Proof.
  split.
  - exact (proj2 (formula_example_v130 native arith_engine arith_engine_evaluates)).
  - exact (formula_malformed_v130 native arith_engine arith_engine_evaluates).
Qed.

(** The scenario of §8 on 1.3.0: a solar source at the static rate [0.15]
    and the samples [[{sum:0},{sum:40}]] give one row, quantity [40], cost
    [6], and an applicable total of [6]. *)
Lemma end_to_end_example :
  V130._processStatistics solar_statistics !! "solar"%string = Some 40%float /\
  fst (V130.buildRows native arith_engine plain_format
         (config130 (V130.normalize [solar_raw])) None
         (V130._processStatistics solar_statistics)) =
  {| V130.rows :=
       [ {| V130.emoji := Text "☀️"; V130.label := Text "Solar Production";
            V130.value_ := "40"; V130.unit_ := Text "kWh"; V130.cost := Some 6%float;
            V130.costFormatted := "$6"; V130.rateWarning := None;
            V130.isNegative := false; V130.isCostCredit := false |} ];
     V130.netMeteringRow := None;
     V130.totalCost := 6;
     V130.hasAnyCost := true |}.
Proof. split; vm_compute; reflexivity. Qed.

(** * The ids of a request *)

Section RequestedIds.

Lemma Set_values_from (l seen : list string) :
  NoDup seen ->
  let result :=
    fold_left (fun seen x => if bool_decide (x ∈ seen) then seen else seen ++ [x]) l seen in
  NoDup result /\ forall x, x ∈ result <-> x ∈ seen \/ x ∈ l.
Proof.
  revert seen. induction l as [|a l IH]; intros seen Hseen; cbn.
  - split; [exact Hseen|]. intros x. rewrite elem_of_nil. tauto.
  - case_bool_decide as Ha.
    + destruct (IH seen Hseen) as [Hnd Hin]. split; [exact Hnd|].
      intros x. rewrite Hin, elem_of_cons. split; [tauto|].
      intros [?|[->|?]]; tauto.
    + assert (Hnd' : NoDup (seen ++ [a])).
      { apply NoDup_app. split; [exact Hseen|]. split.
        - intros x Hx Hx'. apply list_elem_of_singleton in Hx'. congruence.
        - apply NoDup_singleton. }
      destruct (IH _ Hnd') as [Hnd Hin]. split; [exact Hnd|].
      intros x. rewrite Hin, elem_of_app, list_elem_of_singleton, elem_of_cons. tauto.
Qed.

Lemma Set_values_NoDup (l : list string) : NoDup (Set_values l).
Proof. apply (Set_values_from l []). constructor. Qed.

Lemma elem_of_Set_values (l : list string) (x : string) : x ∈ Set_values l <-> x ∈ l.
Proof.
  destruct (Set_values_from l [] (NoDup_nil_2)) as [_ H].
  unfold Set_values. rewrite H, elem_of_nil. tauto.
Qed.

Lemma nonempty_Some (o : option string) :
  nonempty o = true <-> exists s, o = Some s /\ s <> ""%string.
Proof.
  destruct o as [s|]; cbn.
  - destruct (String.eqb_spec s "") as [->|Hs]; cbn.
    + split; [discriminate|]. intros (s & [= <-] & Hs). congruence.
    + split; [eauto|reflexivity].
  - split; [discriminate|]. intros (s & [=] & _).
Qed.

Lemma elem_of_push_if (o : option string) (x : string) :
  x ∈ push_if o <-> o = Some x /\ x <> ""%string.
Proof.
  unfold push_if. destruct (nonempty o) eqn:Hn.
  - apply nonempty_Some in Hn as (s & -> & Hs). cbn.
    rewrite list_elem_of_singleton. split.
    + intros ->. auto.
    + intros [[= ->] _]. reflexivity.
  - rewrite elem_of_nil. split; [tauto|]. intros [-> Hx].
    assert (nonempty (Some x) = true) by (apply nonempty_Some; eauto). congruence.
Qed.

Lemma elem_of_net_metering_ids (nm : option net_metering) (x : string) :
  x ∈ Life130.net_metering_ids nm <->
  x <> ""%string /\
  exists n, nm = Some n /\ (n.(nm_import_entity) = Some x \/ n.(nm_export_entity) = Some x).
Proof.
  destruct nm as [n|]; cbn.
  - rewrite elem_of_app, !elem_of_push_if. split.
    + intros [[H ?]|[H ?]]; (split; [assumption|]); exists n; auto.
    + intros (Hx & n' & [= <-] & [H|H]); auto.
  - rewrite elem_of_nil. split; [tauto|]. intros (_ & n & [=] & _).
Qed.

Lemma elem_of_entityIds_v130 (config : V130.config) (x : string) :
  x ∈ Life130.entityIds config <->
  x <> ""%string /\
  Property.named_by config.(V130.sources) config.(V130.net_metering_) x.
Proof.
  unfold Life130.entityIds, Property.named_by.
  rewrite elem_of_app, elem_of_net_metering_ids, list_elem_of_In, in_flat_map.
  setoid_rewrite <- list_elem_of_In.
  unfold Life130.source_ids.
  setoid_rewrite elem_of_app. setoid_rewrite elem_of_app.
  setoid_rewrite elem_of_push_if.
  split.
  - intros [(source & Hin & H)|(Hx & H)].
    + destruct H as [[H Hx]|[[H Hx]|[H Hx]]]; (split; [exact Hx|]); left;
        exists source; (split; [exact Hin|]).
      * left. exact H.
      * right. destruct source.(s_calculate_from) as [cf|]; [|discriminate].
        exists cf. split; [reflexivity|]. left. exact H.
      * right. destruct source.(s_calculate_from) as [cf|]; [|discriminate].
        exists cf. split; [reflexivity|]. right. exact H.
    + split; [exact Hx|]. right. exact H.
  - intros (Hx & [(source & Hin & H)|H]).
    + left. exists source. split; [exact Hin|].
      destruct H as [H|(cf & Hcf & [H|H])].
      * left. auto.
      * right. left. rewrite Hcf. auto.
      * right. right. rewrite Hcf. auto.
    + right. auto.
Qed.

Lemma elem_of_entityIds_v100 (config : V100.config) (x : string) :
  x ∈ Life100.entityIds config <->
  x <> ""%string /\
  Property.named_by config.(V100.sources) config.(V100.net_metering_) x.
Proof.
  unfold Life100.entityIds, Property.named_by.
  rewrite !elem_of_app. change Life100.net_metering_ids with Life130.net_metering_ids.
  rewrite elem_of_net_metering_ids, list_elem_of_fmap.
  rewrite (list_elem_of_In (flat_map _ _) x), in_flat_map.
  setoid_rewrite <- list_elem_of_In.
  setoid_rewrite list_elem_of_In at 1. setoid_rewrite filter_In.
  setoid_rewrite <- list_elem_of_In.
  unfold Life100.calculate_from_ids.
  split.
  - intros [(source & -> & Hin & Hn)|[(source & Hin & H)|(Hx & H)]].
    + apply nonempty_Some in Hn as (s & Hs & Hne). rewrite Hs. cbn.
      split; [exact Hne|]. left. exists source. auto.
    + destruct source.(s_calculate_from) as [cf|] eqn:Hcf;
        [|apply elem_of_nil in H; contradiction].
      apply elem_of_app in H. rewrite !elem_of_push_if in H.
      destruct H as [[H Hx]|[H Hx]]; (split; [exact Hx|]); left; exists source;
        (split; [exact Hin|]); right; exists cf; auto.
    + split; [exact Hx|]. right. exact H.
  - intros (Hx & [(source & Hin & H)|H]).
    + destruct H as [H|(cf & Hcf & H)].
      * left. exists source. split; [rewrite H; reflexivity|].
        split; [exact Hin|]. apply nonempty_Some. eauto.
      * right. left. exists source. split; [exact Hin|]. rewrite Hcf.
        rewrite elem_of_app, !elem_of_push_if. tauto.
    + right. right. auto.
Qed.

Lemma uniqueEntityIds_spec_v130 (config : V130.config) :
  NoDup (Life130.uniqueEntityIds config) /\
  forall id, id ∈ Life130.uniqueEntityIds config <->
    id <> ""%string /\
    Property.named_by config.(V130.sources) config.(V130.net_metering_) id.
Proof.
  split; [apply Set_values_NoDup|].
  intros id. unfold Life130.uniqueEntityIds.
  rewrite elem_of_Set_values, list_elem_of_In, filter_In, <- list_elem_of_In.
  rewrite elem_of_entityIds_v130. split; [tauto|].
  intros [Hx H]. split; [tauto|].
  destruct (String.eqb_spec id ""); [contradiction|reflexivity].
Qed.

Lemma uniqueEntityIds_spec_v100 (config : V100.config) :
  NoDup (Life100.uniqueEntityIds config) /\
  forall id, id ∈ Life100.uniqueEntityIds config <->
    id <> ""%string /\
    Property.named_by config.(V100.sources) config.(V100.net_metering_) id.
Proof.
  split; [apply Set_values_NoDup|].
  intros id. unfold Life100.uniqueEntityIds.
  rewrite elem_of_Set_values. apply elem_of_entityIds_v100.
Qed.

(** X1. The ids a card asks the recorder for, in both versions: no id
    twice, never the empty id, and exactly the ids that the configuration
    names (the entity of a source, the import and the export of its
    [calculate_from], the import and the export of the net metering). *)
Theorem requested_ids_are_the_named_ones (config130 : V130.config) (config100 : V100.config) :
  (NoDup (Life130.uniqueEntityIds config130) /\
   forall id, id ∈ Life130.uniqueEntityIds config130 <->
     id <> ""%string /\
     Property.named_by config130.(V130.sources) config130.(V130.net_metering_) id) /\
  (NoDup (Life100.uniqueEntityIds config100) /\
   forall id, id ∈ Life100.uniqueEntityIds config100 <->
     id <> ""%string /\
     Property.named_by config100.(V100.sources) config100.(V100.net_metering_) id).
Proof.
  split; [apply uniqueEntityIds_spec_v130|apply uniqueEntityIds_spec_v100].
Qed.

End RequestedIds.

(** * What a table reads *)

Section Footprint.

Variable memberText : string -> string.
Variable run : engine.
Variable toLocaleString : number -> number -> string.

Lemma key_cases (o : option string) :
  key o = "undefined"%string \/ key o = ""%string \/ (o = Some (key o) /\ key o <> ""%string).
Proof.
  destruct o as [s|]; cbn; [|auto].
  destruct (String.eqb_spec s ""); auto.
Qed.

Lemma getValue_agree_v130 (data data' : gmap string number) (source : descriptor) :
  (forall k, k ∈ Property.read_keys source -> data !! k = data' !! k) ->
  V130._getValue data source = V130._getValue data' source.
Proof.
  unfold V130._getValue, Property.read_keys, V130.value_or_zero.
  destruct source.(s_calculate_from) as [cf|]; intros H.
  - rewrite (H (key cf.(cf_import))), (H (key cf.(cf_export))); [reflexivity| |];
      set_solver.
  - rewrite (H (key source.(s_entity))); [reflexivity|]. set_solver.
Qed.

Lemma row_of_agree_v130 (config : V130.config) (hass hass' : option states)
    (data data' : gmap string number) (acc : V130.totals) (source : descriptor) :
  V130._getValue data source = V130._getValue data' source ->
  (flag source.(s_show_cost) = true -> nonempty source.(s_rate_entity) = true ->
   V130.entity_state hass (key source.(s_rate_entity)) =
   V130.entity_state hass' (key source.(s_rate_entity))) ->
  V130.row_of memberText run toLocaleString config hass data acc source =
  V130.row_of memberText run toLocaleString config hass' data' acc source.
Proof.
  intros Hv Hs. unfold V130.row_of. rewrite Hv.
  destruct (flag source.(s_hide_if_zero) && _); [reflexivity|].
  unfold V130._calculateCost, V130.resolve_rate.
  destruct (flag source.(s_show_cost)); cbn [negb andb]; [|reflexivity].
  destruct (nonempty source.(s_rate_entity)); [|reflexivity].
  rewrite Hs by reflexivity. reflexivity.
Qed.

Lemma map_rows_agree_v130 (config : V130.config) (hass hass' : option states)
    (data data' : gmap string number) (l : list descriptor) (acc : V130.totals) :
  (forall source, source ∈ l ->
     V130._getValue data source = V130._getValue data' source /\
     (flag source.(s_show_cost) = true -> nonempty source.(s_rate_entity) = true ->
      V130.entity_state hass (key source.(s_rate_entity)) =
      V130.entity_state hass' (key source.(s_rate_entity)))) ->
  V130.map_rows memberText run toLocaleString config hass data acc l =
  V130.map_rows memberText run toLocaleString config hass' data' acc l.
Proof.
  revert acc. induction l as [|source l IH]; intros acc H; [reflexivity|].
  cbn [V130.map_rows].
  destruct (H source) as [Hv Hs]; [apply elem_of_cons; auto|].
  rewrite (row_of_agree_v130 config hass hass' data data' acc source Hv Hs).
  destruct (V130.row_of _ _ _ _ _ _ _ _) as [r acc1].
  rewrite IH; [reflexivity|]. intros s Hin. apply H, elem_of_cons. auto.
Qed.

Lemma net_metering_row_agree_v130 (config : V130.config) (hass hass' : option states)
    (data data' : gmap string number) (acc : V130.totals) (nm : net_metering) :
  (forall k, k ∈ Property.net_metering_keys (Some nm) -> data !! k = data' !! k) ->
  (nonempty nm.(nm_rate_entity) = true ->
   V130.entity_state hass (key nm.(nm_rate_entity)) =
   V130.entity_state hass' (key nm.(nm_rate_entity))) ->
  V130.net_metering_row toLocaleString config hass data acc nm =
  V130.net_metering_row toLocaleString config hass' data' acc nm.
Proof.
  intros Hd Hs. unfold V130.net_metering_row, V130.value_or_zero.
  rewrite (Hd (key nm.(nm_import_entity))), (Hd (key nm.(nm_export_entity)));
    [|cbn; set_solver..].
  destruct (nonempty nm.(nm_rate_entity)); [|reflexivity].
  rewrite Hs by reflexivity. reflexivity.
Qed.

Lemma buildRows_agree_v130 (config : V130.config) (hass hass' : option states)
    (data data' : gmap string number) :
  (forall source k, source ∈ config.(V130.sources) -> k ∈ Property.read_keys source ->
     data !! k = data' !! k) ->
  (forall k, k ∈ Property.net_metering_keys config.(V130.net_metering_) ->
     data !! k = data' !! k) ->
  (forall id,
     id ∈ Property.rate_entities config.(V130.sources) config.(V130.net_metering_) ->
     V130.entity_state hass id = V130.entity_state hass' id) ->
  V130.buildRows memberText run toLocaleString config hass data =
  V130.buildRows memberText run toLocaleString config hass' data'.
Proof.
  intros Hd Hn Hs. unfold V130.buildRows.
  rewrite (map_rows_agree_v130 config hass hass' data data').
  - destruct (V130.map_rows _ _ _ _ _ _ _ _) as [mapped acc].
    destruct config.(V130.net_metering_) as [nm|] eqn:Hnm; [|reflexivity].
    rewrite (net_metering_row_agree_v130 config hass hass' data data'); [reflexivity| |].
    + exact Hn.
    + intros Hne. apply Hs. unfold Property.rate_entities.
      apply elem_of_app. right. unfold push_if. rewrite Hne. set_solver.
  - intros source Hin. split.
    + apply getValue_agree_v130. intros k. apply Hd. exact Hin.
    + intros Hshow Hne. apply Hs. unfold Property.rate_entities.
      apply elem_of_app. left. apply list_elem_of_In, in_flat_map.
      exists source. split; [apply list_elem_of_In; exact Hin|].
      rewrite Hshow. unfold push_if. rewrite Hne. left. reflexivity.
Qed.

Lemma getValue_agree_v100 (data data' : gmap string V100.entry) (source : descriptor) :
  (forall k, k ∈ Property.read_keys source ->
     V100.e_value <$> data !! k = V100.e_value <$> data' !! k) ->
  V100._getValue data source = V100._getValue data' source.
Proof.
  assert (Hv : forall k,
             V100.e_value <$> data !! key k = V100.e_value <$> data' !! key k ->
             V100.value_or_zero data k = V100.value_or_zero data' k).
  { intros k H. unfold V100.value_or_zero.
    destruct (data !! key k) as [e|], (data' !! key k) as [e'|]; cbn in H;
      try discriminate; [|reflexivity].
    injection H as ->. reflexivity. }
  unfold V100._getValue, Property.read_keys.
  destruct source.(s_calculate_from) as [cf|]; intros H.
  - rewrite (Hv cf.(cf_import)), (Hv cf.(cf_export)); [reflexivity| |];
      apply H; set_solver.
  - apply Hv, H. set_solver.
Qed.

Lemma row_of_agree_v100 (config : V100.config) (hass hass' : option states)
    (data data' : gmap string V100.entry) (acc : V100.totals) (source : descriptor) :
  V100._getValue data source = V100._getValue data' source ->
  (flag source.(s_show_cost) = true -> nonempty source.(s_rate_entity) = true ->
   V100.entity_state hass (key source.(s_rate_entity)) =
   V100.entity_state hass' (key source.(s_rate_entity))) ->
  V100.row_of run toLocaleString config hass data acc source =
  V100.row_of run toLocaleString config hass' data' acc source.
Proof.
  intros Hv Hs. unfold V100.row_of. rewrite Hv.
  destruct (flag source.(s_hide_if_zero) && _); [reflexivity|].
  unfold V100._calculateCost, V100.resolve_rate.
  destruct (flag source.(s_show_cost)); cbn [negb andb]; [|reflexivity].
  destruct (nonempty source.(s_rate_entity)); [|reflexivity].
  rewrite Hs by reflexivity. reflexivity.
Qed.

Lemma map_rows_agree_v100 (config : V100.config) (hass hass' : option states)
    (data data' : gmap string V100.entry) (l : list descriptor) (acc : V100.totals) :
  (forall source, source ∈ l ->
     V100._getValue data source = V100._getValue data' source /\
     (flag source.(s_show_cost) = true -> nonempty source.(s_rate_entity) = true ->
      V100.entity_state hass (key source.(s_rate_entity)) =
      V100.entity_state hass' (key source.(s_rate_entity)))) ->
  V100.map_rows run toLocaleString config hass data acc l =
  V100.map_rows run toLocaleString config hass' data' acc l.
Proof.
  revert acc. induction l as [|source l IH]; intros acc H; [reflexivity|].
  cbn [V100.map_rows].
  destruct (H source) as [Hv Hs]; [apply elem_of_cons; auto|].
  rewrite (row_of_agree_v100 config hass hass' data data' acc source Hv Hs).
  destruct (V100.row_of _ _ _ _ _ _ _) as [r acc1].
  rewrite IH; [reflexivity|]. intros s Hin. apply H, elem_of_cons. auto.
Qed.

Lemma calculateNetMetering_agree_v100 (hass hass' : option states)
    (data data' : gmap string V100.entry) (nm : net_metering) :
  (forall k, k ∈ Property.net_metering_keys (Some nm) ->
     V100.e_value <$> data !! k = V100.e_value <$> data' !! k) ->
  (nonempty nm.(nm_rate_entity) = true ->
   V100.entity_state hass (key nm.(nm_rate_entity)) =
   V100.entity_state hass' (key nm.(nm_rate_entity))) ->
  V100._calculateNetMetering hass data nm = V100._calculateNetMetering hass' data' nm.
Proof.
  intros Hd Hs.
  assert (Hv : forall k, k ∈ Property.net_metering_keys (Some nm) ->
             forall o, key o = k -> V100.value_or_zero data o = V100.value_or_zero data' o).
  { intros k Hk o <-. specialize (Hd _ Hk). unfold V100.value_or_zero.
    destruct (data !! key o) as [e|], (data' !! key o) as [e'|]; cbn in Hd;
      try discriminate; [|reflexivity].
    injection Hd as ->. reflexivity. }
  unfold V100._calculateNetMetering.
  rewrite (Hv (key nm.(nm_import_entity))) by (cbn; set_solver).
  rewrite (Hv (key nm.(nm_export_entity))) by (cbn; set_solver).
  destruct (nonempty nm.(nm_rate_entity)); [|reflexivity].
  rewrite Hs by reflexivity. reflexivity.
Qed.

Lemma buildRows_agree_v100 (config : V100.config) (hass hass' : option states)
    (data data' : gmap string V100.entry) :
  (forall source k, source ∈ config.(V100.sources) -> k ∈ Property.read_keys source ->
     V100.e_value <$> data !! k = V100.e_value <$> data' !! k) ->
  (forall k, k ∈ Property.net_metering_keys config.(V100.net_metering_) ->
     V100.e_value <$> data !! k = V100.e_value <$> data' !! k) ->
  (forall id,
     id ∈ Property.rate_entities config.(V100.sources) config.(V100.net_metering_) ->
     V100.entity_state hass id = V100.entity_state hass' id) ->
  V100.buildRows run toLocaleString config hass data =
  V100.buildRows run toLocaleString config hass' data'.
Proof.
  intros Hd Hn Hs. unfold V100.buildRows.
  rewrite (map_rows_agree_v100 config hass hass' data data').
  - destruct (V100.map_rows _ _ _ _ _ _ _) as [mapped acc].
    destruct config.(V100.net_metering_) as [nm|] eqn:Hnm; [|reflexivity].
    rewrite (calculateNetMetering_agree_v100 hass hass' data data'); [reflexivity| |].
    + exact Hn.
    + intros Hne. apply Hs. unfold Property.rate_entities.
      apply elem_of_app. right. unfold push_if. rewrite Hne. set_solver.
  - intros source Hin. split.
    + apply getValue_agree_v100. intros k. apply Hd. exact Hin.
    + intros Hshow Hne. apply Hs. unfold Property.rate_entities.
      apply elem_of_app. left. apply list_elem_of_In, in_flat_map.
      exists source. split; [apply list_elem_of_In; exact Hin|].
      rewrite Hshow. unfold push_if. rewrite Hne. left. reflexivity.
Qed.

(** A key that a row or the net metering reads is a requested id, or one
    of the two keys that an id which is empty or absent stands for. *)
Lemma read_key_requested (sources : list descriptor) (nm : option net_metering)
    (k : string) :
  (exists source, source ∈ sources /\ k ∈ Property.read_keys source) \/
  k ∈ Property.net_metering_keys nm ->
  k = "undefined"%string \/ k = ""%string \/
  (k <> ""%string /\ Property.named_by sources nm k).
Proof.
  intros [(source & Hin & Hk)|Hk].
  - unfold Property.read_keys in Hk.
    destruct source.(s_calculate_from) as [cf|] eqn:Hcf.
    + apply elem_of_cons in Hk as [->|Hk];
        [|apply list_elem_of_singleton in Hk as ->].
      * destruct (key_cases cf.(cf_import)) as [?|[?|[H ?]]]; auto.
        right. right. split; [assumption|]. left. exists source.
        split; [exact Hin|]. right. exists cf. auto.
      * destruct (key_cases cf.(cf_export)) as [?|[?|[H ?]]]; auto.
        right. right. split; [assumption|]. left. exists source.
        split; [exact Hin|]. right. exists cf. auto.
    + apply list_elem_of_singleton in Hk as ->.
      destruct (key_cases source.(s_entity)) as [?|[?|[H ?]]]; auto.
      right. right. split; [assumption|]. left. exists source. auto.
  - destruct nm as [n|]; [|apply elem_of_nil in Hk; contradiction].
    cbn in Hk. apply elem_of_cons in Hk as [->|Hk];
      [|apply list_elem_of_singleton in Hk as ->].
    + destruct (key_cases n.(nm_import_entity)) as [?|[?|[H ?]]]; auto.
      right. right. split; [assumption|]. right. exists n. auto.
    + destruct (key_cases n.(nm_export_entity)) as [?|[?|[H ?]]]; auto.
      right. right. split; [assumption|]. right. exists n. auto.
Qed.

End Footprint.

Section FootprintTheorems.

Variable memberText : string -> string.
Variable run : engine.
Variable toLocaleString : number -> number -> string.

(** X2. The table of a card is decided by the data of the ids the card
    requests, and by what the data hold under the two keys that an empty
    and an absent id stand for, [""] and ["undefined"]: two sets of data
    that agree there give the same rows, net-metering row and total. In
    1.0.0 only the value of an entry counts, not the unit it carries. *)
Theorem table_reads_requested_data (config130 : V130.config) (config100 : V100.config)
    (hass : option states) (data130 data130' : gmap string number)
    (data100 data100' : gmap string V100.entry) :
  (forall id, id ∈ Life130.uniqueEntityIds config130 ++ [""; "undefined"]%string ->
     data130 !! id = data130' !! id) ->
  (forall id, id ∈ Life100.uniqueEntityIds config100 ++ [""; "undefined"]%string ->
     V100.e_value <$> data100 !! id = V100.e_value <$> data100' !! id) ->
  V130.buildRows memberText run toLocaleString config130 hass data130 =
    V130.buildRows memberText run toLocaleString config130 hass data130' /\
  V100.buildRows run toLocaleString config100 hass data100 =
    V100.buildRows run toLocaleString config100 hass data100'.
Proof.
  intros H130 H100.
  pose proof (uniqueEntityIds_spec_v130 config130) as [_ I130].
  pose proof (uniqueEntityIds_spec_v100 config100) as [_ I100].
  split.
  - apply buildRows_agree_v130; [| |reflexivity].
    + intros source k Hin Hk. apply H130, elem_of_app.
      destruct (read_key_requested config130.(V130.sources)
                  config130.(V130.net_metering_) k) as [->|[->|H]].
      * left. eauto.
      * right. apply elem_of_cons. right. apply elem_of_cons. auto.
      * right. apply elem_of_cons. auto.
      * left. apply I130. exact H.
    + intros k Hk. apply H130, elem_of_app.
      destruct (read_key_requested config130.(V130.sources)
                  config130.(V130.net_metering_) k) as [->|[->|H]].
      * right. exact Hk.
      * right. apply elem_of_cons. right. apply elem_of_cons. auto.
      * right. apply elem_of_cons. auto.
      * left. apply I130. exact H.
  - apply buildRows_agree_v100; [| |reflexivity].
    + intros source k Hin Hk. apply H100, elem_of_app.
      destruct (read_key_requested config100.(V100.sources)
                  config100.(V100.net_metering_) k) as [->|[->|H]].
      * left. eauto.
      * right. apply elem_of_cons. right. apply elem_of_cons. auto.
      * right. apply elem_of_cons. auto.
      * left. apply I100. exact H.
    + intros k Hk. apply H100, elem_of_app.
      destruct (read_key_requested config100.(V100.sources)
                  config100.(V100.net_metering_) k) as [->|[->|H]].
      * right. exact Hk.
      * right. apply elem_of_cons. right. apply elem_of_cons. auto.
      * right. apply elem_of_cons. auto.
      * left. apply I100. exact H.
Qed.

(** X3. Of [hass], a table reads the states of the rate entities only:
    those of the sources that show a cost, and that of the net metering.
    Two hosts that agree on them give the same table, in both versions. *)
Theorem table_reads_rate_entities (config130 : V130.config) (config100 : V100.config)
    (hass hass' : option states) (data130 : gmap string number)
    (data100 : gmap string V100.entry) :
  (forall id,
     id ∈ Property.rate_entities config130.(V130.sources) config130.(V130.net_metering_) ++
          Property.rate_entities config100.(V100.sources) config100.(V100.net_metering_) ->
     (hass ≫= (λ st, st !! id)) = (hass' ≫= (λ st, st !! id))) ->
  V130.buildRows memberText run toLocaleString config130 hass data130 =
    V130.buildRows memberText run toLocaleString config130 hass' data130 /\
  V100.buildRows run toLocaleString config100 hass data100 =
    V100.buildRows run toLocaleString config100 hass' data100.
Proof.
  intros H. split.
  - apply buildRows_agree_v130; [reflexivity..|].
    intros id Hid. apply H, elem_of_app. auto.
  - apply buildRows_agree_v100; [reflexivity..|].
    intros id Hid. apply H, elem_of_app. auto.
Qed.

End FootprintTheorems.

Lemma table_reads_requested_data_example :
  V130.buildRows native arith_engine plain_format metered130 home produced =
    V130.buildRows native arith_engine plain_format metered130 home produced_and_more /\
  V100.buildRows arith_engine plain_format metered100 home produced100 =
    V100.buildRows arith_engine plain_format metered100 home produced_and_more100.
Proof.
  apply (table_reads_requested_data native arith_engine plain_format).
  - intros id Hin. apply list_elem_of_In in Hin. vm_compute in Hin.
    destruct Hin as [<-|[<-|[<-|[]]]]; vm_compute; reflexivity.
  - intros id Hin. apply list_elem_of_In in Hin. vm_compute in Hin.
    destruct Hin as [<-|[<-|[<-|[]]]]; vm_compute; reflexivity.
Defined.

Lemma table_reads_rate_entities_example :
  V130.buildRows native arith_engine plain_format metered130 home produced =
    V130.buildRows native arith_engine plain_format metered130 home_and_more produced /\
  V100.buildRows arith_engine plain_format metered100 home produced100 =
    V100.buildRows arith_engine plain_format metered100 home_and_more produced100.
Proof.
  apply (table_reads_rate_entities native arith_engine plain_format).
  intros id Hin. apply list_elem_of_In in Hin. vm_compute in Hin.
  destruct Hin as [<-|[<-|[]]]; vm_compute; reflexivity.
Defined.

(** * The life cycle of the element *)

Section LifeCycle130.

Variable memberText : string -> string.
Variable run : engine.
Variable toLocaleString : number -> number -> string.
Variable toLowerCase : string -> string.
Variable isDate : string -> bool.

Local Abbreviation render := (Life130.render memberText run toLocaleString).
Local Abbreviation _updateData :=
  (Life130._updateData memberText run toLocaleString toLowerCase isDate).
Local Abbreviation step := (Life130.step memberText run toLocaleString toLowerCase isDate).
Local Abbreviation after := (Life130.after memberText run toLocaleString toLowerCase isDate).

Lemma quiet_console (log : list console_event) : Property.quiet (Console <$> log).
Proof. apply Forall_fmap, Forall_true. intros e. exact I. Qed.

Lemma quiet_app (l k : list output) :
  Property.quiet l -> Property.quiet k -> Property.quiet (l ++ k).
Proof. apply Forall_app_2. Qed.

Lemma render_eq_v130 (this : Life130.element) :
  exists v log,
    render this =
    {| Life130._config := this.(Life130._config);
       Life130._hass := this.(Life130._hass);
       Life130._energyData := this.(Life130._energyData);
       Life130._unsubscribe := this.(Life130._unsubscribe);
       Life130._dateRange := this.(Life130._dateRange);
       Life130._initialized := this.(Life130._initialized);
       Life130.shadow := v;
       Life130.out := this.(Life130.out) ++ (Console <$> log) |}.
Proof.
  destruct this as [config hass data u r i v out].
  unfold Life130.render, V130.render, Life130.of_card, Life130.to_card.
  cbn. destruct config as [config|]; cbn.
  - destruct (V130.buildRows _ _ _ _ _ _) as [t log]. cbn. eauto.
  - exists V130.Loading, []. reflexivity.
Qed.

(** What [_updateData] does before it awaits: nothing but a console line
    at most; or it empties the data and renders; or it calls [callWS] with
    the ids of the configuration, which are not none. *)
Lemma updateData_eq_v130 (this : Life130.element) :
  exists data v l,
    _updateData this =
    {| Life130._config := this.(Life130._config);
       Life130._hass := this.(Life130._hass);
       Life130._energyData := data;
       Life130._unsubscribe := this.(Life130._unsubscribe);
       Life130._dateRange := this.(Life130._dateRange);
       Life130._initialized := this.(Life130._initialized);
       Life130.shadow := v;
       Life130.out := this.(Life130.out) ++ l |} /\
    ((data = this.(Life130._energyData) /\ v = this.(Life130.shadow) /\
      Property.quiet l) \/
     (data = ∅ /\ Property.quiet l /\
      exists config, this.(Life130._config) = Some config /\
        Life130.uniqueEntityIds config = []) \/
     (data = this.(Life130._energyData) /\ v = this.(Life130.shadow) /\
      exists config hass range,
        this.(Life130._config) = Some config /\ this.(Life130._hass) = Some hass /\
        hass.(h_callWS) = true /\
        Life130.dateRange toLowerCase this = Returned range /\
        usable isDate range = true /\
        Life130.uniqueEntityIds config <> [] /\
        l = [CallWS (Life130.uniqueEntityIds config)])).
Proof.
  destruct this as [c h data u r i v out].
  unfold Life130._updateData. cbn [Life130._hass Life130._config].
  assert (Hstay : exists data' v' l,
            {| Life130._config := c; Life130._hass := h; Life130._energyData := data;
               Life130._unsubscribe := u; Life130._dateRange := r;
               Life130._initialized := i; Life130.shadow := v; Life130.out := out |} =
            {| Life130._config := c; Life130._hass := h; Life130._energyData := data';
               Life130._unsubscribe := u; Life130._dateRange := r;
               Life130._initialized := i; Life130.shadow := v';
               Life130.out := out ++ l |} /\
            data' = data /\ v' = v /\ Property.quiet l).
  { exists data, v, []. rewrite app_nil_r. split_and!; auto. constructor. }
  destruct Hstay as (data' & v' & l & Hstay & Hd & Hv & Hq).
  assert (Hleft : exists data' v' l,
            {| Life130._config := c; Life130._hass := h; Life130._energyData := data;
               Life130._unsubscribe := u; Life130._dateRange := r;
               Life130._initialized := i; Life130.shadow := v; Life130.out := out |} =
            {| Life130._config := c; Life130._hass := h; Life130._energyData := data';
               Life130._unsubscribe := u; Life130._dateRange := r;
               Life130._initialized := i; Life130.shadow := v';
               Life130.out := out ++ l |} /\
            (data' = data /\ v' = v /\ Property.quiet l \/
             (data' = ∅ /\ Property.quiet l /\
              exists config, c = Some config /\ Life130.uniqueEntityIds config = []) \/
             (data' = data /\ v' = v /\
              exists config hass range,
                c = Some config /\ h = Some hass /\ hass.(h_callWS) = true /\
                Life130.dateRange toLowerCase
                  {| Life130._config := c; Life130._hass := h;
                     Life130._energyData := data; Life130._unsubscribe := u;
                     Life130._dateRange := r; Life130._initialized := i;
                     Life130.shadow := v; Life130.out := out |} = Returned range /\
                usable isDate range = true /\
                Life130.uniqueEntityIds config <> [] /\
                l = [CallWS (Life130.uniqueEntityIds config)]))).
  { exists data', v', l. split; [exact Hstay|]. left. auto. }
  clear Hstay Hd Hv Hq data' v' l.
  destruct h as [hass|]; [destruct c as [config|]|]; try exact Hleft.
  destruct (Life130.dateRange toLowerCase _) as [range|e] eqn:Hr; [|exact Hleft].
  destruct (Life130.uniqueEntityIds config) as [|id ids] eqn:Hids.
  - match goal with |- context [Life130.render _ _ _ ?that] =>
      destruct (render_eq_v130 that) as (v' & log & ->) end.
    cbn. eexists _, _, _. split; [reflexivity|].
    right. left. split; [reflexivity|]. split; [apply quiet_console|]. eauto.
  - destruct hass.(h_callWS) eqn:Hws; [|exact Hleft].
    destruct (usable isDate range) eqn:Hu.
    + eexists _, _, _. split; [reflexivity|].
      right. right. split; [reflexivity|]. split; [reflexivity|].
      exists config, hass, range.
      split_and!; [reflexivity|reflexivity|exact Hws|reflexivity|exact Hu|
                   rewrite Hids; discriminate|rewrite Hids; reflexivity].
    + eexists _, _, _. split; [reflexivity|]. left.
      split_and!; auto. repeat constructor.
Qed.

Lemma subscriptions_app (l k : list output) :
  Property.subscriptions (l ++ k) =
  (Property.subscriptions l + Property.subscriptions k)%nat.
Proof. unfold Property.subscriptions. rewrite List.filter_app, length_app. reflexivity. Qed.

Lemma requests_app (l k : list output) :
  Property.requests (l ++ k) = Property.requests l ++ Property.requests k.
Proof. apply omap_app. Qed.

Lemma unsubscribed_app (l k : list output) :
  Property.unsubscribed (l ++ k) = Property.unsubscribed l ++ Property.unsubscribed k.
Proof. apply omap_app. Qed.

Lemma quiet_silent (l : list output) :
  Property.quiet l ->
  Property.subscriptions l = 0%nat /\ Property.requests l = [] /\
  Property.unsubscribed l = [].
Proof.
  induction 1 as [|o l Ho _ (IH1 & IH2 & IH3)]; [auto|].
  unfold Property.subscriptions, Property.requests, Property.unsubscribed in *.
  destruct o; try contradiction; cbn; auto.
Qed.

Lemma setConfig_eq_v130 (this : Life130.element) (config : raw_config) :
  exists stored v log,
    step this (SetConfig config) =
    {| Life130._config := stored;
       Life130._hass := this.(Life130._hass);
       Life130._energyData := this.(Life130._energyData);
       Life130._unsubscribe := this.(Life130._unsubscribe);
       Life130._dateRange := this.(Life130._dateRange);
       Life130._initialized := this.(Life130._initialized);
       Life130.shadow := v;
       Life130.out := this.(Life130.out) ++ (Console <$> log) |}.
Proof.
  destruct this as [c hass data u r i v out].
  unfold Life130.step, Life130.setConfig, V130.setConfig, Life130.to_card. cbn.
  assert (Hsame : exists stored v' log,
            {| Life130._config := c; Life130._hass := hass; Life130._energyData := data;
               Life130._unsubscribe := u; Life130._dateRange := r;
               Life130._initialized := i; Life130.shadow := v; Life130.out := out |} =
            {| Life130._config := stored; Life130._hass := hass;
               Life130._energyData := data; Life130._unsubscribe := u;
               Life130._dateRange := r; Life130._initialized := i;
               Life130.shadow := v'; Life130.out := out ++ (Console <$> log) |}).
  { exists c, v, []. cbn. rewrite app_nil_r. reflexivity. }
  destruct config.(c_sources) as [| |[|source l]]; try exact Hsame.
  unfold V130.render. cbn.
  destruct (V130.buildRows _ _ _ _ _ _) as [t log]. cbn. eauto.
Qed.

(** One event, on the parts of the element that the properties of a run
    speak of. *)
Lemma step_spec_v130 (this : Life130.element) (e : event) :
  exists l,
    (step this e).(Life130.out) = this.(Life130.out) ++ l /\
    (step this e).(Life130._initialized) =
      this.(Life130._initialized) || Property.connects e /\
    Property.subscriptions l =
      (if negb this.(Life130._initialized) && Property.connects e then 1 else 0)%nat /\
    (forall ids, ids ∈ Property.requests l ->
       ids <> [] /\ exists config, ids = Life130.uniqueEntityIds config) /\
    match e with
    | Subscribed u =>
        (step this e).(Life130._unsubscribe) = Some u /\ Property.unsubscribed l = []
    | Disconnected =>
        (step this e).(Life130._unsubscribe) = None /\
        Property.unsubscribed l = option_list this.(Life130._unsubscribe)
    | _ =>
        (step this e).(Life130._unsubscribe) = this.(Life130._unsubscribe) /\
        Property.unsubscribed l = []
    end /\
    ((step this e).(Life130._energyData) = this.(Life130._energyData) \/
     (step this e).(Life130._energyData) = ∅ \/
     exists s, e = Fetched (Some (Resolved (Some s))) /\
       (step this e).(Life130._energyData) = V130._processStatistics s).
Proof.
  assert (Hupdate : forall that : Life130.element,
    exists l,
      (_updateData that).(Life130.out) = that.(Life130.out) ++ l /\
      Property.subscriptions l = 0%nat /\
      (_updateData that).(Life130._initialized) = that.(Life130._initialized) /\
      (forall ids, ids ∈ Property.requests l ->
         ids <> [] /\ exists config, ids = Life130.uniqueEntityIds config) /\
      (_updateData that).(Life130._unsubscribe) = that.(Life130._unsubscribe) /\
      Property.unsubscribed l = [] /\
      ((_updateData that).(Life130._energyData) = that.(Life130._energyData) \/
       (_updateData that).(Life130._energyData) = ∅)).
  { intros that.
    destruct (updateData_eq_v130 that) as (data & v & l & -> & H). exists l. cbn.
    destruct H as [(-> & -> & Hq)|[(-> & Hq & _)|
      (-> & -> & config & hass & range & Hc & _ & _ & _ & _ & Hne & ->)]].
    - destruct (quiet_silent l Hq) as (-> & Hr & ->). rewrite Hr.
      split_and!; auto; intros ids Hin; apply elem_of_nil in Hin; contradiction.
    - destruct (quiet_silent l Hq) as (-> & Hr & ->). rewrite Hr.
      split_and!; auto; intros ids Hin; apply elem_of_nil in Hin; contradiction.
    - split_and!; auto. intros ids Hin. cbn in Hin.
      apply list_elem_of_singleton in Hin as ->. eauto. }
  destruct e as [config|hass|u|message|msg|a|].
  - destruct (setConfig_eq_v130 this config) as (stored & v & log & ->).
    exists (Console <$> log). cbn.
    destruct (quiet_silent _ (quiet_console log)) as (-> & -> & ->).
    rewrite orb_false_r, andb_false_r.
    split_and!; auto; intros ids Hin; apply elem_of_nil in Hin; contradiction.
  - cbn [Life130.step]. unfold Life130.set_hass.
    assert (Hconnects : Property.connects (SetHass hass) =
                        default false (h_connection <$> hass))
      by (destruct hass; reflexivity).
    rewrite Hconnects. clear Hconnects.
    change (Life130.set_hass_ hass this).(Life130._initialized)
      with this.(Life130._initialized).
    destruct (negb this.(Life130._initialized)
              && default false (h_connection <$> hass)) eqn:Hcond.
    + apply andb_true_iff in Hcond as [Hi Hconn].
      destruct hass as [hass|]; [|discriminate]. cbn in Hconn.
      apply negb_true_iff in Hi.
      unfold Life130._subscribeToEnergyDate. cbn [Life130.set_initialized
        Life130.set_hass_ Life130._hass]. rewrite Hconn.
      destruct (Hupdate (Life130.emit [SubscribeMessage]
                  (Life130.set_initialized true (Life130.set_hass_ (Some hass) this))))
        as (l & Ho & Hs & Hinit & Hr & Hu & Hun & Hd).
      exists (SubscribeMessage :: l). rewrite Ho, Hinit, Hu, Hi.
      destruct Hd as [Hd|Hd]; rewrite Hd; cbn; rewrite Hconn;
        (rewrite <- app_assoc; split; [reflexivity|]; split; [reflexivity|]; split;
         [unfold Property.subscriptions in *; cbn; rewrite Hs; reflexivity|
          split; [exact Hr|]; split; [auto|]; auto]).
    + destruct (Hupdate (Life130.set_hass_ hass this))
        as (l & Ho & Hs & Hinit & Hr & Hu & Hun & Hd).
      exists l. rewrite Ho, Hinit, Hu, Hs.
      assert (Hi : this.(Life130._initialized) =
                   this.(Life130._initialized) || default false (h_connection <$> hass)).
      { destruct this.(Life130._initialized); [reflexivity|]. cbn in Hcond.
        rewrite Hcond. reflexivity. }
      destruct Hd as [Hd|Hd]; rewrite Hd; cbn; auto 10.
  - exists [Console (Debug "[Energy Card] Successfully subscribed to energy date selection")].
    cbn. rewrite orb_false_r, andb_false_r.
    split_and!; auto; intros ids Hin; apply elem_of_nil in Hin; contradiction.
  - cbn [Life130.step]. unfold Life130.subscribe_failed.
    cbn [Property.connects]. rewrite orb_false_r, andb_false_r.
    destruct (Life130._getConfiguredPeriod _ _) as [p|err].
    + match goal with |- context [_updateData ?that] =>
        destruct (Hupdate that) as (l & Ho & Hs & Hinit & Hr & Hu & Hun & Hd) end.
      eexists (Warn _ message :: l). rewrite Ho, Hinit, Hu.
      destruct Hd as [Hd|Hd]; rewrite Hd; cbn;
        (rewrite <- app_assoc; split; [reflexivity|]; split; [reflexivity|];
         split; [exact Hs|]; split; [exact Hr|]; split; [auto|]; auto).
    + eexists [Warn _ message]. cbn.
      split_and!; auto; intros ids Hin; apply elem_of_nil in Hin; contradiction.
  - cbn [Life130.step]. unfold Life130.date_selection.
    match goal with |- context [_updateData ?that] =>
      destruct (Hupdate that) as (l & Ho & Hs & Hinit & Hr & Hu & Hun & Hd) end.
    eexists (Console _ :: Console _ :: l). rewrite Ho, Hinit, Hu.
    cbn [Property.connects]. rewrite orb_false_r, andb_false_r.
    destruct Hd as [Hd|Hd]; rewrite Hd; cbn;
      (rewrite <- !app_assoc; split; [reflexivity|]; split; [reflexivity|];
       split; [exact Hs|]; split; [exact Hr|]; split; [auto|]; auto).
  - cbn [Life130.step]. unfold Life130.fetched.
    destruct (Life130._fetchStatistics a) as [log statistics] eqn:Hf.
    match goal with |- context [Life130.render _ _ _ ?that] =>
      destruct (render_eq_v130 that) as (v & log' & ->) end.
    exists ((Console <$> log) ++ (Console <$> log')). cbn.
    rewrite <- app_assoc. split; [reflexivity|].
    destruct (quiet_silent _ (quiet_app _ _ (quiet_console log) (quiet_console log')))
      as (-> & -> & ->).
    rewrite orb_false_r, andb_false_r.
    split; [reflexivity|]. split; [reflexivity|].
    split; [intros ids Hin; apply elem_of_nil in Hin; contradiction|].
    split; [auto|].
    destruct a as [[[s|]|e]|]; cbn in Hf; injection Hf as <- <-; cbn.
    + right. right. eauto.
    + right. left. apply fmap_empty.
    + right. left. apply fmap_empty.
    + right. left. apply fmap_empty.
  - cbn [Life130.step]. unfold Life130.disconnectedCallback.
    cbn [Property.connects]. rewrite orb_false_r, andb_false_r.
    destruct this.(Life130._unsubscribe) as [u|] eqn:Hu.
    + exists [Unsubscribe u]. cbn.
      split_and!; auto; intros ids Hin; apply elem_of_nil in Hin; contradiction.
    + exists []. rewrite app_nil_r. cbn.
      split_and!; auto; intros ids Hin; apply elem_of_nil in Hin; contradiction.
Qed.

Lemma after_snoc_v130 (events : list event) (e : event) :
  after (events ++ [e]) = step (after events) e.
Proof. unfold Life130.after. rewrite fold_left_app. reflexivity. Qed.

End LifeCycle130.

Section LifeCycle100.

Variable memberText : string -> string.
Variable run : engine.
Variable toLocaleString : number -> number -> string.
Variable isDate : string -> bool.

Local Abbreviation render := (Life100.render run toLocaleString).
Local Abbreviation _updateData := (Life100._updateData run toLocaleString isDate).
Local Abbreviation step := (Life100.step run toLocaleString isDate).
Local Abbreviation after := (Life100.after run toLocaleString isDate).

Lemma render_eq_v100 (this : Life100.element) :
  exists v log,
    render this =
    {| Life100._config := this.(Life100._config);
       Life100._hass := this.(Life100._hass);
       Life100._energyData := this.(Life100._energyData);
       Life100._unsubscribe := this.(Life100._unsubscribe);
       Life100._dateRange := this.(Life100._dateRange);
       Life100.shadow := v;
       Life100.out := this.(Life100.out) ++ (Console <$> log) |}.
Proof.
  destruct this as [config hass data u r v out].
  unfold Life100.render, V100.render, Life100.of_card, Life100.to_card.
  cbn. destruct config as [config|]; cbn.
  - destruct (V100.buildRows _ _ _ _ _) as [t log]. cbn. eauto.
  - exists v, []. reflexivity.
Qed.

Lemma updateData_eq_v100 (this : Life100.element) :
  exists v l,
    _updateData this =
    {| Life100._config := this.(Life100._config);
       Life100._hass := this.(Life100._hass);
       Life100._energyData := this.(Life100._energyData);
       Life100._unsubscribe := this.(Life100._unsubscribe);
       Life100._dateRange := this.(Life100._dateRange);
       Life100.shadow := v;
       Life100.out := this.(Life100.out) ++ l |} /\
    (Property.quiet l \/
     (v = this.(Life100.shadow) /\
      exists config hass,
        this.(Life100._config) = Some config /\ this.(Life100._hass) = Some hass /\
        hass.(h_callWS) = true /\
        usable isDate (Life100.dateRange this) = true /\
        Life100.uniqueEntityIds config <> [] /\
        l = [CallWS (Life100.uniqueEntityIds config)])).
Proof.
  unfold Life100._updateData.
  destruct this.(Life100._hass) as [hass|] eqn:Hh;
    [destruct this.(Life100._config) as [config|] eqn:Hc|].
  - destruct (Life100.uniqueEntityIds config) as [|id ids] eqn:Hids.
    + destruct (render_eq_v100 this) as (v & log & ->).
      rewrite Hh, Hc. eexists _, _. split; [reflexivity|].
      left. apply quiet_console.
    + destruct hass.(h_callWS) eqn:Hws.
      * destruct (usable isDate (Life100.dateRange this)) eqn:Hu.
        -- destruct this. cbn in *. subst. eexists _, _. split; [reflexivity|].
           right. split; [reflexivity|].
           eexists _, _. rewrite Hids. repeat split; eauto; discriminate.
        -- destruct this. cbn in *. subst. eexists _, _. split; [reflexivity|].
           left. repeat constructor.
      * destruct this. cbn in *. subst. eexists _, _. rewrite app_nil_r.
        split; [reflexivity|]. left. constructor.
  - destruct this. cbn in *. subst. eexists _, _. rewrite app_nil_r.
    split; [reflexivity|]. left. constructor.
  - destruct this. cbn in *. subst. eexists _, _. rewrite app_nil_r.
    split; [reflexivity|]. left. constructor.
Qed.

Lemma setConfig_eq_v100 (this : Life100.element) (config : raw_config) :
  exists stored v log,
    step this (SetConfig config) =
    {| Life100._config := stored;
       Life100._hass := this.(Life100._hass);
       Life100._energyData := this.(Life100._energyData);
       Life100._unsubscribe := this.(Life100._unsubscribe);
       Life100._dateRange := this.(Life100._dateRange);
       Life100.shadow := v;
       Life100.out := this.(Life100.out) ++ (Console <$> log) |}.
Proof.
  destruct this as [c hass data u r v out].
  unfold Life100.step, Life100.setConfig, V100.setConfig, Life100.to_card. cbn.
  assert (Hsame : exists stored v' log,
            {| Life100._config := c; Life100._hass := hass; Life100._energyData := data;
               Life100._unsubscribe := u; Life100._dateRange := r;
               Life100.shadow := v; Life100.out := out |} =
            {| Life100._config := stored; Life100._hass := hass;
               Life100._energyData := data; Life100._unsubscribe := u;
               Life100._dateRange := r;
               Life100.shadow := v'; Life100.out := out ++ (Console <$> log) |}).
  { exists c, v, []. cbn. rewrite app_nil_r. reflexivity. }
  destruct config.(c_sources) as [| |l]; try exact Hsame.
  unfold V100.render. cbn.
  destruct (V100.buildRows _ _ _ _ _) as [t log]. cbn. eauto.
Qed.

Lemma step_spec_v100 (this : Life100.element) (e : event) :
  exists l,
    (step this e).(Life100.out) = this.(Life100.out) ++ l /\
    Property.subscriptions l =
      (if bool_decide (this.(Life100._unsubscribe) = None) && Property.connects e
       then 1 else 0)%nat /\
    (forall ids, ids ∈ Property.requests l ->
       ids <> [] /\ exists config, ids = Life100.uniqueEntityIds config) /\
    match e with
    | Subscribed u =>
        (step this e).(Life100._unsubscribe) = Some u /\ Property.unsubscribed l = []
    | Disconnected =>
        (step this e).(Life100._unsubscribe) = None /\
        Property.unsubscribed l = option_list this.(Life100._unsubscribe)
    | _ =>
        (step this e).(Life100._unsubscribe) = this.(Life100._unsubscribe) /\
        Property.unsubscribed l = []
    end /\
    ((step this e).(Life100._energyData) = this.(Life100._energyData) \/
     (step this e).(Life100._energyData) = ∅ \/
     exists s, e = Fetched (Some (Resolved (Some s))) /\
       (step this e).(Life100._energyData) = V100._processStatistics s).
Proof.
  assert (Hupdate : forall that : Life100.element,
    exists l,
      (_updateData that).(Life100.out) = that.(Life100.out) ++ l /\
      Property.subscriptions l = 0%nat /\
      (forall ids, ids ∈ Property.requests l ->
         ids <> [] /\ exists config, ids = Life100.uniqueEntityIds config) /\
      (_updateData that).(Life100._unsubscribe) = that.(Life100._unsubscribe) /\
      Property.unsubscribed l = [] /\
      (_updateData that).(Life100._energyData) = that.(Life100._energyData)).
  { intros that.
    destruct (updateData_eq_v100 that) as (v & l & -> & H). exists l. cbn.
    destruct H as [Hq|(-> & config & hass & Hc & _ & _ & _ & Hne & ->)].
    - destruct (quiet_silent l Hq) as (-> & Hr & ->). rewrite Hr.
      split_and!; auto. intros ids Hin. apply elem_of_nil in Hin. contradiction.
    - split_and!; auto. intros ids Hin. cbn in Hin.
      apply list_elem_of_singleton in Hin as ->. eauto. }
  destruct e as [config|hass|u|message|msg|a|].
  - destruct (setConfig_eq_v100 this config) as (stored & v & log & ->).
    exists (Console <$> log). cbn.
    destruct (quiet_silent _ (quiet_console log)) as (-> & -> & ->).
    rewrite andb_false_r.
    split_and!; auto; intros ids Hin; apply elem_of_nil in Hin; contradiction.
  - cbn [Life100.step]. unfold Life100.set_hass.
    change (Life100.set_hass_ hass this).(Life100._unsubscribe)
      with this.(Life100._unsubscribe).
    destruct this.(Life100._unsubscribe) as [u|] eqn:Hunsub.
    + destruct (Hupdate (Life100.set_hass_ hass this))
        as (l & Ho & Hs & Hr & Hu & Hun & Hd).
      exists l. rewrite Ho, Hu, Hs, Hd. cbn. rewrite Hunsub. auto 10.
    + unfold Life100._subscribeToEnergyDate.
      cbn [Life100.set_hass_ Life100._hass].
      destruct hass as [hass|]; [destruct hass.(h_connection) eqn:Hconn|].
      * destruct (Hupdate (Life100.emit [SubscribeMessage]
                    (Life100.set_hass_ (Some hass) this)))
          as (l & Ho & Hs & Hr & Hu & Hun & Hd).
        exists (SubscribeMessage :: l). rewrite Ho, Hu, Hd. cbn.
        rewrite Hconn, Hunsub, <- app_assoc.
        split; [reflexivity|]. split;
          [unfold Property.subscriptions in *; cbn; rewrite Hs; reflexivity|].
        auto.
      * destruct (Hupdate (Life100.set_hass_ (Some hass) this))
          as (l & Ho & Hs & Hr & Hu & Hun & Hd).
        exists l. rewrite Ho, Hu, Hs, Hd. cbn. rewrite Hconn, Hunsub. auto 10.
      * destruct (Hupdate (Life100.set_hass_ None this))
          as (l & Ho & Hs & Hr & Hu & Hun & Hd).
        exists l. rewrite Ho, Hu, Hs, Hd. cbn. rewrite Hunsub. auto 10.
  - exists []. cbn. rewrite app_nil_r, andb_false_r.
    split_and!; auto; intros ids Hin; apply elem_of_nil in Hin; contradiction.
  - cbn [Life100.step]. unfold Life100.subscribe_failed.
    match goal with |- context [_updateData ?that] =>
      destruct (Hupdate that) as (l & Ho & Hs & Hr & Hu & Hun & Hd) end.
    eexists (Warn _ message :: l). rewrite Ho, Hu, Hd.
    cbn [Property.connects]. rewrite andb_false_r. cbn.
    rewrite <- app_assoc. split; [reflexivity|].
    split; [exact Hs|]. split; [exact Hr|]. auto.
  - cbn [Life100.step]. unfold Life100.date_selection.
    cbn [Property.connects]. rewrite andb_false_r.
    case_bool_decide.
    + match goal with |- context [_updateData ?that] =>
        destruct (Hupdate that) as (l & Ho & Hs & Hr & Hu & Hun & Hd) end.
      exists l. rewrite Ho, Hu, Hd. cbn. auto 10.
    + exists []. rewrite app_nil_r.
      split_and!; auto; intros ids Hin; apply elem_of_nil in Hin; contradiction.
  - cbn [Life100.step]. unfold Life100.fetched.
    cbn [Property.connects]. rewrite andb_false_r.
    destruct (Life100._fetchStatistics a) as [log statistics] eqn:Hf.
    destruct statistics as [statistics|].
    + match goal with |- context [Life100.render _ _ ?that] =>
        destruct (render_eq_v100 that) as (v & log' & ->) end.
      exists ((Console <$> log) ++ (Console <$> log')). cbn.
      rewrite <- app_assoc. split; [reflexivity|].
      destruct (quiet_silent _ (quiet_app _ _ (quiet_console log) (quiet_console log')))
        as (-> & -> & ->).
      split; [reflexivity|].
      split; [intros ids Hin; apply elem_of_nil in Hin; contradiction|].
      split; [auto|].
      destruct a as [[[s|]|e]|]; cbn in Hf; inversion Hf; subst.
      * right. right. eauto.
      * right. left. apply fmap_empty.
      * right. left. apply fmap_empty.
    + match goal with |- context [Life100.render _ _ ?that] =>
        destruct (render_eq_v100 that) as (v & log' & ->) end.
      eexists ((Console <$> log) ++ Console _ :: (Console <$> log')). cbn.
      rewrite <- !app_assoc. split; [reflexivity|].
      match goal with |- context [Property.subscriptions ?l] =>
        assert (Hq : Property.quiet l) end.
      { apply quiet_app; [apply quiet_console|].
        constructor; [exact I|apply quiet_console]. }
      destruct (quiet_silent _ Hq) as (-> & -> & ->).
      split; [reflexivity|].
      split; [intros ids Hin; apply elem_of_nil in Hin; contradiction|].
      auto.
  - cbn [Life100.step]. unfold Life100.disconnectedCallback.
    cbn [Property.connects]. rewrite andb_false_r.
    destruct this.(Life100._unsubscribe) as [u|] eqn:Hu.
    + exists [Unsubscribe u]. cbn.
      split_and!; auto; intros ids Hin; apply elem_of_nil in Hin; contradiction.
    + exists []. rewrite app_nil_r. cbn.
      split_and!; auto; intros ids Hin; apply elem_of_nil in Hin; contradiction.
Qed.

Lemma after_snoc_v100 (events : list event) (e : event) :
  after (events ++ [e]) = step (after events) e.
Proof. unfold Life100.after. rewrite fold_left_app. reflexivity. Qed.

End LifeCycle100.

(** * Runs of events *)

Section Runs.

Variable memberText : string -> string.
Variable run : engine.
Variable toLocaleString : number -> number -> string.
Variable toLowerCase : string -> string.
Variable isDate : string -> bool.

Local Abbreviation after130 := (Life130.after memberText run toLocaleString toLowerCase isDate).
Local Abbreviation after100 := (Life100.after run toLocaleString isDate).

Lemma connections_snoc (events : list event) (e : event) :
  Property.connections (events ++ [e]) =
  (Property.connections events + if Property.connects e then 1 else 0)%nat.
Proof.
  unfold Property.connections. rewrite List.filter_app, length_app. cbn.
  destruct (Property.connects e); reflexivity.
Qed.

Lemma handed_snoc (events : list event) (e : event) :
  Property.handed (events ++ [e]) =
  Property.handed events ++ match e with Subscribed u => [u] | _ => [] end.
Proof.
  unfold Property.handed. rewrite omap_app. f_equal. destruct e; reflexivity.
Qed.

Lemma subscriptions_run_v130 (events : list event) :
  Property.subscriptions (after130 events).(Life130.out) =
    Nat.min 1 (Property.connections events) /\
  (after130 events).(Life130._initialized) =
    negb (Property.connections events =? 0)%nat.
Proof.
  induction events as [|e events [IHs IHi]] using rev_ind; [split; reflexivity|].
  rewrite after_snoc_v130, connections_snoc.
  destruct (step_spec_v130 memberText run toLocaleString toLowerCase isDate (after130 events) e)
    as (l & Ho & Hi & Hs & _).
  rewrite Ho, Hi, subscriptions_app, Hs, IHs, IHi.
  destruct (Property.connections events) as [|n], (Property.connects e); cbn;
    split; try reflexivity; try lia.
Qed.

(** X4. The element of 1.3.0 subscribes to the date selection once, at
    the first assignment of a [hass] that has a connection, and never
    again: not at a later assignment, not after a failed subscription, not
    after [disconnectedCallback]. However the events of a run are ordered,
    the number of calls of [subscribeMessage] is [1] when such an
    assignment occurred and [0] otherwise. *)
Theorem subscribes_once_v130 (events : list event) :
  Property.subscriptions (after130 events).(Life130.out) =
  Nat.min 1 (Property.connections events).
Proof. apply subscriptions_run_v130. Qed.

(** X5. The element of 1.0.0 subscribes anew at every assignment of a
    [hass] with a connection for as long as no subscription has resolved:
    in a run without a resolved subscription there are as many calls of
    [subscribeMessage] as such assignments. *)
Theorem subscribes_at_every_update_v100 (events : list event) :
  Property.handed events = [] ->
  Property.subscriptions (after100 events).(Life100.out) = Property.connections events.
Proof.
  intros Hnone.
  assert (H : Property.subscriptions (after100 events).(Life100.out) =
              Property.connections events /\
              (after100 events).(Life100._unsubscribe) = None).
  { induction events as [|e events IH] using rev_ind; [split; reflexivity|].
    rewrite handed_snoc in Hnone. apply app_eq_nil in Hnone as [Hnone He].
    destruct (IH Hnone) as [IHs IHu].
    rewrite after_snoc_v100, connections_snoc.
    destruct (step_spec_v100 run toLocaleString isDate (after100 events) e)
      as (l & Ho & Hs & _ & Hu & _).
    rewrite Ho, subscriptions_app, Hs, IHs, IHu. cbn.
    split; [reflexivity|].
    destruct e; try discriminate; try (rewrite (proj1 Hu); exact IHu).
    exact (proj1 Hu). }
  apply H.
Qed.

Lemma requests_run_v130 (events : list event) (ids : list string) :
  ids ∈ Property.requests (after130 events).(Life130.out) ->
  ids <> [] /\ exists config, ids = Life130.uniqueEntityIds config.
Proof.
  revert ids. induction events as [|e events IH] using rev_ind.
  - intros k Hin. apply elem_of_nil in Hin. contradiction.
  - intros k. rewrite after_snoc_v130.
    destruct (step_spec_v130 memberText run toLocaleString toLowerCase isDate (after130 events) e)
      as (l & Ho & _ & _ & Hr & _).
    rewrite Ho, requests_app, elem_of_app. intros [Hin|Hin]; auto.
Qed.

Lemma requests_run_v100 (events : list event) (ids : list string) :
  ids ∈ Property.requests (after100 events).(Life100.out) ->
  ids <> [] /\ exists config, ids = Life100.uniqueEntityIds config.
Proof.
  revert ids. induction events as [|e events IH] using rev_ind.
  - intros k Hin. apply elem_of_nil in Hin. contradiction.
  - intros k. rewrite after_snoc_v100.
    destruct (step_spec_v100 run toLocaleString isDate (after100 events) e)
      as (l & Ho & _ & Hr & _).
    rewrite Ho, requests_app, elem_of_app. intros [Hin|Hin]; auto.
Qed.

(** X6. Every call of [callWS] that an element reaches, in any run of
    either version, asks for at least one id, for no id twice and never
    for the empty id. *)
Theorem requests_are_well_formed (events : list event) (ids : list string) :
  ids ∈ Property.requests (after130 events).(Life130.out) \/
  ids ∈ Property.requests (after100 events).(Life100.out) ->
  ids <> [] /\ NoDup ids /\ ""%string ∉ ids.
Proof.
  intros [Hin|Hin].
  - destruct (requests_run_v130 events ids Hin) as (Hne & config & ->).
    split; [exact Hne|].
    destruct (uniqueEntityIds_spec_v130 config) as [Hnd Hspec].
    split; [exact Hnd|]. intros Hempty. apply Hspec in Hempty as [Hempty _]. congruence.
  - destruct (requests_run_v100 events ids Hin) as (Hne & config & ->).
    split; [exact Hne|].
    destruct (uniqueEntityIds_spec_v100 config) as [Hnd Hspec].
    split; [exact Hnd|]. intros Hempty. apply Hspec in Hempty as [Hempty _]. congruence.
Qed.

(** X7. The data an element holds come from one answer of the recorder,
    whole, or are empty: at any point of any run they are the processed
    statistics of one of the answers that arrived, or there are none. The
    figures of two answers are never mixed. Both versions. *)
Theorem data_come_from_one_answer (events : list event) :
  (exists s, (after130 events).(Life130._energyData) = V130._processStatistics s /\
     (s = ∅ \/ Fetched (Some (Resolved (Some s))) ∈ events)) /\
  (exists s, (after100 events).(Life100._energyData) = V100._processStatistics s /\
     (s = ∅ \/ Fetched (Some (Resolved (Some s))) ∈ events)).
Proof.
  induction events as [|e events [(s130 & Hd130 & Hs130) (s100 & Hd100 & Hs100)]]
    using rev_ind.
  - split; exists ∅; (split; [symmetry; apply fmap_empty|auto]).
  - split.
    + rewrite after_snoc_v130.
      destruct (step_spec_v130 memberText run toLocaleString toLowerCase isDate (after130 events) e)
        as (l & _ & _ & _ & _ & _ & [Hd|[Hd|(s & -> & Hd)]]); rewrite Hd.
      * exists s130. split; [exact Hd130|]. rewrite elem_of_app. tauto.
      * exists ∅. split; [symmetry; apply fmap_empty|auto].
      * exists s. split; [reflexivity|]. right.
        apply elem_of_app. right. apply list_elem_of_singleton. reflexivity.
    + rewrite after_snoc_v100.
      destruct (step_spec_v100 run toLocaleString isDate (after100 events) e)
        as (l & _ & _ & _ & _ & [Hd|[Hd|(s & -> & Hd)]]); rewrite Hd.
      * exists s100. split; [exact Hd100|]. rewrite elem_of_app. tauto.
      * exists ∅. split; [symmetry; apply fmap_empty|auto].
      * exists s. split; [reflexivity|]. right.
        apply elem_of_app. right. apply list_elem_of_singleton. reflexivity.
Qed.

(** X8. An element calls only unsubscribe functions that subscriptions
    resolved with, each at most once and in the order in which they were
    handed over: the functions called in a run are a sublist of the
    functions handed over in it. Both versions. *)
Theorem unsubscribes_what_it_was_handed (events : list event) :
  Property.unsubscribed (after130 events).(Life130.out) `sublist_of`
    Property.handed events /\
  Property.unsubscribed (after100 events).(Life100.out) `sublist_of`
    Property.handed events.
Proof.
  assert (H : (Property.unsubscribed (after130 events).(Life130.out) ++
               option_list (after130 events).(Life130._unsubscribe))
                `sublist_of` Property.handed events /\
              (Property.unsubscribed (after100 events).(Life100.out) ++
               option_list (after100 events).(Life100._unsubscribe))
                `sublist_of` Property.handed events).
  { induction events as [|e events [IH130 IH100]] using rev_ind;
      [split; apply sublist_nil|].
    rewrite after_snoc_v130, after_snoc_v100, handed_snoc.
    destruct (step_spec_v130 memberText run toLocaleString toLowerCase isDate (after130 events) e)
      as (l & Ho & _ & _ & _ & Hu & _).
    destruct (step_spec_v100 run toLocaleString isDate (after100 events) e)
      as (l' & Ho' & _ & _ & Hu' & _).
    rewrite Ho, Ho', !unsubscribed_app.
    destruct e; destruct Hu as [-> ->], Hu' as [-> ->]; rewrite ?app_nil_r;
      try (split; assumption).
    - split; (apply sublist_app; [|reflexivity]).
      + apply sublist_app_l in IH130 as (k1 & k2 & -> & H1 & _).
        apply sublist_inserts_r. exact H1.
      + apply sublist_app_l in IH100 as (k1 & k2 & -> & H1 & _).
        apply sublist_inserts_r. exact H1. }
  destruct H as [H130 H100]. split.
  - apply sublist_app_l in H130 as (k1 & k2 & -> & H1 & _).
    apply sublist_inserts_r. exact H1.
  - apply sublist_app_l in H100 as (k1 & k2 & -> & H1 & _).
    apply sublist_inserts_r. exact H1.
Qed.

End Runs.

Lemma subscribes_at_every_update_example :
  Property.subscriptions
    (Life100.after arith_engine plain_format dated three_updates).(Life100.out) = 3%nat.
Proof.
  exact (subscribes_at_every_update_v100 arith_engine plain_format dated three_updates
           eq_refl).
Defined.

Lemma requests_are_well_formed_example :
  [ "solar"%string ] <> [] /\ NoDup [ "solar"%string ] /\ ""%string ∉ [ "solar"%string ].
Proof.
  apply (requests_are_well_formed native arith_engine plain_format id dated
           [ SetConfig {| c_title := None; c_show_header := None; c_show_total := None;
                          c_currency := None; c_decimal_places := None;
                          c_cost_decimal_places := None; c_period := None;
                          c_period_entity := None; c_sources := Sources [solar_raw];
                          c_net_metering := None |};
             SetHass (Some connected) ]).
  left. vm_compute. left.
Defined.

(** * The element between two answers *)

Section Elements.

Variable memberText : string -> string.
Variable run : engine.
Variable toLocaleString : number -> number -> string.
Variable toLowerCase : string -> string.
Variable isDate : string -> bool.







End Elements.

(** * Card size, stub configuration, configured period *)

Section Dashboard.

Variable memberText : string -> string.
Variable run : engine.
Variable toLocaleString : number -> number -> string.
Variable toLowerCase : string -> string.
Variable isDate : string -> bool.

Lemma setConfig_stored_v130 (this : Life130.element) (config : raw_config)
    (source : descriptor) (l : list descriptor) :
  config.(c_sources) = Sources (source :: l) ->
  exists after stored,
    Life130.setConfig memberText run toLocaleString config this = Done after /\
    after.(Life130._config) = Some stored /\
    stored.(V130.sources) = V130.normalize (source :: l) /\
    stored.(V130.net_metering_) = config.(c_net_metering) /\
    stored.(V130.decimal_places) = default 2%float config.(c_decimal_places).
Proof.
  intros H. unfold Life130.setConfig, V130.setConfig. rewrite H.
  unfold V130.render. cbn [V130._config].
  destruct (V130.buildRows _ _ _ _ _ _) as [t log].
  eexists _, _. split; [reflexivity|]. cbn. auto.
Qed.

Lemma setConfig_stored_v100 (this : Life100.element) (config : raw_config)
    (l : list descriptor) :
  config.(c_sources) = Sources l ->
  exists after stored,
    Life100.setConfig run toLocaleString config this = Done after /\
    after.(Life100._config) = Some stored /\
    stored.(V100.sources) = l /\
    stored.(V100.net_metering_) = config.(c_net_metering).
Proof.
  intros H. unfold Life100.setConfig, V100.setConfig. rewrite H.
  unfold V100.render. cbn [V100._config].
  destruct (V100.buildRows _ _ _ _ _) as [t log].
  eexists _, _. split; [reflexivity|]. cbn. auto.
Qed.

(** X10. The size a card reports is never below [2]. After a
    configuration with [n] sources was set, 1.3.0 reports [1 + n] (it
    refuses [n = 0]); 1.0.0 reports [1 + ceil(n / 2)], and [2] for
    [n = 0]. *)
Theorem card_size_counts_the_sources (this130 : Life130.element)
    (this100 : Life100.element) (config : raw_config) (l : list descriptor) :
  config.(c_sources) = Sources l ->
  (2 <= Life130.getCardSize this130 /\ 2 <= Life100.getCardSize this100) /\
  match Life130.setConfig memberText run toLocaleString config this130 with
  | Done after => Life130.getCardSize after = 1 + Z.of_nat (length l)
  | Threw _ _ => l = []
  end /\
  match Life100.setConfig run toLocaleString config this100 with
  | Done after =>
      Life100.getCardSize after = 1 + Z.max 1 ((Z.of_nat (length l) + 1) / 2)
  | Threw _ _ => False
  end.
Proof.
  intros H. split; [|split].
  - unfold Life130.getCardSize, Life100.getCardSize. split.
    + destruct this130.(Life130._config) as [c|]; [|cbn; lia].
      destruct (Z.eqb_spec (Z.of_nat (length c.(V130.sources))) 0); lia.
    + assert (Hhalf : forall rows, 1 <= rows -> 1 <= (rows + 1) / 2)
        by (intros rows Hrows; apply Z.div_le_lower_bound; lia).
      destruct this100.(Life100._config) as [c|].
      * destruct (Z.eqb_spec (Z.of_nat (length c.(V100.sources))) 0).
        -- specialize (Hhalf 1). lia.
        -- specialize (Hhalf (Z.of_nat (length c.(V100.sources)))). lia.
      * cbn [Z.eqb]. specialize (Hhalf 1). lia.
  - destruct l as [|source l].
    + unfold Life130.setConfig, V130.setConfig. rewrite H. reflexivity.
    + destruct (setConfig_stored_v130 this130 config source l H)
        as (after & stored & -> & Hc & Hs & _).
      unfold Life130.getCardSize. rewrite Hc, Hs. unfold V130.normalize.
      rewrite length_map. cbn [length]. 
      destruct (Z.eqb_spec (Z.of_nat (S (length l))) 0); lia.
  - destruct (setConfig_stored_v100 this100 config l H)
      as (after & stored & -> & Hc & Hs & _).
    unfold Life100.getCardSize. rewrite Hc, Hs.
    destruct l as [|source l]; [reflexivity|].
    destruct (Z.eqb_spec (Z.of_nat (length (source :: l))) 0) as [Hz|_];
      [cbn [length] in Hz; lia|].
    assert (1 <= (Z.of_nat (length (source :: l)) + 1) / 2)
      by (apply Z.div_le_lower_bound; cbn [length]; lia).
    lia.
Qed.

Lemma find_first {A} (f : A -> bool) (l : list A) :
  match List.find f l with
  | Some x =>
      exists before behind, l = before ++ x :: behind /\ f x = true /\
        Forall (fun y => f y = false) before
  | None => Forall (fun y => f y = false) l
  end.
Proof.
  induction l as [|a l IH]; cbn; [constructor|].
  destruct (f a) eqn:Ha.
  - exists [], l. auto.
  - destruct (List.find f l) as [x|].
    + destruct IH as (before & behind & -> & Hx & Hb).
      exists (a :: before), behind. auto.
    + constructor; assumption.
Qed.

(** X11. The stub configuration is one that [setConfig] accepts. In 1.3.0
    its one source is a solar source on the first key of [hass.states]
    that includes both [solar] and [energy], on no entity when there is no
    such key; the card then stores one source, reports the size [2], and
    asks the recorder for that entity alone, for nothing when there is
    none. In 1.0.0 the stub names [sensor.solar_energy_production], and
    the card asks for it. *)
Theorem stub_config_is_accepted (keys : list string) (this130 : Life130.element)
    (this100 : Life100.element) :
  (exists entity after stored,
     (match List.find Property.solar_energy keys with
      | Some e =>
          entity = e /\ e <> ""%string /\
          exists before behind, keys = before ++ e :: behind /\
            Property.solar_energy e = true /\
            Forall (fun k => Property.solar_energy k = false) before
      | None => entity = ""%string /\ Forall (fun k => Property.solar_energy k = false) keys
      end) /\
     Life130.setConfig memberText run toLocaleString (Life130.getStubConfig keys) this130 =
       Done after /\
     after.(Life130._config) = Some stored /\
     (s_entity <$> stored.(V130.sources)) = [Some entity] /\
     (s_label <$> stored.(V130.sources)) = [Some (Text "Solar Production")] /\
     Life130.getCardSize after = 2 /\
     Life130.uniqueEntityIds stored =
       (if String.eqb entity "" then [] else [entity])) /\
  (exists after stored,
     Life100.setConfig run toLocaleString Life100.getStubConfig this100 = Done after /\
     after.(Life100._config) = Some stored /\
     Life100.getCardSize after = 2 /\
     Life100.uniqueEntityIds stored = ["sensor.solar_energy_production"%string]).
Proof.
  split.
  - pose proof (find_first Property.solar_energy keys) as Hfind.
    unfold Life130.getStubConfig.
    change (fun e => includes e "solar" && includes e "energy")
      with Property.solar_energy.
    destruct (List.find Property.solar_energy keys) as [e|] eqn:Hf.
    + destruct Hfind as (before & behind & Hk & He & Hb).
      assert (Hne : e <> ""%string) by (intros ->; discriminate).
      exists e.
      match goal with |- context [Life130.setConfig _ _ _ ?c _] =>
        destruct (setConfig_stored_v130 this130 c _ [] eq_refl)
          as (after & stored & Ha & Hc & Hs & Hn & _) end.
      exists after, stored. split; [eauto 10|]. split; [exact Ha|].
      split; [exact Hc|]. unfold Life130.getCardSize, Life130.uniqueEntityIds,
        Life130.entityIds. rewrite Hc, Hs, Hn.
      assert (Heq : (e =? "")%string = false) by (apply String.eqb_neq; exact Hne).
      unfold Life130.source_ids, push_if, Set_values. cbn. rewrite !Heq. cbn.
      rewrite !Heq. cbn. rewrite ?Heq. auto.
    + exists ""%string.
      match goal with |- context [Life130.setConfig _ _ _ ?c _] =>
        destruct (setConfig_stored_v130 this130 c _ [] eq_refl)
          as (after & stored & Ha & Hc & Hs & Hn & _) end.
      exists after, stored. split; [auto|]. split; [exact Ha|].
      split; [exact Hc|]. unfold Life130.getCardSize, Life130.uniqueEntityIds,
        Life130.entityIds. rewrite Hc, Hs, Hn. cbn. auto.
  - destruct (setConfig_stored_v100 this100 Life100.getStubConfig _ eq_refl)
      as (after & stored & Ha & Hc & Hs & Hn).
    exists after, stored. split; [exact Ha|]. split; [exact Hc|].
    unfold Life100.getCardSize, Life100.uniqueEntityIds, Life100.entityIds.
    rewrite Hc, Hs, Hn. cbn. auto.
Qed.

Lemma stateMap_get_stands_for (k : string) :
  Life130.stateMap_get k =
  match Property.stands_for k with
  | Some name => Some (Period name)
  | None => if bool_decide (k ∈ inherited) then Some (Inherited k) else None
  end.
Proof.
  unfold Life130.stateMap_get, Life130.stateMap, Property.stands_for. cbn [table_get].
  rewrite (String.eqb_sym "today" k), (String.eqb_sym "yesterday" k),
    (String.eqb_sym "week" k), (String.eqb_sym "this_week" k),
    (String.eqb_sym "month" k), (String.eqb_sym "this_month" k),
    (String.eqb_sym "year" k), (String.eqb_sym "this_year" k).
  destruct (String.eqb k "today"); [reflexivity|].
  destruct (String.eqb k "yesterday"); [reflexivity|].
  destruct (String.eqb k "week"); [reflexivity|].
  destruct (String.eqb k "this_week"); [reflexivity|].
  destruct (String.eqb k "month"); [reflexivity|].
  destruct (String.eqb k "this_month"); [reflexivity|].
  destruct (String.eqb k "year"); [reflexivity|].
  destruct (String.eqb k "this_year"); reflexivity.
Qed.

Lemma stands_for_offered (k name : string) :
  Property.stands_for k = Some name -> name ∈ Property.period_names.
Proof.
  unfold Property.stands_for.
  repeat match goal with
         | |- (if ?b then _ else _) = _ -> _ => destruct b
         end;
    intros [= <-]; apply list_elem_of_In; cbn; auto 10.
Qed.

(** X12. The period an element of 1.3.0 works with. With a period entity
    that the states hold, it is the period that the state stands for, in
    lower case: one of the five periods the editor offers, [this_week],
    [this_month] and [this_year] standing for [week], [month] and [year];
    a state that stands for none leaves the period of the configuration
    ([today] when that is empty), unless it names, in lower case, a member
    of [Object.prototype], which is then returned in place of a period.
    With a period entity that the states do not hold, it is the period of
    the configuration; but when that entity names a member of
    [Object.prototype], reading the period throws, and an update of an
    element that holds no date range then does nothing at all: no view, no
    request. Without a period entity or without [hass], it is the period
    of the configuration. *)
Theorem configured_period_is_offered (this : Life130.element) (config : V130.config) :
  this.(Life130._config) = Some config ->
  let period := Life130._getConfiguredPeriod toLowerCase this in
  let configured := Returned (Period (or_text (Some config.(V130.period)) "today")) in
  match config.(V130.period_entity), this.(Life130._hass) with
  | Some entity, Some hass =>
      if String.eqb entity "" then period = configured
      else
        match hass.(h_states) !! entity with
        | Some state =>
            match Property.stands_for (toLowerCase state) with
            | Some name =>
                period = Returned (Period name) /\ name ∈ Property.period_names
            | None =>
                period =
                  if bool_decide (toLowerCase state ∈ inherited)
                  then Returned (Inherited (toLowerCase state))
                  else configured
            end
        | None =>
            if bool_decide (entity ∈ inherited) then
              period = Thrown "TypeError" /\
              (this.(Life130._dateRange) = None ->
               Life130._updateData memberText run toLocaleString toLowerCase isDate this = this)
            else period = configured
        end
  | _, _ => period = configured
  end.
Proof.
  intros Hc. cbn zeta.
  unfold Life130._updateData, Life130.dateRange, Life130._getConfiguredPeriod.
  rewrite Hc. cbn [mbind option_bind fmap option_fmap option_map].
  destruct config.(V130.period_entity) as [entity|]; [|reflexivity].
  destruct this.(Life130._hass) as [hass|]; [|destruct (String.eqb entity ""); reflexivity].
  destruct (String.eqb entity ""); [reflexivity|].
  destruct (h_states hass !! entity) as [state|].
  - rewrite stateMap_get_stands_for.
    destruct (Property.stands_for (toLowerCase state)) as [name|] eqn:Hs.
    + split; [reflexivity|]. eapply stands_for_offered, Hs.
    + case_bool_decide; reflexivity.
  - case_bool_decide; [|reflexivity].
    split; [reflexivity|]. intros ->. reflexivity.
Qed.

End Dashboard.

(** * The visual editor *)

Section Editor.

Variable memberText : string -> string.
Variable run : engine.
Variable toLocaleString : number -> number -> string.
Variable parseInt : string -> number.

Lemma or_text_idem (o : option string) (d : string) :
  or_text (Some (or_text o d)) d = or_text o d.
Proof.
  destruct o as [s|]; cbn.
  - destruct (String.eqb_spec s "") as [->|Hs]; cbn.
    + destruct (String.eqb d ""); reflexivity.
    + apply String.eqb_neq in Hs. rewrite Hs. reflexivity.
  - destruct (String.eqb d ""); reflexivity.
Qed.

Lemma not_false_idem (o : option bool) : not_false (Some (not_false o)) = not_false o.
Proof. destruct o as [[|]|]; reflexivity. Qed.

Lemma fields_unmarked (l : list descriptor) :
  Editor130.fields <$> (Editor130.unmarked <$> l) = l.
Proof. induction l as [|d l IH]; cbn; [|rewrite IH]; reflexivity. Qed.

(** X13. What the visual editor keeps of a configuration. The editor
    makes its configuration of eight keys of the one the dashboard hands
    over: the type of the card, the title, the two switches, the currency,
    the decimals, the period and the sources. The configuration it sends
    back with the next [config-changed] event has lost every other key:
    [net_metering], [period_entity] and [cost_decimal_places], which the
    card reads, and whatever else the dashboard kept there. It makes the
    card of 1.3.0 what the original makes it once those three keys are
    taken away. *)
Theorem editor_keeps_eight_keys (given : Editor130.dashboard)
    (ed : Editor130.config) (this : V130.card) :
  Editor130.setConfig given = Some ed ->
  let sent := Editor130._fireConfigChanged ed in
  sent.(Editor130.d_type) = given.(Editor130.d_type) /\
  sent.(Editor130.d_others) = [] /\
  sent.(Editor130.d_config).(c_net_metering) = None /\
  sent.(Editor130.d_config).(c_period_entity) = None /\
  sent.(Editor130.d_config).(c_cost_decimal_places) = None /\
  V130.setConfig memberText run toLocaleString this sent.(Editor130.d_config) =
  V130.setConfig memberText run toLocaleString this (Property.forget given.(Editor130.d_config)).
Proof.
  destruct given as [type c others]. unfold Editor130.setConfig.
  cbn [Editor130.d_type Editor130.d_config].
  destruct c.(c_sources) as [| |l] eqn:Hs; intros [= <-];
    (split; [reflexivity|]); (split; [reflexivity|]); (split; [reflexivity|]);
    (split; [reflexivity|]); (split; [reflexivity|]); unfold V130.setConfig;
    cbn -[or_text not_false V130.render]; rewrite Hs.
  - reflexivity.
  - rewrite fields_unmarked. destruct l as [|source l]; [reflexivity|].
    rewrite !or_text_idem, !not_false_idem. reflexivity.
Qed.

(** X14. The editor can send a configuration that the card refuses. The
    card of 1.3.0 refuses the configuration of a [config-changed] event
    exactly when the editor holds no source, as after the removal of the
    only one; it accepts it after a source was added. The card of 1.0.0
    accepts it in every case. *)
Theorem editor_can_send_what_the_card_refuses (ed : Editor130.config)
    (this130 : V130.card) (this100 : V100.card) :
  let sent (e : Editor130.config) := (Editor130._fireConfigChanged e).(Editor130.d_config) in
  (V130.setConfig memberText run toLocaleString this130 (sent ed) =
     Threw "Please add at least one energy source" this130 <->
   ed.(Editor130.sources) = []) /\
  (forall s, ed.(Editor130.sources) = [s] ->
     exists ed', Editor130.apply parseInt (Editor130.RemoveSource 0) ed = Some ed' /\
       V130.setConfig memberText run toLocaleString this130 (sent ed') =
         Threw "Please add at least one energy source" this130) /\
  (exists ed' after, Editor130.apply parseInt Editor130.AddSource ed = Some ed' /\
     V130.setConfig memberText run toLocaleString this130 (sent ed') = Done after) /\
  (exists after, V100.setConfig run toLocaleString this100 (sent ed) = Done after).
Proof.
  cbn zeta. split; [|split; [|split]].
  - unfold V130.setConfig, Editor130._fireConfigChanged. cbn.
    destruct ed.(Editor130.sources) as [|s l]; cbn.
    + split; reflexivity.
    + split; discriminate.
  - intros s Hs. eexists. split; [reflexivity|].
    unfold V130.setConfig, Editor130._fireConfigChanged. cbn. rewrite Hs. reflexivity.
  - destruct (Editor130.fields <$> ed.(Editor130.sources)) as [|d l] eqn:Hf;
      eexists _, _; (split; [reflexivity|]);
      unfold V130.setConfig, Editor130._fireConfigChanged;
      cbn -[V130.render]; rewrite fmap_app, Hf; reflexivity.
  - eexists. unfold V100.setConfig, Editor130._fireConfigChanged. cbn. reflexivity.
Qed.

(** X15. The number of decimals cannot be set to [0] in the editor.
    Whatever text the field reports and whatever [parseInt] makes of it,
    the number the editor stores and sends is neither [0] nor [NaN]; a
    text that reads as [0] stores [2]. The card itself keeps a [0] that a
    configuration gives. *)
Theorem editor_never_stores_zero_decimals (value : string) (ed : Editor130.config)
    (this : V130.card) (raw : raw_config) (source : descriptor) (l : list descriptor) :
  raw.(c_sources) = Sources (source :: l) ->
  raw.(c_decimal_places) = Some 0%float ->
  (exists ed', Editor130.apply parseInt (Editor130.DecimalPlaces value) ed = Some ed' /\
     truthy ed'.(Editor130.decimal_places) = true /\
     (truthy (parseInt value) = false -> ed'.(Editor130.decimal_places) = 2%float) /\
     (Editor130._fireConfigChanged ed').(Editor130.d_config).(c_decimal_places) =
       Some ed'.(Editor130.decimal_places)) /\
  (exists after stored,
     V130.setConfig memberText run toLocaleString this raw = Done after /\
     after.(V130._config) = Some stored /\
     stored.(V130.decimal_places) = 0%float).
Proof.
  intros Hs Hd. split.
  - eexists. split; [reflexivity|]. cbn.
    destruct (truthy (parseInt value)) eqn:Ht; split_and!; auto; discriminate.
  - unfold V130.setConfig. rewrite Hs. unfold V130.render. cbn [V130._config].
    destruct (V130.buildRows _ _ _ _ _ _) as [t log].
    eexists _, _. split; [reflexivity|]. cbn. rewrite Hd. auto.
Qed.

(** X17. A change of type in the editor. The type is stored as chosen and
    the unit becomes the default unit of the new type, whatever it was;
    the label and the emoji become the defaults of the new type unless
    the user typed them in this editor, in which case they stay. The
    defaults written are those that the card gives a source of that type
    alone, and the other sources are left as they are. *)
Theorem editor_type_change (ed : Editor130.config) (index : nat) (type : string)
    (s : Editor130.source) :
  ed.(Editor130.sources) !! index = Some s ->
  exists ed' s',
    Editor130.apply parseInt (Editor130.SourceType index type) ed = Some ed' /\
    ed'.(Editor130.sources) !! index = Some s' /\
    (forall j, j <> index ->
       ed'.(Editor130.sources) !! j = ed.(Editor130.sources) !! j) /\
    let d := s'.(Editor130.fields) in
    let plain := V130._normalizeSource (Property.only_type type) in
    d.(s_type) = Some type /\
    d.(s_unit) = plain.(s_unit) /\
    d.(s_label) =
      (if s.(Editor130._labelCustomized) then s.(Editor130.fields).(s_label)
       else plain.(s_label)) /\
    d.(s_emoji) =
      (if s.(Editor130._emojiCustomized) then s.(Editor130.fields).(s_emoji)
       else plain.(s_emoji)) /\
    d.(s_entity) = s.(Editor130.fields).(s_entity) /\
    d.(s_rate_entity) = s.(Editor130.fields).(s_rate_entity) /\
    d.(s_rate_static) = s.(Editor130.fields).(s_rate_static).
Proof.
  intros Hs. cbn [Editor130.apply]. unfold Editor130.at_index. rewrite Hs.
  eexists _, _. split; [reflexivity|]. cbn [Editor130.sources Editor130.with_sources].
  split; [apply list_lookup_insert_eq; eapply lookup_lt_Some; exact Hs|].
  split; [intros j Hj; apply list_lookup_insert_ne; congruence|].
  cbn. destruct (String.eqb_spec type "") as [->|Hne]; [cbn; auto 10|].
  auto 10.
Qed.

End Editor.

(** * The net-metering row *)

Section NetMetering.

Variable memberText : string -> string.
Variable run : engine.
Variable toLocaleString : number -> number -> string.

Lemma isNaN_add_r (a b : number) : isNaN b = true -> isNaN (a + b)%float = true.
Proof.
  rewrite !isNaN_spec, add_spec. destruct (Prim2SF b); try discriminate.
  intros _. destruct (Prim2SF a) as [s|s| |s m e]; reflexivity.
Qed.

Lemma isNaN_mul_r (a b : number) : isNaN b = true -> isNaN (a * b)%float = true.
Proof.
  rewrite !isNaN_spec, mul_spec. destruct (Prim2SF b); try discriminate.
  intros _. destruct (Prim2SF a) as [s|s| |s m e]; reflexivity.
Qed.

Lemma map_rows_without_net_metering_v130 (config : V130.config) (hass : option states)
    (data : gmap string number) (acc : V130.totals) (l : list descriptor) :
  V130.map_rows memberText run toLocaleString (Property.without_net_metering130 config) hass data acc l =
  V130.map_rows memberText run toLocaleString config hass data acc l.
Proof.
  revert acc. induction l as [|s l IH]; intros acc; [reflexivity|].
  cbn [V130.map_rows].
  change (V130.row_of memberText run toLocaleString (Property.without_net_metering130 config)
            hass data acc s)
    with (V130.row_of memberText run toLocaleString config hass data acc s).
  destruct (V130.row_of _ _ _ _ _ _ acc s) as [r acc1]. rewrite IH. reflexivity.
Qed.

Lemma map_rows_without_net_metering_v100 (config : V100.config) (hass : option states)
    (data : gmap string V100.entry) (acc : V100.totals) (l : list descriptor) :
  V100.map_rows run toLocaleString (Property.without_net_metering100 config) hass data acc l =
  V100.map_rows run toLocaleString config hass data acc l.
Proof.
  revert acc. induction l as [|s l IH]; intros acc; [reflexivity|].
  cbn [V100.map_rows].
  change (V100.row_of run toLocaleString (Property.without_net_metering100 config)
            hass data acc s)
    with (V100.row_of run toLocaleString config hass data acc s).
  destruct (V100.row_of _ _ _ _ _ acc s) as [r acc1]. rewrite IH. reflexivity.
Qed.

(** X18. The net-metering row. With [net_metering] in the configuration
    the table has the rows it has without it, and one row more: its
    quantity is that of a source computed from the same import and
    export, its cost is always added to the total, and the total always
    applies. No check keeps a cost that is [NaN] out of the total, as one
    does for the rows of 1.3.0: the total is then [NaN]. Both versions. *)
Theorem net_metering_row_always_counts (config130 : V130.config) (config100 : V100.config)
    (nm : net_metering) (hass : option states) (data130 : gmap string number)
    (data100 : gmap string V100.entry) :
  config130.(V130.net_metering_) = Some nm ->
  config100.(V100.net_metering_) = Some nm ->
  (let t := fst (V130.buildRows memberText run toLocaleString config130 hass data130) in
   let t0 := fst (V130.buildRows memberText run toLocaleString
                    (Property.without_net_metering130 config130) hass data130) in
   t.(V130.rows) = t0.(V130.rows) /\ t.(V130.hasAnyCost) = true /\
   exists r, t.(V130.netMeteringRow) = Some r /\
     t.(V130.totalCost) = (t0.(V130.totalCost) + r.(V130.n_cost))%float /\
     r.(V130.n_value) =
       V130._formatNumber toLocaleString
         (V130._getValue data130 (Property.as_source nm)) config130.(V130.decimal_places) /\
     (isNaN r.(V130.n_cost) = true -> isNaN t.(V130.totalCost) = true)) /\
  (let t := fst (V100.buildRows run toLocaleString config100 hass data100) in
   let t0 := fst (V100.buildRows run toLocaleString
                    (Property.without_net_metering100 config100) hass data100) in
   t.(V100.rows) = t0.(V100.rows) /\ t.(V100.hasAnyCost) = true /\
   exists r, t.(V100.netMeteringRow) = Some r /\
     t.(V100.totalCost) = (t0.(V100.totalCost) + r.(V100.n_cost))%float /\
     r.(V100.n_value) =
       V100._formatNumber toLocaleString
         (V100._getValue data100 (Property.as_source nm)) config100.(V100.decimal_places) /\
     (isNaN r.(V100.n_cost) = true -> isNaN t.(V100.totalCost) = true)).
Proof.
  intros H130 H100. split.
  - unfold V130.buildRows.
    cbn [V130.sources V130.net_metering_ Property.without_net_metering130].
    rewrite map_rows_without_net_metering_v130, H130.
    destruct (V130.map_rows _ _ _ _ _ _ _ _) as [mapped acc].
    unfold V130.net_metering_row.
    destruct (V130._formatCost _ _ _ _) as [log text]. cbn.
    split; [reflexivity|]. split; [reflexivity|].
    eexists. split; [reflexivity|]. cbn. split; [reflexivity|].
    split; [reflexivity|]. apply isNaN_add_r.
  - unfold V100.buildRows.
    cbn [V100.sources V100.net_metering_ Property.without_net_metering100].
    rewrite map_rows_without_net_metering_v100, H100.
    destruct (V100.map_rows _ _ _ _ _ _ _) as [mapped acc]. cbn.
    split; [reflexivity|]. split; [reflexivity|].
    eexists. split; [reflexivity|]. cbn. split; [reflexivity|].
    split; [reflexivity|]. apply isNaN_add_r.
Qed.

(** X19. The rate of the net metering when its rate entity does not
    report a number. A rate entity that exists decides the rate alone: a
    state that does not parse as a number gives the rate [0], whatever
    [rate_static] says, so the cost is the net quantity times [0]. The
    rows of the sources of 1.3.0 fall back on [rate_static] there; the net
    metering does not, in either version. *)
Theorem net_metering_ignores_static_rate (config130 : V130.config) (config100 : V100.config)
    (nm : net_metering) (hass : option states) (text : string)
    (data130 : gmap string number) (data100 : gmap string V100.entry) :
  config130.(V130.net_metering_) = Some nm ->
  config100.(V100.net_metering_) = Some nm ->
  nonempty nm.(nm_rate_entity) = true ->
  hass ≫= (λ st, st !! key nm.(nm_rate_entity)) = Some text ->
  isNaN (parseFloat text) = true ->
  (exists r,
     (fst (V130.buildRows memberText run toLocaleString config130 hass data130)).(V130.netMeteringRow)
       = Some r /\
     r.(V130.n_cost) = (V130._getValue data130 (Property.as_source nm) * 0)%float) /\
  (exists r,
     (fst (V100.buildRows run toLocaleString config100 hass data100)).(V100.netMeteringRow)
       = Some r /\
     r.(V100.n_cost) = (V100._getValue data100 (Property.as_source nm) * 0)%float).
Proof.
  intros H130 H100 Hne Hs Hnan.
  assert (Ht : truthy (parseFloat text) = false).
  { unfold truthy. rewrite Hnan, orb_true_r. reflexivity. }
  split.
  - unfold V130.buildRows. rewrite H130.
    destruct (V130.map_rows _ _ _ _ _ _ _ _) as [mapped acc].
    unfold V130.net_metering_row, V130.entity_state. rewrite Hne, Hs, Ht.
    destruct (V130._formatCost _ _ _ _) as [log t]. cbn. eauto.
  - unfold V100.buildRows. rewrite H100.
    destruct (V100.map_rows _ _ _ _ _ _ _) as [mapped acc].
    unfold V100._calculateNetMetering, V100.entity_state. rewrite Hne, Hs, Ht.
    cbn. eauto.
Qed.

(** X20. The net metering without any rate: no rate entity, and no
    [rate_static] in the configuration. 1.3.0 takes the rate [0]. 1.0.0
    takes the absent [rate_static] itself for the rate: the cost of the
    row is [NaN], and so is the total of the table. *)
Theorem net_metering_without_rate (config130 : V130.config) (config100 : V100.config)
    (nm : net_metering) (hass : option states)
    (data130 : gmap string number) (data100 : gmap string V100.entry) :
  config130.(V130.net_metering_) = Some nm ->
  config100.(V100.net_metering_) = Some nm ->
  nonempty nm.(nm_rate_entity) = false ->
  nm.(nm_rate_static) = Undefined ->
  (exists r,
     (fst (V130.buildRows memberText run toLocaleString config130 hass data130)).(V130.netMeteringRow)
       = Some r /\
     r.(V130.n_cost) = (V130._getValue data130 (Property.as_source nm) * 0)%float) /\
  (exists r,
     let t := fst (V100.buildRows run toLocaleString config100 hass data100) in
     t.(V100.netMeteringRow) = Some r /\
     isNaN r.(V100.n_cost) = true /\ isNaN t.(V100.totalCost) = true /\
     t.(V100.hasAnyCost) = true).
Proof.
  intros H130 H100 Hne Hs. split.
  - unfold V130.buildRows. rewrite H130.
    destruct (V130.map_rows _ _ _ _ _ _ _ _) as [mapped acc].
    unfold V130.net_metering_row. rewrite Hne, Hs.
    destruct (V130._formatCost _ _ _ _) as [log t]. cbn. eauto.
  - unfold V100.buildRows. rewrite H100.
    destruct (V100.map_rows _ _ _ _ _ _ _) as [mapped acc].
    unfold V100._calculateNetMetering. rewrite Hne, Hs. cbn.
    eexists. split; [reflexivity|]. cbn.
    assert (Hc : forall x, isNaN (x * nan)%float = true)
      by (intros x; apply isNaN_mul_r; reflexivity).
    split; [apply Hc|]. split; [apply isNaN_add_r, Hc|reflexivity].
Qed.

End NetMetering.

(** * The text of a cost *)

Section CostText.

Variable toLocaleString : number -> number -> string.

Lemma abs_opp (c : number) : abs (- c) = abs c.
Proof.
  apply Prim2SF_inj. rewrite !abs_spec, opp_spec.
  destruct (Prim2SF c) as [s|s| |s m e]; reflexivity.
Qed.

Lemma positive_facts (c : number) :
  (0 <? c)%float = true ->
  (- c <? 0)%float = true /\ (c <? 0)%float = false /\
  isNaN c = false /\ isNaN (- c)%float = false.
Proof.
  rewrite isNaN_opp, isNaN_spec, !ltb_spec, opp_spec.
  change (Prim2SF 0) with (S754_zero false).
  destruct (Prim2SF c) as [s|s| |s m e]; try destruct s; cbn; try discriminate; auto.
Qed.

(** X21. The sign in the text of a cost. A credit is written as the minus
    sign before the text of the same amount as a charge: for a cost
    [c > 0], the text of [-c] is ["-"] followed by the text of [c], in
    both versions. A cost of zero is written without a sign, negative zero
    included. *)
Theorem credit_is_minus_before_charge (config130 : V130.config) (config100 : V100.config)
    (c decimals : number) :
  (0 <? c)%float = true ->
  let text130 x :=
    snd (V130._formatCost toLocaleString (Some config130) (Some x) decimals) in
  let text100 x := V100._formatCost toLocaleString config100 (Some x) decimals in
  text130 (- c)%float = "-" +:+ text130 c /\
  text100 (- c)%float = "-" +:+ text100 c /\
  text130 (-0)%float = text130 0%float /\
  text100 (-0)%float = text100 0%float.
Proof.
  intros Hc. destruct (positive_facts c Hc) as (Hneg & Hpos & Hn & Hn').
  cbn zeta. unfold V130._formatCost, V100._formatCost.
  rewrite Hn, Hn', Hneg, Hpos, abs_opp. split_and!; reflexivity.
Qed.

End CostText.

(** * Examples of the properties above *)


(** The state [This_Week] stands for the period [week], whatever the
    period of the configuration; a period entity named [constructor] stops
    the updates of an element that holds no range. *)
Lemma configured_period_example :
  (Life130._getConfiguredPeriod lower (periodic "input_select.period")
     = Returned (Period "week") /\
   "week"%string ∈ Property.period_names) /\
  (Life130._getConfiguredPeriod lower (periodic "constructor") = Thrown "TypeError" /\
   (Life130._dateRange (periodic "constructor") = None ->
    Life130._updateData native arith_engine plain_format lower dated (periodic "constructor")
      = periodic "constructor")).
Proof.
  split.
  - exact (configured_period_is_offered native arith_engine plain_format lower dated
             (periodic "input_select.period") (periodic_config "input_select.period")
             eq_refl).
  - exact (configured_period_is_offered native arith_engine plain_format lower dated
             (periodic "constructor") (periodic_config "constructor") eq_refl).
Defined.

Lemma card_size_example :
  (2 <= Life130.getCardSize Life130.new /\ 2 <= Life100.getCardSize Life100.new) /\
  match Life130.setConfig native arith_engine plain_format two_sources Life130.new with
  | Done after => Life130.getCardSize after = 1 + Z.of_nat 2
  | Threw _ _ => [solar_raw; grid_net] = []
  end /\
  match Life100.setConfig arith_engine plain_format two_sources Life100.new with
  | Done after => Life100.getCardSize after = 1 + Z.max 1 ((Z.of_nat 2 + 1) / 2)
  | Threw _ _ => False
  end.
Proof.
  exact (card_size_counts_the_sources native arith_engine plain_format Life130.new Life100.new
           two_sources [solar_raw; grid_net] eq_refl).
Defined.

Lemma editor_keeps_eight_keys_example :
  exists ed,
    Editor130.setConfig in_editor = Some ed /\
    (Editor130._fireConfigChanged ed).(Editor130.d_type) =
      Some "custom:custom-energy-sources-card"%string /\
    (Editor130._fireConfigChanged ed).(Editor130.d_others) = [] /\
    (Editor130._fireConfigChanged ed).(Editor130.d_config).(c_net_metering) = None /\
    (Editor130._fireConfigChanged ed).(Editor130.d_config).(c_period_entity) = None /\
    (Editor130._fireConfigChanged ed).(Editor130.d_config).(c_cost_decimal_places) = None /\
    V130.setConfig native arith_engine plain_format fresh130
      (Editor130._fireConfigChanged ed).(Editor130.d_config) =
    V130.setConfig native arith_engine plain_format fresh130 (Property.forget two_sources).
Proof.
  eexists. split; [reflexivity|].
  exact (editor_keeps_eight_keys native arith_engine plain_format in_editor _ fresh130 eq_refl).
Defined.

Lemma editor_never_stores_zero_decimals_example :
  (exists ed',
     Editor130.apply (fun _ => 0%float) (Editor130.DecimalPlaces "0")
       (default (Editor130.with_sources [] {|
          Editor130.type := None; Editor130.title := ""; Editor130.show_header := true;
          Editor130.show_total := true; Editor130.currency := "$";
          Editor130.decimal_places := 2; Editor130.period := "today";
          Editor130.sources := [] |}) (Editor130.setConfig in_editor)) = Some ed' /\
     truthy ed'.(Editor130.decimal_places) = true /\
     (truthy 0 = false -> ed'.(Editor130.decimal_places) = 2%float) /\
     (Editor130._fireConfigChanged ed').(Editor130.d_config).(c_decimal_places) =
       Some ed'.(Editor130.decimal_places)) /\
  (exists after stored,
     V130.setConfig native arith_engine plain_format fresh130 two_sources = Done after /\
     after.(V130._config) = Some stored /\
     stored.(V130.decimal_places) = 0%float).
Proof.
  exact (editor_never_stores_zero_decimals native arith_engine plain_format (fun _ => 0%float)
           "0" _ fresh130 two_sources solar_raw [grid_net] eq_refl eq_refl).
Defined.

Lemma editor_type_change_example :
  exists ed' s',
    Editor130.apply (fun _ => 0%float) (Editor130.SourceType 0 "gas")
      (Editor130.with_sources [Editor130.added] {|
         Editor130.type := None; Editor130.title := ""; Editor130.show_header := true;
         Editor130.show_total := true; Editor130.currency := "$";
         Editor130.decimal_places := 2; Editor130.period := "today";
         Editor130.sources := [] |}) = Some ed' /\
    ed'.(Editor130.sources) !! 0%nat = Some s' /\
    (s'.(Editor130.fields).(s_label), s'.(Editor130.fields).(s_emoji),
     s'.(Editor130.fields).(s_unit)) = (Some (Text "Gas"), Some (Text "🔥"), Some (Text "m³"))%string.
Proof.
  destruct (editor_type_change (fun _ => 0%float)
              (Editor130.with_sources [Editor130.added] {|
                 Editor130.type := None; Editor130.title := "";
                 Editor130.show_header := true;
                 Editor130.show_total := true; Editor130.currency := "$";
                 Editor130.decimal_places := 2; Editor130.period := "today";
                 Editor130.sources := [] |}) 0 "gas" Editor130.added eq_refl)
    as (ed' & s' & Ha & Hs & _ & _ & Hu & Hl & He & _).
  exists ed', s'. split; [exact Ha|]. split; [exact Hs|].
  rewrite Hu, Hl, He. reflexivity.
Defined.

Lemma net_metering_row_always_counts_example :
  let t := fst (V130.buildRows native arith_engine plain_format
                  (metered_net130 None (Num 0.3)) home (deltas 30)) in
  t.(V130.hasAnyCost) = true /\
  exists r, t.(V130.netMeteringRow) = Some r /\
    t.(V130.totalCost) = (0 + r.(V130.n_cost))%float.
Proof.
  destruct (net_metering_row_always_counts native arith_engine plain_format
              (metered_net130 None (Num 0.3)) (metered_net100 None (Num 0.3))
              (metering None (Num 0.3)) home (deltas 30) (entries 30) eq_refl eq_refl)
    as [(_ & Hany & r & Hr & Ht & _) _].
  split; [exact Hany|]. exists r. split; [exact Hr|]. exact Ht.
Defined.

Lemma net_metering_ignores_static_rate_example :
  (exists r,
     (fst (V130.buildRows native arith_engine plain_format
             (metered_net130 (Some "sensor.tariff"%string) (Num 0.3)) home (deltas 30))
     ).(V130.netMeteringRow) = Some r /\
     r.(V130.n_cost) =
       (V130._getValue (deltas 30)
          (Property.as_source (metering (Some "sensor.tariff"%string) (Num 0.3))) * 0)%float) /\
  (exists r,
     (fst (V100.buildRows arith_engine plain_format
             (metered_net100 (Some "sensor.tariff"%string) (Num 0.3)) home (entries 30))
     ).(V100.netMeteringRow) = Some r /\
     r.(V100.n_cost) =
       (V100._getValue (entries 30)
          (Property.as_source (metering (Some "sensor.tariff"%string) (Num 0.3))) * 0)%float).
Proof.
  assert (Hs : home ≫= (λ st, st !! "sensor.tariff"%string) = Some "unavailable"%string)
    by (vm_compute; reflexivity).
  assert (Hn : isNaN (parseFloat "unavailable") = true) by (vm_compute; reflexivity).
  exact (net_metering_ignores_static_rate native arith_engine plain_format
           (metered_net130 (Some "sensor.tariff"%string) (Num 0.3))
           (metered_net100 (Some "sensor.tariff"%string) (Num 0.3))
           (metering (Some "sensor.tariff"%string) (Num 0.3)) home "unavailable"
           (deltas 30) (entries 30) eq_refl eq_refl eq_refl Hs Hn).
Defined.

Lemma net_metering_without_rate_example :
  (exists r,
     (fst (V130.buildRows native arith_engine plain_format
             (metered_net130 None Undefined) home (deltas 30))).(V130.netMeteringRow)
       = Some r /\
     r.(V130.n_cost) =
       (V130._getValue (deltas 30) (Property.as_source (metering None Undefined)) * 0)%float) /\
  (exists r,
     let t := fst (V100.buildRows arith_engine plain_format
                     (metered_net100 None Undefined) home (entries 30)) in
     t.(V100.netMeteringRow) = Some r /\
     isNaN r.(V100.n_cost) = true /\ isNaN t.(V100.totalCost) = true /\
     t.(V100.hasAnyCost) = true).
Proof.
  exact (net_metering_without_rate native arith_engine plain_format
           (metered_net130 None Undefined) (metered_net100 None Undefined)
           (metering None Undefined) home (deltas 30) (entries 30)
           eq_refl eq_refl eq_refl eq_refl).
Defined.

Lemma credit_is_minus_before_charge_example :
  let text130 x :=
    snd (V130._formatCost plain_format (Some (config130 [])) (Some x) 2) in
  let text100 x := V100._formatCost plain_format (config100 []) (Some x) 2 in
  text130 (- 1.5)%float = "-" +:+ text130 1.5%float /\
  text100 (- 1.5)%float = "-" +:+ text100 1.5%float /\
  text130 (-0)%float = text130 0%float /\
  text100 (-0)%float = text100 0%float.
Proof.
  exact (credit_is_minus_before_charge plain_format (config130 []) (config100 [])
           1.5%float 2%float eq_refl).
Defined.

(** * The markup *)

Section Markup.

Variable memberText : string -> string.
Variable run : engine.
Variable toLocaleString : number -> number -> string.

(** X22. A rate warning hides a cost that still counts. When the row of
    a source of 1.3.0 carries a rate warning (its rate entity is missing,
    or its state is no number), the markup of the row shows the warning
    and nothing of the cost: it is the markup of the same row without a
    cost. The cost is computed all the same, from [rate_static] or the
    rate [0], and when it is a number it is added to the total. *)
Theorem rate_warning_hides_a_cost_that_counts (config : V130.config)
    (hass : option states) (data : gmap string number) (acc acc' : V130.totals)
    (source : descriptor) (row : V130.row) (w : string) :
  V130.row_of memberText run toLocaleString config hass data acc source = (Some row, acc') ->
  row.(V130.rateWarning) = Some w ->
  w <> ""%string /\
  Markup130.row_html memberText row = Markup130.row_html memberText (Property.uncosted row) /\
  forall c, row.(V130.cost) = Some c -> isNaN c = false ->
    acc'.(V130.t_totalCost) = (acc.(V130.t_totalCost) + c)%float /\
    acc'.(V130.t_hasAnyCost) = true.
Proof.
  unfold V130.row_of.
  destruct (flag source.(s_hide_if_zero) && _); [discriminate|].
  destruct (V130._calculateCost _ _ _ _ _) as [log1 cost].
  destruct (V130._formatCost _ _ _ _) as [log2 text].
  destruct (match cost with
            | Some c =>
                if negb (isNaN c)
                then ((acc.(V130.t_totalCost) + c)%float, true)
                else (acc.(V130.t_totalCost), acc.(V130.t_hasAnyCost))
            | None => (acc.(V130.t_totalCost), acc.(V130.t_hasAnyCost))
            end) as [total any] eqn:Htotal.
  intros [= <- <-]. cbn [V130.rateWarning V130.cost V130.t_totalCost V130.t_hasAnyCost].
  intros Hw.
  assert (Hne : w <> ""%string).
  { destruct (flag source.(s_show_cost) && nonempty source.(s_rate_entity));
      [|discriminate].
    destruct (V130.entity_state hass (key source.(s_rate_entity))) as [st|].
    - destruct (isNaN (parseFloat st)); [|discriminate].
      injection Hw as <-. discriminate.
    - injection Hw as <-. discriminate. }
  split; [exact Hne|]. split.
  - unfold Markup130.row_html, Property.uncosted.
    cbn [V130.rateWarning V130.emoji V130.label V130.value_ V130.unit_
         V130.isNegative V130.costFormatted V130.isCostCredit].
    rewrite Hw.
    assert (Hn : nonempty (Some w) = true) by (apply nonempty_Some; eauto).
    rewrite Hn. reflexivity.
  - intros c -> Hc. rewrite Hc in Htotal. cbn in Htotal.
    injection Htotal as <- <-. auto.
Qed.

Lemma map_rows_all_hidden_v130 (config : V130.config) (hass : option states)
    (data : gmap string number) (acc : V130.totals) (l : list descriptor) :
  Forall (fun source =>
            flag source.(s_hide_if_zero) = true /\
            strict_eq (V130._getValue data source) 0 = true) l ->
  V130.map_rows memberText run toLocaleString config hass data acc l = (replicate (length l) None, acc).
Proof.
  induction 1 as [|source l [Hh Hz] _ IH]; [reflexivity|].
  cbn [V130.map_rows]. rewrite (row_hidden_v130 memberText run toLocaleString config hass data acc source Hh Hz).
  rewrite IH. reflexivity.
Qed.

(** X23. A card of 1.3.0 whose sources all hide at zero, and which has no
    net metering, writes the card without data as long as all their
    quantities are zero: the style sheet, the header when it is shown, and
    the one line [No energy data available]; no row, no total, no console
    line. That is the case while the card holds no data, before the first
    answer of the recorder and after a failed fetch. *)
Theorem hidden_sources_show_no_data (this : V130.card) (config : V130.config) :
  this.(V130._config) = Some config ->
  config.(V130.net_metering_) = None ->
  Forall (fun source =>
            flag source.(s_hide_if_zero) = true /\
            (this.(V130._energyData) = ∅ \/
             strict_eq (V130._getValue this.(V130._energyData) source) 0 = true))
    config.(V130.sources) ->
  Markup130.render memberText run toLocaleString this = ([], Property.no_data_card config).
Proof.
  intros Hc Hn Hall. unfold Markup130.render, V130.buildRows. rewrite Hc, Hn.
  rewrite map_rows_all_hidden_v130.
  - unfold Markup130.innerHTML. cbn [V130.rows V130.netMeteringRow].
    assert (Hnone : forall n, omap id (replicate n (@None V130.row)) = [])
      by (induction n; [reflexivity|assumption]).
    rewrite Hnone. reflexivity.
  - eapply Forall_impl; [exact Hall|]. intros source [Hh [He|Hz]]; [|auto].
    split; [exact Hh|]. rewrite He. unfold V130._getValue, V130.value_or_zero.
    destruct source.(s_calculate_from); rewrite ?lookup_empty; reflexivity.
Qed.

End Markup.

Lemma rate_warning_hides_a_cost_that_counts_example :
  exists row acc',
    V130.row_of native arith_engine plain_format metered130 home produced start130
      (solar "sensor.missing" (Num 0.15) "" false) = (Some row, acc') /\
    row.(V130.rateWarning) = Some "Entity not found"%string /\
    row.(V130.cost) = Some 6%float /\
    Markup130.row_html native row = Markup130.row_html native (Property.uncosted row) /\
    acc'.(V130.t_totalCost) = (0 + 6)%float /\ acc'.(V130.t_hasAnyCost) = true.
Proof.
  eexists _, _. split; [vm_compute; reflexivity|].
  split; [reflexivity|]. split; [reflexivity|].
  match goal with |- Markup130.row_html native ?r = _ /\ V130.t_totalCost ?a = _ /\ _ =>
    destruct (rate_warning_hides_a_cost_that_counts native arith_engine plain_format
                metered130 home produced start130 a
                (solar "sensor.missing" (Num 0.15) "" false) r "Entity not found")
      as (_ & Hhtml & Hcost)
  end.
  - vm_compute. reflexivity.
  - reflexivity.
  - split; [exact Hhtml|]. apply (Hcost 6%float); reflexivity.
Defined.

Lemma hidden_sources_show_no_data_example :
  Markup130.render native arith_engine plain_format
    {| V130._config := Some (config130 [shy]); V130._hass := None;
       V130._energyData := ∅; V130.shadow := V130.Blank; V130.console := [] |} =
  ([], Property.no_data_card (config130 [shy])).
Proof.
  apply (hidden_sources_show_no_data native arith_engine plain_format _ (config130 [shy]));
    [reflexivity|reflexivity|].
  repeat constructor.
Defined.

(** * The normalizer, once more *)

Section NormalizerAgain.

Variable memberText : string -> string.
Variable run : engine.
Variable toLocaleString : number -> number -> string.

Lemma or_null_idem (v : value) : or_null (or_null v) = or_null v.
Proof. destruct v; reflexivity. Qed.

Lemma or_value_idem (o : option text) (d : text) :
  or_value (Some (or_value o d)) d = or_value o d.
Proof.
  destruct o as [[s|name]|]; cbn.
  - destruct (String.eqb s "") eqn:E; cbn; [|now rewrite E].
    destruct d as [s'|name]; cbn; [|reflexivity]. destruct (String.eqb s' ""); reflexivity.
  - reflexivity.
  - destruct d as [s'|name]; cbn; [|reflexivity]. destruct (String.eqb s' ""); reflexivity.
Qed.

Lemma kept_if_nonempty_idem (o : option string) :
  (if nonempty (if nonempty o then o else None) then (if nonempty o then o else None)
   else None) = (if nonempty o then o else None).
Proof. destruct (nonempty o) eqn:H; [rewrite H|]; reflexivity. Qed.

(** X24. The normalizer is idempotent, in both versions: a source that
    went through it comes out of it unchanged. A configuration that a card
    stored can be handed to the card again without any change. *)
Theorem normalizer_is_idempotent (source : descriptor) :
  V130._normalizeSource (V130._normalizeSource source) = V130._normalizeSource source /\
  V100._normalizeSource (V100._normalizeSource source) = V100._normalizeSource source.
Proof.
  split.
  - unfold V130._normalizeSource.
    cbn [s_type s_entity s_label s_emoji s_unit s_rate_entity s_rate_static
         s_cost_formula s_invert_cost s_show_cost s_hide_if_zero s_calculate_from].
    rewrite !or_text_idem, !or_value_idem, or_null_idem, not_false_idem. reflexivity.
  - unfold V100._normalizeSource.
    cbn [s_type s_entity s_label s_emoji s_unit s_rate_entity s_rate_static
         s_cost_formula s_invert_cost s_show_cost s_hide_if_zero s_calculate_from].
    rewrite !or_text_idem, !or_value_idem, or_null_idem, not_false_idem,
      !kept_if_nonempty_idem.
    reflexivity.
Qed.

(** X25. In 1.0.0 the defaults of the normalizer never reach the table.
    [setConfig] stores the sources as the configuration gives them (the
    spread of the configuration comes last in the object it builds), and a
    row shows the label, the emoji and the unit of its source as they were
    supplied: none where none was supplied. *)
Theorem defaults_never_reach_the_table_v100 (this : V100.card) (config : raw_config)
    (l : list descriptor) :
  config.(c_sources) = Sources l ->
  exists after stored,
    V100.setConfig run toLocaleString this config = Done after /\
    after.(V100._config) = Some stored /\
    stored.(V100.sources) = l /\
    forall hass data acc source row acc',
      V100.row_of run toLocaleString stored hass data acc source = (Some row, acc') ->
      row.(V100.label) = source.(s_label) /\
      row.(V100.emoji) = source.(s_emoji) /\
      row.(V100.unit_) = source.(s_unit).
Proof.
  intros H. unfold V100.setConfig. rewrite H.
  unfold V100.render. cbn [V100._config].
  destruct (V100.buildRows _ _ _ _ _) as [t log].
  eexists _, _. split; [reflexivity|]. split; [reflexivity|]. split; [reflexivity|].
  intros hass data acc source row acc'. unfold V100.row_of.
  destruct (flag source.(s_hide_if_zero) && _); [discriminate|].
  destruct (V100._calculateCost _ _ _ _) as [log1 cost].
  destruct cost as [c|]; intros [= <- <-]; auto.
Qed.

End NormalizerAgain.

Lemma defaults_never_reach_the_table_example :
  exists after stored,
    V100.setConfig arith_engine plain_format fresh100
      {| c_title := None; c_show_header := None; c_show_total := None;
         c_currency := None; c_decimal_places := None; c_cost_decimal_places := None;
         c_period := None; c_period_entity := None; c_sources := Sources [blank];
         c_net_metering := None |} = Done after /\
    after.(V100._config) = Some stored /\
    stored.(V100.sources) = [blank] /\
    exists row acc',
      V100.row_of arith_engine plain_format stored None ∅
        {| V100.t_totalCost := 0; V100.t_hasAnyCost := false; V100.t_console := [] |}
        blank = (Some row, acc') /\
      row.(V100.label) = None /\ row.(V100.emoji) = None /\ row.(V100.unit_) = None.
Proof.
  destruct (defaults_never_reach_the_table_v100 arith_engine plain_format fresh100
              {| c_title := None; c_show_header := None; c_show_total := None;
                 c_currency := None; c_decimal_places := None;
                 c_cost_decimal_places := None;
                 c_period := None; c_period_entity := None; c_sources := Sources [blank];
                 c_net_metering := None |} [blank] eq_refl)
    as (after & stored & Ha & Hc & Hs & Hrow).
  exists after, stored. split; [exact Ha|]. split; [exact Hc|]. split; [exact Hs|].
  destruct (V100.row_of arith_engine plain_format stored None ∅
              {| V100.t_totalCost := 0; V100.t_hasAnyCost := false; V100.t_console := [] |}
              blank) as [[row|] acc'] eqn:Hr.
  - exists row, acc'. split; [reflexivity|]. exact (Hrow _ _ _ _ _ _ Hr).
  - exfalso. unfold V100.row_of in Hr. cbn in Hr. discriminate.
Defined.
